(** * Pre-trade compliance checks, submit gating and approval triage

    A shallow embedding of the decision logic of the order-entry
    front end:

    - [PreTradeChecks]: [runChecks] and the outcome reduction of
      [usePreTradeOutcome] (the PreTradeChecks component);
    - [CreateOrderDialog]: the derived order amount, [formComplete] and
      [canSubmit] of the order dialog;
    - [Approvals]: [generateWarnings], the urgency derivation and the
      approve / reject handlers of the approvals page.

    JavaScript numbers are IEEE 754 binary64 values, so they are modelled
    by Rocq's primitive [float], with the comparisons and the arithmetic
    of the hardware; strings are byte strings (UTF-8).  The host
    functions the code calls ([parseFloat], [toFixed], [toLocaleString])
    are defined in [JS] from the exact rational value of a number, as
    ECMA-262 and ECMA-402 specify them.  The tables the rules read are
    plain objects: a read finds their own properties and those they
    inherit from Object.prototype, and [JS] has the built-in objects
    such a read can reach. *)

From Stdlib Require Import ZArith QArith Qround Floats String Ascii List Bool Lia.
From Stdlib Require Import DecimalString.
From stdpp Require Import base option list gmap strings sorting.

Local Open Scope Z_scope.
Local Open Scope string_scope.

(* ===================================================================== *)
(** * The host language: numbers, truthiness, parsing and formatting      *)
(* ===================================================================== *)

Module JS.

(** ** Comparison and truthiness *)

(** [a > b] and [a <= b] on numbers; both are false as soon as one
    operand is NaN. *)
Definition gt (a b : float) : bool := PrimFloat.ltb b a.
Definition le (a b : float) : bool := PrimFloat.leb a b.

(** ToBoolean on a string: only the empty string is falsy. *)
Definition truthy_string (s : string) : bool := negb (String.eqb s "").

(** ToBoolean on a number: NaN, +0 and -0 are falsy. *)
Definition truthy_number (x : float) : bool := negb (is_nan x || is_zero x).

(** [x || d] on numbers. *)
Definition or_number (x d : float) : float := if truthy_number x then x else d.

(** ** Exact rational values *)

Definition Qpow (b : Z) (e : Z) : Q :=
  if (0 <=? e)%Z then inject_Z (b ^ e) else Qmake 1 (Z.to_pos (b ^ (- e))).

Definition Qlt_bool (a b : Q) : bool := negb (Qle_bool b a).

(** The value of a finite non-zero binary64 number with mantissa [m]
    and exponent [e]. *)
Definition Qvalue (m : positive) (e : Z) : Q := (inject_Z (Zpos m) * Qpow 2 e)%Q.

(** ** Decimal digit strings *)

Definition digits_of_Z (n : Z) : string := NilZero.string_of_uint (N.to_uint (Z.to_N n)).

Fixpoint zeros (n : nat) : string :=
  match n with
  | O => ""
  | S n' => String "0" (zeros n')
  end.

Definition take (n : nat) (s : string) : string := substring 0 n s.
Definition drop (n : nat) (s : string) : string := substring n (String.length s - n) s.

Fixpoint strip_trailing_zeros_rev (l : list ascii) : list ascii :=
  match l with
  | "0"%char :: (_ :: _) as r => strip_trailing_zeros_rev r
  | _ => l
  end.

(** Drops the zeros that end a digit string, keeping at least one digit. *)
Definition strip_trailing_zeros (s : string) : string :=
  string_of_list_ascii (rev (strip_trailing_zeros_rev (rev (list_ascii_of_string s)))).

(** ** Number::toString

    The shortest decimal that reads back as the same binary64 value:
    [k] digits [s] and a position [n] with value [s * 10^(n-k)], [k]
    minimal, closest to the value, even on a tie. *)

Section Shortest.
Variables (m : positive) (e : Z).

Definition value : Q := Qvalue m e.

(** Half-way points to the neighbouring binary64 values. *)
Definition upper : Q := (inject_Z (2 * Zpos m + 1) * Qpow 2 (e - 1))%Q.
Definition lower : Q :=
  if (Zpos m =? 2 ^ 52)%Z && (-1074 <? e)%Z
  then (inject_Z (4 * Zpos m - 1) * Qpow 2 (e - 2))%Q
  else (inject_Z (2 * Zpos m - 1) * Qpow 2 (e - 1))%Q.

(** A half-way point reads back as this value only when the mantissa
    is even. *)
Definition reads_back (l h q : Q) : bool :=
  if Z.even (Zpos m)
  then Qle_bool l q && Qle_bool q h
  else Qlt_bool l q && Qlt_bool q h.

(** The decimal magnitude [N]: [10^(N-1) <= value < 10^N].  The search
    starts below it, at an estimate taken from the binary magnitude
    ([log10 2] is about 0.30103). *)
Fixpoint magnitude_from (fuel : nat) (x : Q) (N : Z) : Z :=
  match fuel with
  | O => N
  | S fuel' => if Qlt_bool x (Qpow 10 N) then N else magnitude_from fuel' x (N + 1)
  end.
Definition magnitude : Z :=
  magnitude_from 8 value ((Z.log2 (Zpos m) + e) * 30103 / 100000 - 1).

(** The best [k]-digit candidate [s * 10^p], if one reads back. *)
Definition candidate (x l h : Q) (N k : Z) : option (Z * Z) :=
  let p := N - k in
  let t := (x * Qpow 10 (- p))%Q in
  let s0 := Qfloor t in
  let ok0 := reads_back l h (inject_Z s0 * Qpow 10 p)%Q in
  let ok1 := reads_back l h (inject_Z (s0 + 1) * Qpow 10 p)%Q in
  match ok0, ok1 with
  | true, true =>
      match Qcompare (2 * t)%Q (inject_Z (2 * s0 + 1)) with
      | Lt => Some (s0, p)
      | Gt => Some (s0 + 1, p)
      | Eq => Some (if Z.even s0 then s0 else s0 + 1, p)
      end
  | true, false => Some (s0, p)
  | false, true => Some (s0 + 1, p)
  | false, false => None
  end.

Fixpoint shortest_from (fuel : nat) (x l h : Q) (N k : Z) : Z * Z :=
  match fuel with
  | O => (Qfloor (x * Qpow 10 (k - N))%Q, N - k)
  | S fuel' =>
      match candidate x l h N k with
      | Some sp => sp
      | None => shortest_from fuel' x l h N (k + 1)
      end
  end.

(** The digits and the position [n] of the decimal point. *)
Definition shortest : string * Z :=
  let '(s, p) := shortest_from 17 value lower upper magnitude 1 in
  let ds := digits_of_Z s in
  (strip_trailing_zeros ds, Z.of_nat (String.length ds) + p).
End Shortest.

(** Number::toString on a positive finite value given by its digits. *)
Definition render_digits (ds : string) (n : Z) : string :=
  let k := Z.of_nat (String.length ds) in
  if (k <=? n)%Z && (n <=? 21)%Z then ds ++ zeros (Z.to_nat (n - k))
  else if (0 <? n)%Z && (n <=? 21)%Z then
    take (Z.to_nat n) ds ++ "." ++ drop (Z.to_nat n) ds
  else if (-6 <? n)%Z && (n <=? 0)%Z then "0." ++ zeros (Z.to_nat (- n)) ++ ds
  else
    let ex := (if (0 <=? n - 1)%Z then "+" else "-") ++ digits_of_Z (Z.abs (n - 1)) in
    if (k =? 1)%Z then ds ++ "e" ++ ex
    else take 1 ds ++ "." ++ drop 1 ds ++ "e" ++ ex.

Definition Number_toString (x : float) : string :=
  match Prim2SF x with
  | S754_nan => "NaN"
  | S754_zero _ => "0"
  | S754_infinity s => if s then "-Infinity" else "Infinity"
  | S754_finite s m e =>
      let '(ds, n) := shortest m e in
      (if s then "-" else "") ++ render_digits ds n
  end.

(** ** Number.prototype.toFixed

    [x.toFixed(f)]: the decimal with [f] fraction digits closest to the
    exact value of [x]; Number::toString of [x] from 10^21 on. *)

(** The integer [n] for which [n / 10^f] is closest to [q], the larger
    one on a tie. *)
Definition round_half_up (q : Q) (f : nat) : Z :=
  Qfloor (q * Qpow 10 (Z.of_nat f) + (1 # 2))%Q.

(** The digits of [n / 10^f], before and after the decimal point. *)
Definition split_fixed (n : Z) (f : nat) : string * string :=
  let ds := digits_of_Z n in
  let ds := zeros (f + 1 - String.length ds) ++ ds in
  (take (String.length ds - f) ds, drop (String.length ds - f) ds).

Definition toFixed (x : float) (f : nat) : string :=
  match Prim2SF x with
  | S754_nan => "NaN"
  | S754_infinity s => if s then "-Infinity" else "Infinity"
  | S754_zero _ => let '(a, b) := split_fixed 0 f in
      if Nat.eqb f 0 then a else a ++ "." ++ b
  | S754_finite s m e =>
      let q := Qvalue m e in
      (if s then "-" else "") ++
      (if Qle_bool (Qpow 10 21) q then Number_toString (PrimFloat.abs x)
       else let '(a, b) := split_fixed (round_half_up q f) f in
            if Nat.eqb f 0 then a else a ++ "." ++ b)
  end.

(** ** Number.prototype.toLocaleString

    [x.toLocaleString(undefined, { minimumFractionDigits: 2 })] with
    en-US as the default locale, the locale the messages are written
    for: at most 3 fraction digits (the default maximum), at least 2,
    the exact value rounded with half-way cases away from zero, groups
    of three digits separated by commas. *)

Fixpoint group_rev (l : list ascii) : list ascii :=
  match l with
  | a :: b :: c :: ((_ :: _) as r) => a :: b :: c :: ","%char :: group_rev r
  | _ => l
  end.

Definition group3 (s : string) : string :=
  string_of_list_ascii (rev (group_rev (rev (list_ascii_of_string s)))).

Fixpoint strip_zeros_rev (l : list ascii) : list ascii :=
  match l with
  | "0"%char :: r => strip_zeros_rev r
  | _ => l
  end.

(** Keeps [min] fraction digits and drops the zeros that end the rest. *)
Definition trim_fraction (min : nat) (frac : string) : string :=
  take min frac ++
  string_of_list_ascii (rev (strip_zeros_rev (rev (list_ascii_of_string (drop min frac))))).

Definition toLocaleString2 (x : float) : string :=
  match Prim2SF x with
  | S754_nan => "NaN"
  | S754_infinity s => (if s then "-" else "") ++ "∞"
  | S754_zero s => (if s then "-" else "") ++ "0.00"
  | S754_finite s m e =>
      let '(a, b) := split_fixed (round_half_up (Qvalue m e) 3) 3 in
      (if s then "-" else "") ++ group3 a ++ "." ++ trim_fraction 2 b
  end.

(** ** String.prototype.includes *)

Fixpoint String_includes (s sub : string) : bool :=
  String.prefix sub s
  || match s with
     | String _ r => String_includes r sub
     | EmptyString => false
     end.

(** ** parseFloat *)

Definition code (c : ascii) : N := N_of_ascii c.

Definition is_digit (c : ascii) : bool := (48 <=? code c)%N && (code c <=? 57)%N.

(** White space and line terminators, one to three bytes long in UTF-8:
    TAB, LF, VT, FF, CR, SP; U+00A0; U+1680, U+2000-U+200A, U+2028,
    U+2029, U+202F, U+205F, U+3000, U+FEFF. *)
Definition ws1 (a : N) : bool := ((9 <=? a) && (a <=? 13) || (a =? 32))%N.
Definition ws2 (a b : N) : bool := ((a =? 194) && (b =? 160))%N.
Definition ws3 (a b c : N) : bool :=
  ((a =? 225) && (b =? 154) && (c =? 128)
   || (a =? 226) && (b =? 128)
      && ((128 <=? c) && (c <=? 138) || (c =? 168) || (c =? 169) || (c =? 175))
   || (a =? 226) && (b =? 129) && (c =? 159)
   || (a =? 227) && (b =? 128) && (c =? 128)
   || (a =? 239) && (b =? 187) && (c =? 191))%N.

Fixpoint trim_start (l : list ascii) : list ascii :=
  match l with
  | [] => []
  | a :: r =>
      if ws1 (code a) then trim_start r
      else match r with
           | [] => l
           | b :: r2 =>
               if ws2 (code a) (code b) then trim_start r2
               else match r2 with
                    | [] => l
                    | c :: r3 =>
                        if ws3 (code a) (code b) (code c) then trim_start r3 else l
                    end
           end
  end.

Fixpoint span_digits (l : list ascii) : list ascii * list ascii :=
  match l with
  | c :: r => if is_digit c then let '(ds, rest) := span_digits r in (c :: ds, rest)
              else ([], l)
  | [] => ([], [])
  end.

Definition digits_value (ds : list ascii) : Z :=
  fold_left (fun acc c => 10 * acc + (Z.of_N (code c) - 48)) ds 0.

Fixpoint starts_with (p l : list ascii) : bool :=
  match p, l with
  | [], _ => true
  | a :: p', b :: l' => Ascii.eqb a b && starts_with p' l'
  | _ :: _, [] => false
  end.

Definition signed_zero (neg : bool) : float :=
  if neg then PrimFloat.neg_zero else PrimFloat.zero.
Definition signed_infinity (neg : bool) : float :=
  if neg then PrimFloat.neg_infinity else PrimFloat.infinity.

(** The binary64 value nearest to [a / b] ([a > 0]), the one with the
    even mantissa on a tie. *)
Definition nearest_binary64 (neg : bool) (a : Z) (b : positive) : float :=
  let q := Qmake a b in
  let L := Z.log2 a - Z.log2 (Zpos b) in
  let e0 := if Qle_bool (Qpow 2 L) q then L - 52 else L - 53 in
  let e := Z.max e0 (-1074) in
  let t := (q * Qpow 2 (- e))%Q in
  let m0 := Qfloor t in
  let m1 := match Qcompare (2 * t)%Q (inject_Z (2 * m0 + 1)) with
            | Lt => m0
            | Gt => m0 + 1
            | Eq => if Z.even m0 then m0 else m0 + 1
            end in
  let '(m2, e2) := if (m1 =? 2 ^ 53)%Z then (2 ^ 52, e + 1) else (m1, e) in
  if (m2 =? 0)%Z then signed_zero neg
  else if (971 <? e2)%Z then signed_infinity neg
  else SF2Prim (S754_finite neg (Z.to_pos m2) e2).

(** The number [mant * 10^ex] written with the decimal digits [mant]. *)
Definition decimal_to_float (neg : bool) (mant : Z) (ex : Z) : float :=
  if (mant =? 0)%Z then signed_zero neg
  else
    let d := Z.of_nat (String.length (digits_of_Z mant)) in
    if (309 <? d + ex)%Z then signed_infinity neg
    else if (d + ex <? -324)%Z then signed_zero neg
    else if (0 <=? ex)%Z then nearest_binary64 neg (mant * 10 ^ ex) 1
    else nearest_binary64 neg mant (Z.to_pos (10 ^ (- ex))).

(** The exponent part [e[+-]digits], when there is one. *)
Definition parse_exponent (l : list ascii) : Z :=
  match l with
  | c :: r =>
      if Ascii.eqb c "e" || Ascii.eqb c "E" then
        let '(neg, r1) := match r with
                          | s :: r' => if Ascii.eqb s "-" then (true, r')
                                       else if Ascii.eqb s "+" then (false, r')
                                       else (false, r)
                          | [] => (false, r)
                          end in
        let '(ds, _) := span_digits r1 in
        match ds with
        | [] => 0
        | _ => if neg then - digits_value ds else digits_value ds
        end
      else 0
  | [] => 0
  end.

(** [parseFloat]: the longest prefix of the trimmed input that is a
    decimal literal, NaN when there is none. *)
Definition parseFloat (input : string) : float :=
  let l := trim_start (list_ascii_of_string input) in
  let '(neg, l1) := match l with
                    | s :: r => if Ascii.eqb s "-" then (true, r)
                                else if Ascii.eqb s "+" then (false, r)
                                else (false, l)
                    | [] => (false, l)
                    end in
  if starts_with (list_ascii_of_string "Infinity") l1 then signed_infinity neg
  else
    let '(ip, l2) := span_digits l1 in
    let '(fp, l3) := match l2 with
                     | c :: r => if Ascii.eqb c "." then span_digits r else ([], l2)
                     | [] => ([], l2)
                     end in
    match ip, fp with
    | [], [] => PrimFloat.nan
    | _, _ =>
        decimal_to_float neg (digits_value (ip ++ fp))
          (parse_exponent l3 - Z.of_nat (List.length fp))
    end.

(** ** Further comparisons *)

(** [a >= b] and [a < b] on numbers. *)
Definition ge (a b : float) : bool := PrimFloat.leb b a.
Definition lt (a b : float) : bool := PrimFloat.ltb a b.

(** ** Math.floor and Math.min *)

(** [Math.floor]: NaN, the zeros and the infinities are returned as they
    are, and so is a finite value without fraction bits; the floor of a
    value in (0, 1) is +0. *)
Definition Math_floor (x : float) : float :=
  match Prim2SF x with
  | S754_finite s m e =>
      if (0 <=? e)%Z then x
      else
        let q := if s then (- Qvalue m e)%Q else Qvalue m e in
        let n := Qfloor q in
        if (n =? 0)%Z then PrimFloat.zero
        else if (0 <? n)%Z then nearest_binary64 false n 1
        else nearest_binary64 true (- n) 1
  | _ => x
  end.

(** [Math.min] of two numbers: NaN as soon as one is NaN, and -0 below
    +0. *)
Definition Math_min (a b : float) : float :=
  if is_nan a || is_nan b then PrimFloat.nan
  else if PrimFloat.ltb a b then a
  else if PrimFloat.ltb b a then b
  else if get_sign a then a else b.

(** ** String.prototype.trim *)

Fixpoint trim_end_rev (l : list ascii) : list ascii :=
  match l with
  | [] => []
  | c :: r =>
      if ws1 (code c) then trim_end_rev r
      else match r with
           | [] => l
           | b :: r2 =>
               if ws2 (code b) (code c) then trim_end_rev r2
               else match r2 with
                    | [] => l
                    | a :: r3 =>
                        if ws3 (code a) (code b) (code c) then trim_end_rev r3 else l
                    end
           end
  end.

Definition String_trim (s : string) : string :=
  string_of_list_ascii
    (rev (trim_end_rev (rev (trim_start (list_ascii_of_string s))))).

(** ** Array.prototype.sort with a comparator

    The sort is stable: an element goes after the elements that the
    comparator does not put behind it.  (For a consistent comparator
    every conforming sort returns this order.) *)
Fixpoint sort_insert {A} (cmp : A -> A -> float) (x : A) (l : list A) : list A :=
  match l with
  | [] => [x]
  | y :: r => if lt (cmp x y) 0 then x :: l else y :: sort_insert cmp x r
  end.

Definition Array_sort {A} (cmp : A -> A -> float) (l : list A) : list A :=
  fold_left (fun acc x => sort_insert cmp x acc) l [].

(** ** Number(string)

    StringToNumber: the whole trimmed string has to be a numeric
    literal (the empty string is +0); a decimal literal has the value
    [parseFloat] gives it. *)

Definition strip_sign (l : list ascii) : list ascii :=
  match l with
  | s :: r => if Ascii.eqb s "-" || Ascii.eqb s "+" then r else l
  | [] => l
  end.

Definition nonempty {A} (l : list A) : bool :=
  match l with
  | [] => false
  | _ :: _ => true
  end.

Definition is_nil {A} (l : list A) : bool := negb (nonempty l).

(** The exponent part, when something follows the digits: all of it
    has to be [e], an optional sign and digits. *)
Definition is_ExponentPart (l : list ascii) : bool :=
  match l with
  | c :: r =>
      (Ascii.eqb c "e" || Ascii.eqb c "E")
      && (let '(ds, rest) := span_digits (strip_sign r) in nonempty ds && is_nil rest)
  | [] => false
  end.

(** StrDecimalLiteral *)
Definition is_StrDecimalLiteral (l : list ascii) : bool :=
  let l1 := strip_sign l in
  if starts_with (list_ascii_of_string "Infinity") l1 then
    Nat.eqb (List.length l1) 8
  else
    let '(ip, l2) := span_digits l1 in
    let '(fp, l3) := match l2 with
                     | c :: r => if Ascii.eqb c "." then span_digits r else ([], l2)
                     | [] => ([], l2)
                     end in
    (nonempty ip || nonempty fp) && (is_nil l3 || is_ExponentPart l3).

(** The value of a digit in a radix up to 16. *)
Definition digit_of (c : ascii) : option Z :=
  let n := Z.of_N (code c) in
  if ((48 <=? n) && (n <=? 57))%Z then Some (n - 48)
  else if ((97 <=? n) && (n <=? 102))%Z then Some (n - 87)
  else if ((65 <=? n) && (n <=? 70))%Z then Some (n - 55)
  else None.

Fixpoint radix_value (radix : Z) (l : list ascii) (acc : Z) : option Z :=
  match l with
  | [] => Some acc
  | c :: r =>
      match digit_of c with
      | Some d => if (d <? radix)%Z then radix_value radix r (radix * acc + d) else None
      | None => None
      end
  end.

(** NonDecimalIntegerLiteral: [0x], [0o] or [0b] and at least one
    digit of the radix. *)
Definition NonDecimalIntegerLiteral (l : list ascii) : option (option Z) :=
  match l with
  | z :: p :: ds =>
      if Ascii.eqb z "0" then
        let radix := if Ascii.eqb p "x" || Ascii.eqb p "X" then Some 16
                     else if Ascii.eqb p "o" || Ascii.eqb p "O" then Some 8
                     else if Ascii.eqb p "b" || Ascii.eqb p "B" then Some 2
                     else None in
        match radix with
        | Some r => Some (if nonempty ds then radix_value r ds 0 else None)
        | None => None
        end
      else None
  | _ => None
  end.

Definition StringToNumber (s : string) : float :=
  let t := String_trim s in
  let l := list_ascii_of_string t in
  if is_nil l then PrimFloat.zero
  else
    match NonDecimalIntegerLiteral l with
    | Some (Some n) => if (n =? 0)%Z then PrimFloat.zero else nearest_binary64 false n 1
    | Some None => PrimFloat.nan
    | None => if is_StrDecimalLiteral l then parseFloat t else PrimFloat.nan
    end.

(** ** Completions *)

(** The outcome of an evaluation: a value, or a thrown TypeError (the
    one exception the modelled code can raise). *)
Inductive Completion (A : Type) :=
  | Normal (a : A)
  | ThrowTypeError.
Arguments Normal {A} a.
Arguments ThrowTypeError {A}.

(** ** Objects and property reads

    The tables of the code are plain objects, so a read [table[key]]
    that finds no own property goes on to %Object.prototype%: for a
    key such as "constructor" or "toString" it finds a built-in
    function, and "__proto__" is an accessor that returns the prototype
    of the object read.  The built-ins are those of ECMA-262 (2024,
    with Annex B.2.2 and B.2.3), unmodified.

    [ObjectPrototype] is %Object.prototype%, [FunctionPrototype] is
    %Function.prototype%, [ObjectConstructor] is %Object%, and
    [BuiltinFunction name length] any other built-in function, with
    its "name" and "length". *)
Inductive Object :=
  | ObjectPrototype
  | FunctionPrototype
  | ObjectConstructor
  | BuiltinFunction (name : string) (length : float).

(** What a read can find other than [undefined] and [null]. *)
Inductive Value :=
  | VNumber (x : float)
  | VString (s : string)
  | VObject (o : Object).

(** A read gives [None] for [undefined] and for [null]: the operators
    the code applies to what it reads ([if], [?.] and [??]) do not tell
    the two apart. *)

Fixpoint assoc (key : string) (l : list (string * float)) : option float :=
  match l with
  | [] => None
  | (k, v) :: r => if String.eqb k key then Some v else assoc key r
  end.

(** The functions of a table, by property key (which is their name),
    with their length. *)
Definition function_named (table : list (string * float)) (key : string)
  : option Object :=
  BuiltinFunction key <$> assoc key table.

(** The methods of %Object.prototype% other than "constructor". *)
Definition Object_prototype_functions : list (string * float) :=
  [ ("hasOwnProperty", 1%float); ("isPrototypeOf", 1%float);
    ("propertyIsEnumerable", 1%float); ("toLocaleString", 0%float);
    ("toString", 0%float); ("valueOf", 0%float);
    ("__defineGetter__", 2%float); ("__defineSetter__", 2%float);
    ("__lookupGetter__", 1%float); ("__lookupSetter__", 1%float) ].

(** The methods of %Function.prototype% other than "constructor". *)
Definition Function_prototype_functions : list (string * float) :=
  [ ("apply", 2%float); ("bind", 1%float); ("call", 1%float); ("toString", 0%float) ].

(** The function properties of %Object%. *)
Definition Object_functions : list (string * float) :=
  [ ("assign", 2%float); ("create", 2%float); ("defineProperties", 2%float);
    ("defineProperty", 3%float); ("entries", 1%float); ("freeze", 1%float);
    ("fromEntries", 1%float); ("getOwnPropertyDescriptor", 2%float);
    ("getOwnPropertyDescriptors", 1%float); ("getOwnPropertyNames", 1%float);
    ("getOwnPropertySymbols", 1%float); ("getPrototypeOf", 1%float);
    ("groupBy", 2%float); ("hasOwn", 2%float); ("is", 2%float);
    ("isExtensible", 1%float); ("isFrozen", 1%float); ("isSealed", 1%float);
    ("keys", 1%float); ("preventExtensions", 1%float); ("seal", 1%float);
    ("setPrototypeOf", 2%float); ("values", 1%float) ].

(** The data properties of %Object.prototype% with a string key. *)
Definition Object_prototype_own (key : string) : option Object :=
  if String.eqb key "constructor" then Some ObjectConstructor
  else function_named Object_prototype_functions key.

(** The data properties of %Function.prototype% that a function
    inherits ("length" and "name" are shadowed by its own). *)
Definition Function_prototype_own (key : string) : option Object :=
  if String.eqb key "constructor" then Some (BuiltinFunction "Function" 1%float)
  else function_named Function_prototype_functions key.

(** The own data properties of a function object. *)
Definition function_own (o : Object) (key : string) : option Value :=
  match o with
  | ObjectPrototype => None
  | FunctionPrototype =>
      if String.eqb key "length" then Some (VNumber 0%float)
      else if String.eqb key "name" then Some (VString "")
      else None
  | ObjectConstructor =>
      if String.eqb key "length" then Some (VNumber 1%float)
      else if String.eqb key "name" then Some (VString "Object")
      else if String.eqb key "prototype" then Some (VObject ObjectPrototype)
      else VObject <$> function_named Object_functions key
  | BuiltinFunction name length =>
      if String.eqb key "length" then Some (VNumber length)
      else if String.eqb key "name" then Some (VString name)
      else None
  end.

(** What a plain object without an own property [key] inherits: for
    "__proto__" its prototype, otherwise a property of
    %Object.prototype%. *)
Definition inherited (key : string) : option Object :=
  if String.eqb key "__proto__" then Some ObjectPrototype
  else Object_prototype_own key.

(** [table[key]] on a plain object whose own properties are the
    entries of [own]. *)
Definition Get {A} (inj : A -> Value) (own : gmap string A) (key : string)
  : option Value :=
  match own !! key with
  | Some a => Some (inj a)
  | None => VObject <$> inherited key
  end.

(** [o[key]] on a built-in object.  On a function the accessors
    "caller" and "arguments" of %Function.prototype% are found before
    %Object.prototype% is reached; their getter is %ThrowTypeError%. *)
Definition Object_get (o : Object) (key : string) : Completion (option Value) :=
  match o with
  | ObjectPrototype =>
      if String.eqb key "__proto__" then Normal None
      else Normal (VObject <$> Object_prototype_own key)
  | _ =>
      match function_own o key with
      | Some v => Normal (Some v)
      | None =>
          if String.eqb key "caller" || String.eqb key "arguments" then ThrowTypeError
          else
            match Function_prototype_own key with
            | Some f => Normal (Some (VObject f))
            | None =>
                if String.eqb key "__proto__" then
                  Normal (Some (VObject match o with
                                        | FunctionPrototype => ObjectPrototype
                                        | _ => FunctionPrototype
                                        end))
                else Normal (VObject <$> Object_prototype_own key)
            end
      end
  end.

(** [o?.[key]] on an inherited object, if there is one. *)
Definition Get_optional (o : option Object) (key : string) : Completion (option Value) :=
  match o with
  | None => Normal None
  | Some o => Object_get o key
  end.

(** [table[k1]?.[k2]] on a plain object whose own properties are plain
    objects themselves. *)
Definition Get_in {A} (inj : A -> Value) (own : gmap string (gmap string A))
    (k1 k2 : string) : Completion (option Value) :=
  match own !! k1 with
  | Some t => Normal (Get inj t k2)
  | None => Get_optional (inherited k1) k2
  end.

(** [v ?? d] *)
Definition nullish_or (v : option Value) (d : float) : Value :=
  default (VNumber d) v.

(** ToBoolean: every object is truthy. *)
Definition ToBoolean (v : Value) : bool :=
  match v with
  | VNumber x => truthy_number x
  | VString s => truthy_string s
  | VObject _ => true
  end.

(** The source text of a built-in function (Function.prototype.toString);
    the standard fixes its shape, this is the text of V8. *)
Definition NativeFunction_source (name : string) : string :=
  "function " ++ name ++ "() { [native code] }".

(** [o.toString()] *)
Definition Object_toString (o : Object) : string :=
  match o with
  | ObjectPrototype => "[object Object]"
  | FunctionPrototype => NativeFunction_source ""
  | ObjectConstructor => NativeFunction_source "Object"
  | BuiltinFunction name _ => NativeFunction_source name
  end.

(** ToPrimitive: [valueOf] of these objects returns the object, so the
    primitive is what [toString] returns. *)
Inductive Primitive :=
  | PNumber (x : float)
  | PString (s : string).

Definition ToPrimitive (v : Value) : Primitive :=
  match v with
  | VNumber x => PNumber x
  | VString s => PString s
  | VObject o => PString (Object_toString o)
  end.

(** ToNumber *)
Definition ToNumber (v : Value) : float :=
  match ToPrimitive v with
  | PNumber x => x
  | PString s => StringToNumber s
  end.

(** ToString of a primitive *)
Definition Primitive_toString (p : Primitive) : string :=
  match p with
  | PNumber x => Number_toString x
  | PString s => s
  end.

(** [a + b]: a concatenation as soon as one primitive is a string. *)
Definition add (a b : Value) : Value :=
  match ToPrimitive a, ToPrimitive b with
  | PNumber x, PNumber y => VNumber (x + y)%float
  | pa, pb => VString (Primitive_toString pa ++ Primitive_toString pb)
  end.

(** [v.toLocaleString(undefined, { minimumFractionDigits: 2 })]: of a
    number the formatted number; Object.prototype.toLocaleString, which
    the other values reach, returns [v.toString()]. *)
Definition toLocaleString2_value (v : Value) : string :=
  match v with
  | VNumber x => toLocaleString2 x
  | VString s => s
  | VObject o => Object_toString o
  end.

(** [Object.is] on numbers: NaN is NaN, and +0 is not -0. *)
Definition Object_is (a b : float) : bool := PrimFloat.Leibniz.eqb a b.

End JS.

(* ===================================================================== *)
(** * The PreTradeChecks component                                        *)
(* ===================================================================== *)

Module PreTradeChecks.

Inductive Severity := hard | soft | warning | pass.

#[global] Instance Severity_eq_dec : EqDecision Severity.
Proof. solve_decision. Defined.

Abbreviation Completion := JS.Completion.
Abbreviation Normal := JS.Normal.
Abbreviation ThrowTypeError := JS.ThrowTypeError.

(** A result.  The messages the rules build are strings; the residency
    rule stores what it read from its table, which is a string for a
    key of the table and a built-in object for a name the table
    inherits. *)
Record CheckResult := {
  name : string;
  severity : Severity;
  message : JS.Value;
}.

Coercion JS.VString : string >-> JS.Value.

Inductive Side := Buy | Sell.

#[global] Instance Side_eq_dec : EqDecision Side.
Proof. solve_decision. Defined.

(** The [security] prop, when it is not [null]. *)
Record Security := {
  symbol : string;
  security_name : string;
  security_type : string;
  price : float;
}.

Record PreTradeChecksProps := {
  security : option Security;
  side : Side;
  orderAmount : float;
  limitPrice : string;
  orderType : string;
  investmentAccount : string;
  cashAccount : string;
}.

(** The module-level tables [runChecks] reads.  They are constants in
    the source ([MOCK] below); the rules are stated for any content.
    A [Record<string, number>] is a plain object: the finite map gives
    its own properties, and a read goes through [JS.Get], which finds
    the inherited ones as well. *)
Record ReferenceData := {
  MOCK_PORTFOLIO : gmap string float;
  MOCK_CASH : gmap string float;
  MOCK_HOLDINGS : gmap string (gmap string float);
  RESTRICTED_SECURITIES : list string;
  RESIDENCY_RESTRICTED : gmap string string;
}.

Definition MOCK : ReferenceData := {|
  MOCK_PORTFOLIO :=
    <["INV-001 Main" := 500000%float]>
      (<["INV-002 Growth" := 250000%float]>
         (<["INV-003 Retirement" := 800000%float]> ∅));
  MOCK_CASH :=
    <["CASH-001 USD" := 75000%float]> (<["CASH-002 EUR" := 42000%float]> ∅);
  MOCK_HOLDINGS :=
    <["INV-001 Main" := <["AAPL" := 80000%float]> (<["MSFT" := 120000%float]> ∅)]>
      (<["INV-002 Growth" := <["TSLA" := 60000%float]> (<["GOOGL" := 40000%float]> ∅)]>
         (<["INV-003 Retirement" :=
              <["US10Y" := 200000%float]> (<["VFIAX" := 300000%float]> ∅)]> ∅));
  RESTRICTED_SECURITIES := ["MUNI7Y"];
  RESIDENCY_RESTRICTED :=
    <["SWPPX" := "Security not available for non-US resident clients"]> ∅;
|}.

(** [Array.prototype.includes] on strings. *)
Definition includes (l : list string) (s : string) : bool :=
  existsb (String.eqb s) l.

Section Rules.
Variable rd : ReferenceData.
Variables (sec : Security) (sd : Side) (amount : float).

(** 1. Restricted security (HARD) *)
Definition restrictedCheck : list CheckResult :=
  if includes (RESTRICTED_SECURITIES rd) (symbol sec) then
    [ {| name := "Restricted Security"; severity := hard;
         message := symbol sec ++
           " is on the restricted securities list and cannot be traded." |} ]
  else [].

(** 2. Client residency check (HARD) *)
Definition residencyCheck : list CheckResult :=
  match JS.Get JS.VString (RESIDENCY_RESTRICTED rd) (symbol sec) with
  | Some reason =>
      if JS.ToBoolean reason then
        [ {| name := "Client Residency"; severity := hard; message := reason |} ]
      else []
  | None => []
  end.

(** 3. Cash sufficiency (HARD for Buy).  The amount is a number, so
    the comparison is one of numbers. *)
Definition cashCheck (cashAccount : string) : list CheckResult :=
  if bool_decide (sd = Buy) && JS.truthy_string cashAccount then
    let available := JS.nullish_or (JS.Get JS.VNumber (MOCK_CASH rd) cashAccount) 0 in
    if JS.gt amount (JS.ToNumber available) then
      [ {| name := "Cash Sufficiency"; severity := hard;
           message := "Insufficient funds. Required: $" ++ JS.toLocaleString2 amount
                      ++ " — Available: $" ++ JS.toLocaleString2_value available |} ]
    else
      [ {| name := "Cash Sufficiency"; severity := pass;
           message := "Sufficient funds available ($"
                      ++ JS.toLocaleString2_value available ++ ")" |} ]
  else [].

(** 4. Concentration limit (HARD, more than 20% of portfolio) *)
Definition portfolioValue (investmentAccount : string) : JS.Value :=
  JS.nullish_or (JS.Get JS.VNumber (MOCK_PORTFOLIO rd) investmentAccount) 0.

(** The read of the holdings throws for some inherited names. *)
Definition currentHolding (investmentAccount : string) : Completion JS.Value :=
  match JS.Get_in JS.VNumber (MOCK_HOLDINGS rd) investmentAccount (symbol sec) with
  | Normal v => Normal (JS.nullish_or v 0)
  | ThrowTypeError => ThrowTypeError
  end.

Definition newExposure (currentHolding : JS.Value) : JS.Value :=
  match sd with
  | Buy => JS.add currentHolding (JS.VNumber amount)
  | Sell => JS.VNumber (JS.ToNumber currentHolding - amount)%float
  end.

Definition concentrationOf (portfolioValue currentHolding : JS.Value) : float :=
  if JS.gt (JS.ToNumber portfolioValue) 0
  then (JS.ToNumber (newExposure currentHolding) / JS.ToNumber portfolioValue * 100)%float
  else 0%float.

Definition concentration (investmentAccount : string) : Completion float :=
  match currentHolding investmentAccount with
  | Normal h => Normal (concentrationOf (portfolioValue investmentAccount) h)
  | ThrowTypeError => ThrowTypeError
  end.

(** The result the rule pushes; none when the read of the holdings
    throws (the call then returns nothing, see [runChecks_call]). *)
Definition concentrationCheck (investmentAccount : string) : list CheckResult :=
  if JS.truthy_string investmentAccount then
    match concentration investmentAccount with
    | Normal c =>
        if JS.gt c 20 then
          [ {| name := "Concentration Limit"; severity := hard;
               message := "Post-trade concentration of " ++ JS.toFixed c 1
                          ++ "% exceeds 20% limit for " ++ symbol sec ++ "." |} ]
        else
          [ {| name := "Concentration Limit"; severity := pass;
               message := "Post-trade concentration: " ++ JS.toFixed c 1
                          ++ "% (limit: 20%)" |} ]
    | ThrowTypeError => []
    end
  else [].

(** 5. Order size limit (SOFT, more than $100K requires approval) *)
Definition orderSizeCheck : list CheckResult :=
  if JS.gt amount 100000 then
    [ {| name := "Order Size"; severity := soft;
         message := "Order value $" ++ JS.toLocaleString2 amount
                    ++ " exceeds $100,000 threshold — requires approval." |} ]
  else
    [ {| name := "Order Size"; severity := pass;
         message := "Order value within threshold" |} ].

(** 6. Price deviation (WARNING, limit price more than 3% from market) *)
Definition deviation (limitPrice : string) : float :=
  let limit := JS.parseFloat limitPrice in
  (abs ((limit - price sec) / price sec) * 100)%float.

Definition priceDeviationCheck (orderType limitPrice : string) : list CheckResult :=
  if String.eqb orderType "Limit" && JS.truthy_string limitPrice then
    let d := deviation limitPrice in
    if JS.gt d 3 then
      [ {| name := "Price Deviation"; severity := warning;
           message := "Limit price deviates " ++ JS.toFixed d 1
                      ++ "% from market price ($" ++ JS.toFixed (price sec) 2 ++ ")." |} ]
    else
      [ {| name := "Price Deviation"; severity := pass;
           message := "Limit price within 3% of market" |} ]
  else [].
End Rules.

(** [runChecks]: the guard, then the six rules in order, each pushing at
    most one result.  This is the list a call returns whenever it
    returns; [runChecks_call] below says when it does. *)
Definition runChecks (rd : ReferenceData) (props : PreTradeChecksProps)
  : list CheckResult :=
  match security props with
  | None => []
  | Some sec =>
      if JS.le (orderAmount props) 0 then []
      else
        (restrictedCheck rd sec
         ++ residencyCheck rd sec
         ++ cashCheck rd (side props) (orderAmount props) (cashAccount props)
         ++ concentrationCheck rd sec (side props) (orderAmount props)
              (investmentAccount props)
         ++ orderSizeCheck (orderAmount props)
         ++ priceDeviationCheck sec (orderType props) (limitPrice props))%list
  end.

(** ** The body of [runChecks], statement by statement

    The same function as a sequence of statements over the local
    [results] array, with the two operations of the body that can
    throw a TypeError: reading a property of [null], and reading a
    property whose getter throws. *)

(** A statement maps the [results] array to its next content. *)
Definition Stmt := list CheckResult -> Completion (list CheckResult).

Definition skip : Stmt := fun results => Normal results.

(** [results.push(r)] *)
Definition push (r : CheckResult) : Stmt :=
  fun results => Normal (results ++ [r])%list.

Definition seq (s1 s2 : Stmt) : Stmt :=
  fun results =>
    match s1 results with
    | Normal results' => s2 results'
    | ThrowTypeError => ThrowTypeError
    end.

(** A read that may throw, then the statement that uses the value
    read. *)
Definition bind {A} (c : Completion A) (k : A -> Stmt) : Stmt :=
  fun results =>
    match c with
    | Normal a => k a results
    | ThrowTypeError => ThrowTypeError
    end.

(** [security.f], then the statement that uses the value read. *)
Definition member {A} (o : option Security) (f : Security -> A) (k : A -> Stmt)
  : Stmt :=
  fun results =>
    match o with
    | Some sec => k (f sec) results
    | None => ThrowTypeError
    end.

Section Statements.
Variable rd : ReferenceData.
Variable props : PreTradeChecksProps.

(** 1. Restricted security (HARD) *)
Definition restricted_stmt : Stmt :=
  member (security props) symbol (fun sym =>
    if includes (RESTRICTED_SECURITIES rd) sym then
      member (security props) symbol (fun sym' =>
        push {| name := "Restricted Security"; severity := hard;
                message := sym' ++
                  " is on the restricted securities list and cannot be traded." |})
    else skip).

(** 2. Client residency check (HARD); the message is a second read
    of the table, which finds what the first found. *)
Definition residency_stmt : Stmt :=
  member (security props) symbol (fun sym =>
    match JS.Get JS.VString (RESIDENCY_RESTRICTED rd) sym with
    | Some reason =>
        if JS.ToBoolean reason then
          member (security props) symbol (fun sym' =>
            push {| name := "Client Residency"; severity := hard;
                    message :=
                      default reason
                        (JS.Get JS.VString (RESIDENCY_RESTRICTED rd) sym') |})
        else skip
    | None => skip
    end).

(** 3. Cash sufficiency (HARD for Buy) *)
Definition cash_stmt : Stmt :=
  if bool_decide (side props = Buy) && JS.truthy_string (cashAccount props) then
    let available :=
      JS.nullish_or (JS.Get JS.VNumber (MOCK_CASH rd) (cashAccount props)) 0 in
    if JS.gt (orderAmount props) (JS.ToNumber available) then
      push {| name := "Cash Sufficiency"; severity := hard;
              message := "Insufficient funds. Required: $"
                         ++ JS.toLocaleString2 (orderAmount props)
                         ++ " — Available: $" ++ JS.toLocaleString2_value available |}
    else
      push {| name := "Cash Sufficiency"; severity := pass;
              message := "Sufficient funds available ($"
                         ++ JS.toLocaleString2_value available ++ ")" |}
  else skip.

(** 4. Concentration limit (HARD, more than 20% of portfolio) *)
Definition concentration_stmt : Stmt :=
  if JS.truthy_string (investmentAccount props) then
    let portfolioValue :=
      JS.nullish_or (JS.Get JS.VNumber (MOCK_PORTFOLIO rd) (investmentAccount props)) 0 in
    member (security props) symbol (fun sym =>
      bind (JS.Get_in JS.VNumber (MOCK_HOLDINGS rd) (investmentAccount props) sym)
        (fun read =>
      let currentHolding := JS.nullish_or read 0 in
      let newExposure :=
        if bool_decide (side props = Buy)
        then JS.add currentHolding (JS.VNumber (orderAmount props))
        else JS.VNumber (JS.ToNumber currentHolding - orderAmount props)%float in
      let concentration :=
        if JS.gt (JS.ToNumber portfolioValue) 0
        then (JS.ToNumber newExposure / JS.ToNumber portfolioValue * 100)%float
        else 0%float in
      if JS.gt concentration 20 then
        member (security props) symbol (fun sym' =>
          push {| name := "Concentration Limit"; severity := hard;
                  message := "Post-trade concentration of "
                             ++ JS.toFixed concentration 1
                             ++ "% exceeds 20% limit for " ++ sym' ++ "." |})
      else
        push {| name := "Concentration Limit"; severity := pass;
                message := "Post-trade concentration: "
                           ++ JS.toFixed concentration 1 ++ "% (limit: 20%)" |}))
  else skip.

(** 5. Order size limit (SOFT, more than $100K requires approval) *)
Definition orderSize_stmt : Stmt :=
  if JS.gt (orderAmount props) 100000 then
    push {| name := "Order Size"; severity := soft;
            message := "Order value $" ++ JS.toLocaleString2 (orderAmount props)
                       ++ " exceeds $100,000 threshold — requires approval." |}
  else
    push {| name := "Order Size"; severity := pass;
            message := "Order value within threshold" |}.

(** 6. Price deviation (WARNING, limit price more than 3% from market) *)
Definition priceDeviation_stmt : Stmt :=
  if String.eqb (orderType props) "Limit" && JS.truthy_string (limitPrice props) then
    let limit := JS.parseFloat (limitPrice props) in
    member (security props) price (fun p =>
    member (security props) price (fun p' =>
      let deviation := (abs ((limit - p) / p') * 100)%float in
      if JS.gt deviation 3 then
        member (security props) price (fun p'' =>
          push {| name := "Price Deviation"; severity := warning;
                  message := "Limit price deviates " ++ JS.toFixed deviation 1
                             ++ "% from market price ($" ++ JS.toFixed p'' 2
                             ++ ")." |})
      else
        push {| name := "Price Deviation"; severity := pass;
                message := "Limit price within 3% of market" |}))
  else skip.

(** The guard returns early; otherwise the six rules run in order. *)
Definition runChecks_stmts : Stmt :=
  if negb (bool_decide (is_Some (security props))) || JS.le (orderAmount props) 0
  then skip
  else
    seq restricted_stmt
      (seq residency_stmt
         (seq cash_stmt
            (seq concentration_stmt
               (seq orderSize_stmt priceDeviation_stmt)))).
End Statements.

(** A call: the body run on the empty array, whose final content is
    returned. *)
Definition runChecks_call (rd : ReferenceData) (props : PreTradeChecksProps)
  : Completion (list CheckResult) :=
  runChecks_stmts rd props [].

Definition OverallOutcome := Severity.

(** [checks.some((c) => c.severity === s)] *)
Definition some_severity (s : Severity) (checks : list CheckResult) : bool :=
  existsb (fun c => bool_decide (severity c = s)) checks.

(** The outcome reduction of [usePreTradeOutcome]. *)
Definition outcomeOf (checks : list CheckResult) : OverallOutcome :=
  if some_severity hard checks then hard
  else if some_severity soft checks then soft
  else if some_severity warning checks then warning
  else pass.

(** [usePreTradeOutcome] at a render that computes the checks: the
    first one, and every one at which a dependency of the memo changed
    ([usePreTradeOutcome_render] below is the hook at any render). *)
Definition usePreTradeOutcome (rd : ReferenceData) (props : PreTradeChecksProps)
  : list CheckResult * OverallOutcome :=
  let checks := runChecks rd props in
  (checks, outcomeOf checks).

(** ** The hook across renders

    [useMemo] keeps the checks of the last render at which one of the
    dependencies changed ([Object.is] on each); the price of the
    security is not one of them.  The outcome is memoised on the
    checks, of which it is a function. *)
Record Deps := {
  dep_symbol : option string;
  dep_side : Side;
  dep_orderAmount : float;
  dep_limitPrice : string;
  dep_orderType : string;
  dep_investmentAccount : string;
  dep_cashAccount : string;
}.

(** [[props.security?.symbol, props.side, props.orderAmount,
    props.limitPrice, props.orderType, props.investmentAccount,
    props.cashAccount]] *)
Definition depsOf (props : PreTradeChecksProps) : Deps := {|
  dep_symbol := symbol <$> security props;
  dep_side := side props;
  dep_orderAmount := orderAmount props;
  dep_limitPrice := limitPrice props;
  dep_orderType := orderType props;
  dep_investmentAccount := investmentAccount props;
  dep_cashAccount := cashAccount props;
|}.

Definition areHookInputsEqual (next prev : Deps) : bool :=
  bool_decide (dep_symbol next = dep_symbol prev)
  && bool_decide (dep_side next = dep_side prev)
  && JS.Object_is (dep_orderAmount next) (dep_orderAmount prev)
  && String.eqb (dep_limitPrice next) (dep_limitPrice prev)
  && String.eqb (dep_orderType next) (dep_orderType prev)
  && String.eqb (dep_investmentAccount next) (dep_investmentAccount prev)
  && String.eqb (dep_cashAccount next) (dep_cashAccount prev).

(** What the hook keeps from one render to the next. *)
Record Memo := {
  memo_checks : list CheckResult;
  memo_deps : Deps;
}.

(** One render of the hook: [None] is the first render. *)
Definition usePreTradeOutcome_render (rd : ReferenceData) (memo : option Memo)
    (props : PreTradeChecksProps) : Memo * (list CheckResult * OverallOutcome) :=
  let checks :=
    match memo with
    | Some m =>
        if areHookInputsEqual (depsOf props) (memo_deps m) then memo_checks m
        else runChecks rd props
    | None => runChecks rd props
    end in
  ({| memo_checks := checks; memo_deps := depsOf props |}, (checks, outcomeOf checks)).

(** The renders of a component that stays mounted, one per props. *)
Fixpoint renders (rd : ReferenceData) (memo : option Memo)
    (ps : list PreTradeChecksProps) : list (list CheckResult * OverallOutcome) :=
  match ps with
  | [] => []
  | props :: rest =>
      let '(memo', result) := usePreTradeOutcome_render rd memo props in
      result :: renders rd (Some memo') rest
  end.

(** The order on severities the specification names: hard > soft >
    warning > pass, and the greatest severity of a list (pass when it is
    empty). *)
Definition severity_rank (s : Severity) : nat :=
  match s with
  | hard => 3
  | soft => 2
  | warning => 1
  | pass => 0
  end.

Definition severity_max (a b : Severity) : Severity :=
  if (severity_rank a <? severity_rank b)%nat then b else a.

Definition max_severity (l : list Severity) : Severity :=
  foldr severity_max pass l.

(** The results a rule contributed to an output, found by the rule's
    name. *)
Definition resultsNamed (n : string) (l : list CheckResult) : list CheckResult :=
  List.filter (fun c => String.eqb (name c) n) l.

(** ** [PreTradeChecksPanel] *)

Definition nonPassChecks (checks : list CheckResult) : list CheckResult :=
  List.filter (fun c => negb (bool_decide (severity c = pass))) checks.

Definition passChecks (checks : list CheckResult) : list CheckResult :=
  List.filter (fun c => bool_decide (severity c = pass)) checks.

(** A length written into a template literal. *)
Definition length_string {A} (l : list A) : string :=
  JS.digits_of_Z (Z.of_nat (List.length l)).

(** The text of the summary header, [None] when the panel renders
    nothing. *)
Definition panelSummary (checks : list CheckResult) (outcome : OverallOutcome)
  : option string :=
  if Nat.eqb (List.length checks) 0 then None
  else
    Some ("Pre-Trade Check: " ++
          if bool_decide (outcome = pass) then "All Passed"
          else length_string (nonPassChecks checks) ++ " issue"
               ++ (if (1 <? List.length (nonPassChecks checks))%nat then "s" else "")
               ++ " found").

(** The line under the expanded details, when at least one check
    passed. *)
Definition panelPassedLine (checks : list CheckResult) : option string :=
  if (0 <? List.length (passChecks checks))%nat then
    Some (length_string (passChecks checks) ++ " check"
          ++ (if (1 <? List.length (passChecks checks))%nat then "s" else "")
          ++ " passed")
  else None.

End PreTradeChecks.

(* ===================================================================== *)
(** * The CreateOrderDialog component                                     *)
(* ===================================================================== *)

Module CreateOrderDialog.

Inductive SecurityType := Equity | Bond | Fund.
Inductive OrderType := Market | Limit | StopLoss.
Inductive TIF := Day | GTC | IOC | FOK.
Inductive OrderBy := Amount | Units.

#[global] Instance OrderType_eq_dec : EqDecision OrderType.
Proof. solve_decision. Defined.

Definition SecurityType_string (t : SecurityType) : string :=
  match t with
  | Equity => "Equity"
  | Bond => "Bond"
  | Fund => "Fund"
  end.

Definition OrderType_string (t : OrderType) : string :=
  match t with
  | Market => "Market"
  | Limit => "Limit"
  | StopLoss => "Stop Loss"
  end.

Record Security := {
  symbol : string;
  name : string;
  type : SecurityType;
  price : float;
  ytm : option float;
  maturity : option string;
  nav : option float;
  coupon : option float;
}.

(** The state cells of the dialog ([typeFilter] is [None] for "All"). *)
Record State := {
  searchQuery : string;
  typeFilter : option SecurityType;
  selectedSecurity : option Security;
  side : PreTradeChecks.Side;
  orderType : OrderType;
  tif : TIF;
  orderBy : OrderBy;
  inputValue : string;
  limitPrice : string;
  investmentAccount : string;
  cashAccount : string;
  showDropdown : bool;
}.

(** The fields of a selected security the check engine reads. *)
Definition security_prop (s : Security) : PreTradeChecks.Security := {|
  PreTradeChecks.symbol := symbol s;
  PreTradeChecks.security_name := name s;
  PreTradeChecks.security_type := SecurityType_string (type s);
  PreTradeChecks.price := price s;
|}.

Section Render.
Variable rd : PreTradeChecks.ReferenceData.
Variable st : State.

Definition effectivePrice : float :=
  if bool_decide (orderType st = Limit) && JS.truthy_string (limitPrice st)
  then JS.parseFloat (limitPrice st)
  else match selectedSecurity st with
       | Some s => price s
       | None => 0%float
       end.

Definition units : float :=
  match orderBy st with
  | Units => JS.or_number (JS.parseFloat (inputValue st)) 0
  | Amount => (JS.or_number (JS.parseFloat (inputValue st)) 0 / effectivePrice)%float
  end.

Definition orderAmount : float :=
  match orderBy st with
  | Amount => JS.or_number (JS.parseFloat (inputValue st)) 0
  | Units => (JS.or_number (JS.parseFloat (inputValue st)) 0 * effectivePrice)%float
  end.

(** The fee rate 0.001 as the binary64 value the literal denotes. *)
Definition fees : float := (orderAmount * 0x1.0624dd2f1a9fcp-10)%float.

Definition total : float :=
  match side st with
  | PreTradeChecks.Buy => (orderAmount + fees)%float
  | PreTradeChecks.Sell => (orderAmount - fees)%float
  end.

(** The props handed to [usePreTradeOutcome]. *)
Definition checkProps : PreTradeChecks.PreTradeChecksProps := {|
  PreTradeChecks.security := security_prop <$> selectedSecurity st;
  PreTradeChecks.side := side st;
  PreTradeChecks.orderAmount := orderAmount;
  PreTradeChecks.limitPrice := limitPrice st;
  PreTradeChecks.orderType := OrderType_string (orderType st);
  PreTradeChecks.investmentAccount := investmentAccount st;
  PreTradeChecks.cashAccount := cashAccount st;
|}.

Definition checks : list PreTradeChecks.CheckResult :=
  fst (PreTradeChecks.usePreTradeOutcome rd checkProps).
Definition outcome : PreTradeChecks.OverallOutcome :=
  snd (PreTradeChecks.usePreTradeOutcome rd checkProps).

(** [formComplete] and [canSubmit], as the truth value of the [&&]
    chains. *)
Definition formComplete : bool :=
  bool_decide (is_Some (selectedSecurity st))
  && JS.truthy_string (inputValue st)
  && JS.gt (JS.parseFloat (inputValue st)) 0
  && JS.truthy_string (investmentAccount st)
  && JS.truthy_string (cashAccount st).

Definition canSubmit : bool :=
  formComplete && negb (bool_decide (outcome = PreTradeChecks.hard)).

(** The [disabled] attribute of the submit button. *)
Definition submitDisabled : bool := negb canSubmit.
End Render.

(** ** [ComplianceColumn] *)

Definition nonPass (checks : list PreTradeChecks.CheckResult)
  : list PreTradeChecks.CheckResult :=
  List.filter (fun c => negb (bool_decide (PreTradeChecks.severity c = PreTradeChecks.pass)))
    checks.

Definition pass (checks : list PreTradeChecks.CheckResult)
  : list PreTradeChecks.CheckResult :=
  List.filter (fun c => bool_decide (PreTradeChecks.severity c = PreTradeChecks.pass)) checks.

(** The heading of the column. *)
Definition columnHeading (checks : list PreTradeChecks.CheckResult)
    (outcome : PreTradeChecks.OverallOutcome) : string :=
  if bool_decide (outcome = PreTradeChecks.pass) then "All Checks Passed"
  else PreTradeChecks.length_string (nonPass checks) ++ " Issue"
       ++ (if (1 <? List.length (nonPass checks))%nat then "s" else "").

(** ** The submit button and the columns of the dialog *)

Definition Side_string (s : PreTradeChecks.Side) : string :=
  match s with
  | PreTradeChecks.Buy => "Buy"
  | PreTradeChecks.Sell => "Sell"
  end.

(** What the submit button shows. *)
Inductive ButtonContent :=
  | CompleteOrderDetails
  | BlockedByPreTradeCheck
  | SendForApproval
  | SideAndSymbol (text : string).

Definition buttonContent (rd : PreTradeChecks.ReferenceData) (st : State)
  : ButtonContent :=
  if negb (formComplete st) then CompleteOrderDetails
  else if bool_decide (outcome rd st = PreTradeChecks.hard) then BlockedByPreTradeCheck
  else if bool_decide (outcome rd st = PreTradeChecks.soft) then SendForApproval
  else SideAndSymbol
         (Side_string (side st) ++ " " ++
          match selectedSecurity st with
          | Some s => symbol s
          | None => "undefined"
          end).

(** The order summary is shown when [canSubmit] holds, the compliance
    column when the form is complete and there is at least one check. *)
Definition summaryShown (rd : PreTradeChecks.ReferenceData) (st : State) : bool :=
  canSubmit rd st.

Definition complianceShown (rd : PreTradeChecks.ReferenceData) (st : State) : bool :=
  formComplete st && (0 <? List.length (checks rd st))%nat.

End CreateOrderDialog.

(* ===================================================================== *)
(** * The approval types and the Approvals page                           *)
(* ===================================================================== *)

Module Approvals.

Inductive SecurityType := Equity | Bond | Fund.
Inductive Side := Buy | Sell.
Inductive WarningType := large_order | price_deviation | unusual_security.
Inductive ApprovalStatus := PendingApproval | Approved | Rejected.
Inductive Urgency := normal | high.

#[global] Instance WarningType_eq_dec : EqDecision WarningType.
Proof. solve_decision. Defined.

Record Warning := {
  type : WarningType;
  message : string;
}.

(** [Omit<ApprovalOrder, "warnings" | "urgency">]; a [Date] is its time
    value, an optional field an [option]. *)
Module Base.
Record t := {
  id : string;
  timestamp : float;
  symbol : string;
  name : string;
  securityType : SecurityType;
  side : Side;
  orderType : string;
  tif : string;
  qty : float;
  filledQty : float;
  price : float;
  limitPrice : option float;
  fees : float;
  account : string;
  submittedBy : string;
  approvalStatus : ApprovalStatus;
  approvalComment : option string;
}.
End Base.

Record ApprovalOrder := {
  id : string;
  timestamp : float;
  symbol : string;
  name : string;
  securityType : SecurityType;
  side : Side;
  orderType : string;
  tif : string;
  qty : float;
  filledQty : float;
  price : float;
  limitPrice : option float;
  fees : float;
  account : string;
  submittedBy : string;
  approvalStatus : ApprovalStatus;
  approvalComment : option string;
  warnings : list Warning;
  urgency : Urgency;
}.

(** The relative deviation [Math.abs(limitPrice - price) / price]. *)
Definition relativeDeviation (limit price : float) : float :=
  (abs (limit - price) / price)%float.

(** [order.limitPrice && ... > 0.03]: an absent, zero or NaN limit price
    is falsy.  0.03 is the binary64 value the literal denotes. *)
Definition deviates (limit price : float) : bool :=
  JS.truthy_number limit && JS.gt (relativeDeviation limit price) 0x1.eb851eb851eb8p-6.

Definition unusual : list string := ["CORP5Y"; "US10Y"].

Definition generateWarnings (order : Base.t) : list Warning :=
  let totalValue := (Base.qty order * Base.price order)%float in
  ((if JS.gt totalValue 100000 then
      [ {| type := large_order;
           message := "Order value $" ++ JS.toLocaleString2 totalValue
                      ++ " exceeds $100,000 threshold." |} ]
    else [])
   ++ match Base.limitPrice order with
      | Some limit =>
          if deviates limit (Base.price order) then
            [ {| type := price_deviation;
                 message := "Limit price deviates "
                   ++ JS.toFixed (relativeDeviation limit (Base.price order) * 100)%float 1
                   ++ "% from market price." |} ]
          else []
      | None => []
      end
   ++ (if PreTradeChecks.includes unusual (Base.symbol order) then
         [ {| type := unusual_security;
              message := Base.symbol order
                ++ " is a fixed-income instrument requiring additional review." |} ]
       else []))%list.

(** [warnings.length >= 2 ? "high" : "normal"] *)
Definition urgencyOf (ws : list Warning) : Urgency :=
  if (2 <=? List.length ws)%nat then high else normal.

(** The end of the generator's callback: [{ ...base, warnings, urgency }]. *)
Definition finalize (base : Base.t) : ApprovalOrder :=
  let ws := generateWarnings base in {|
    id := Base.id base;
    timestamp := Base.timestamp base;
    symbol := Base.symbol base;
    name := Base.name base;
    securityType := Base.securityType base;
    side := Base.side base;
    orderType := Base.orderType base;
    tif := Base.tif base;
    qty := Base.qty base;
    filledQty := Base.filledQty base;
    price := Base.price base;
    limitPrice := Base.limitPrice base;
    fees := Base.fees base;
    account := Base.account base;
    submittedBy := Base.submittedBy base;
    approvalStatus := Base.approvalStatus base;
    approvalComment := Base.approvalComment base;
    warnings := ws;
    urgency := urgencyOf ws;
  |}.

(** [{ ...o, approvalStatus: s, approvalComment: c }] *)
Definition withDecision (o : ApprovalOrder) (s : ApprovalStatus) (c : string)
  : ApprovalOrder := {|
    id := id o;
    timestamp := timestamp o;
    symbol := symbol o;
    name := name o;
    securityType := securityType o;
    side := side o;
    orderType := orderType o;
    tif := tif o;
    qty := qty o;
    filledQty := filledQty o;
    price := price o;
    limitPrice := limitPrice o;
    fees := fees o;
    account := account o;
    submittedBy := submittedBy o;
    approvalStatus := s;
    approvalComment := Some c;
    warnings := warnings o;
    urgency := urgency o;
  |}.

(** The state updaters of [handleApprove] and [handleReject], applied to
    the previous list of orders ([prev.map(...)]). *)
Definition handleApprove (orderId comment : string) (prev : list ApprovalOrder)
  : list ApprovalOrder :=
  (fun o =>
     if String.eqb (id o) orderId
     then withDecision o Approved
            (if JS.truthy_string comment then comment else "Approved.")
     else o) <$> prev.

Definition handleReject (orderId comment : string) (prev : list ApprovalOrder)
  : list ApprovalOrder :=
  (fun o =>
     if String.eqb (id o) orderId then withDecision o Rejected comment else o) <$> prev.

(** Whether a warning of type [t] was derived. *)
Definition hasWarning (t : WarningType) (ws : list Warning) : bool :=
  existsb (fun w => bool_decide (type w = t)) ws.

(** Two orders that agree on every field but [approvalStatus] and
    [approvalComment]. *)
Definition sameButDecision (o o' : ApprovalOrder) : Prop :=
  id o' = id o /\ timestamp o' = timestamp o /\ symbol o' = symbol o
  /\ name o' = name o /\ securityType o' = securityType o /\ side o' = side o
  /\ orderType o' = orderType o /\ tif o' = tif o /\ qty o' = qty o
  /\ filledQty o' = filledQty o /\ price o' = price o
  /\ limitPrice o' = limitPrice o /\ fees o' = fees o /\ account o' = account o
  /\ submittedBy o' = submittedBy o /\ warnings o' = warnings o
  /\ urgency o' = urgency o.

(** ** The list shown by the page *)

#[global] Instance ApprovalStatus_eq_dec : EqDecision ApprovalStatus.
Proof. solve_decision. Defined.

#[global] Instance Urgency_eq_dec : EqDecision Urgency.
Proof. solve_decision. Defined.

Definition ApprovalStatus_string (s : ApprovalStatus) : string :=
  match s with
  | PendingApproval => "Pending Approval"
  | Approved => "Approved"
  | Rejected => "Rejected"
  end.

(** [FilterStatus]: "All" or one approval status. *)
Inductive FilterStatus := All | Only (s : ApprovalStatus).

Definition filtered (filter : FilterStatus) (orders : list ApprovalOrder)
  : list ApprovalOrder :=
  List.filter
    (fun o => match filter with
              | All => true
              | Only s => bool_decide (approvalStatus o = s)
              end) orders.

Definition pendingCount (orders : list ApprovalOrder) : nat :=
  List.length
    (List.filter (fun o => bool_decide (approvalStatus o = PendingApproval)) orders).

Definition highUrgencyCount (orders : list ApprovalOrder) : nat :=
  List.length
    (List.filter (fun o => bool_decide (approvalStatus o = PendingApproval)
                           && bool_decide (urgency o = high)) orders).

(** [orders.reduce(...)]: the number of orders by status; a status no
    order has is a missing key, read as 0 by [counts[s] || 0].  (The
    counters are natural numbers, which binary64 holds exactly.) *)
Definition counts (orders : list ApprovalOrder) : gmap string nat :=
  fold_left
    (fun acc o =>
       <[ApprovalStatus_string (approvalStatus o) :=
           (default 0%nat (acc !! ApprovalStatus_string (approvalStatus o)) + 1)%nat]> acc)
    orders ∅.

(** The label of a filter chip. *)
Definition chipLabel (f : FilterStatus) (orders : list ApprovalOrder) : string :=
  match f with
  | All => "All (" ++ PreTradeChecks.length_string orders ++ ")"
  | Only s =>
      ApprovalStatus_string s ++ " ("
      ++ JS.digits_of_Z
           (Z.of_nat (default 0%nat (counts orders !! ApprovalStatus_string s)))
      ++ ")"
  end.

(** The comparator of the table: pending orders first, then the urgent
    ones, then the most recent. *)
Definition compareRows (a b : ApprovalOrder) : float :=
  if bool_decide (approvalStatus a = PendingApproval)
     && negb (bool_decide (approvalStatus b = PendingApproval)) then (-1)%float
  else if bool_decide (approvalStatus b = PendingApproval)
          && negb (bool_decide (approvalStatus a = PendingApproval)) then 1%float
  else if bool_decide (urgency a = high) && negb (bool_decide (urgency b = high))
  then (-1)%float
  else if bool_decide (urgency b = high) && negb (bool_decide (urgency a = high))
  then 1%float
  else (timestamp b - timestamp a)%float.

(** The rows of the table: [filtered.sort(...)]. *)
Definition rows (filter : FilterStatus) (orders : list ApprovalOrder)
  : list ApprovalOrder :=
  JS.Array_sort compareRows (filtered filter orders).

(** The place of an order in the table: 0 pending and urgent, 1 pending,
    2 decided and urgent, 3 decided. *)
Definition rowRank (o : ApprovalOrder) : nat :=
  ((if bool_decide (approvalStatus o = PendingApproval) then 0 else 2)
   + (if bool_decide (urgency o = high) then 0 else 1))%nat.

End Approvals.

(* ===================================================================== *)
(** * The TradeDetailSheet component                                      *)
(* ===================================================================== *)

Module TradeDetailSheet.

Inductive ActionType := approve | reject.

#[global] Instance ActionType_eq_dec : EqDecision ActionType.
Proof. solve_decision. Defined.

(** The state cells of the sheet. *)
Record State := {
  comment : string;
  action : option ActionType;
}.

Definition initial : State := {| comment := ""; action := None |}.

(** The calls the sheet makes on its props. *)
Inductive Call :=
  | onApprove (orderId comment : string)
  | onReject (orderId comment : string)
  | onOpenChange (open : bool).

(** [!comment.trim()] *)
Definition blank (s : string) : bool := negb (JS.truthy_string (JS.String_trim s)).

Definition handleAction (order : Approvals.ApprovalOrder) (type : ActionType)
    (st : State) : State * list Call :=
  ({| comment := ""; action := None |},
   [ match type with
     | approve => onApprove (Approvals.id order) (comment st)
     | reject => onReject (Approvals.id order) (comment st)
     end;
     onOpenChange false ]).

(** The action area exists for a pending order only. *)
Definition isActionable (order : Approvals.ApprovalOrder) : bool :=
  bool_decide (Approvals.approvalStatus order = Approvals.PendingApproval).

(** The [disabled] attribute of the Reject button. *)
Definition rejectDisabled (st : State) : bool :=
  bool_decide (action st = Some reject) && blank (comment st).

(** What the user does with the sheet. *)
Inductive Event :=
  | TypeComment (text : string)
  | ClickApprove
  | ClickReject.

(** One event on the sheet that shows [order]: the new state and the
    calls made.  Without an order the sheet renders nothing; its
    buttons exist for an actionable order only, and a disabled button
    ignores the click. *)
Definition step (order : option Approvals.ApprovalOrder) (ev : Event) (st : State)
  : State * list Call :=
  match order with
  | None => (st, [])
  | Some o =>
      if isActionable o then
        match ev with
        | TypeComment text => ({| comment := text; action := action st |}, [])
        | ClickApprove => handleAction o approve st
        | ClickReject =>
            if rejectDisabled st then (st, [])
            else if blank (comment st) then
              ({| comment := comment st; action := Some reject |}, [])
            else handleAction o reject st
        end
      else (st, [])
  end.

(** A session: events, each on the order the sheet shows at that time;
    the calls are collected in order. *)
Fixpoint run (evs : list (option Approvals.ApprovalOrder * Event)) (st : State)
  : State * list Call :=
  match evs with
  | [] => (st, [])
  | (order, ev) :: rest =>
      let '(st1, calls1) := step order ev st in
      let '(st2, calls2) := run rest st1 in
      (st2, (calls1 ++ calls2)%list)
  end.

End TradeDetailSheet.

(* ===================================================================== *)
(** * The OrderBook page                                                  *)
(* ===================================================================== *)

Module OrderBook.

Inductive OrderStatus :=
  Pending | Working | PartiallyFilled | Filled | Cancelled | Rejected.
Inductive Side := Buy | Sell.
Inductive SecurityType := Equity | Bond | Fund.

#[global] Instance OrderStatus_eq_dec : EqDecision OrderStatus.
Proof. solve_decision. Defined.

#[global] Instance Side_eq_dec : EqDecision Side.
Proof. solve_decision. Defined.

Record Order := {
  id : string;
  timestamp : float;
  symbol : string;
  name : string;
  securityType : SecurityType;
  side : Side;
  orderType : string;
  tif : string;
  qty : float;
  filledQty : float;
  price : float;
  limitPrice : option float;
  status : OrderStatus;
  account : string;
  fees : float;
}.

Definition OrderStatus_string (s : OrderStatus) : string :=
  match s with
  | Pending => "Pending"
  | Working => "Working"
  | PartiallyFilled => "Partially Filled"
  | Filled => "Filled"
  | Cancelled => "Cancelled"
  | Rejected => "Rejected"
  end.

(** [{ ...order, status: s }] and [{ ...order, filledQty: f, status: s }] *)
Definition withStatus (order : Order) (s : OrderStatus) : Order := {|
  id := id order; timestamp := timestamp order; symbol := symbol order;
  name := name order; securityType := securityType order; side := side order;
  orderType := orderType order; tif := tif order; qty := qty order;
  filledQty := filledQty order; price := price order;
  limitPrice := limitPrice order; status := s; account := account order;
  fees := fees order;
|}.

Definition withFill (order : Order) (f : float) (s : OrderStatus) : Order := {|
  id := id order; timestamp := timestamp order; symbol := symbol order;
  name := name order; securityType := securityType order; side := side order;
  orderType := orderType order; tif := tif order; qty := qty order;
  filledQty := f; price := price order;
  limitPrice := limitPrice order; status := s; account := account order;
  fees := fees order;
|}.

(** An order the simulation returns as it is, before drawing a random
    number. *)
Definition settled (order : Order) : bool :=
  bool_decide (status order = Filled) || bool_decide (status order = Cancelled)
  || bool_decide (status order = Rejected).

(** The fill after one more slice of the quantity, and the status that
    goes with it. *)
Definition fillBy (order : Order) (fraction : float) : Order :=
  let newFilled :=
    JS.Math_min (qty order)
      (filledQty order + JS.Math_floor (qty order * fraction))%float in
  withFill order newFilled
    (if JS.ge newFilled (qty order) then Filled else PartiallyFilled).

(** The update of one order that is not settled, with the number
    [rand] drawn for it.  The constants 0.3, 0.25, 0.2 and 0.05 are the
    binary64 values the literals denote. *)
Definition update (rand : float) (order : Order) : Order :=
  if bool_decide (status order = Pending) && JS.lt rand 0x1.3333333333333p-2 then
    withStatus order Working
  else if bool_decide (status order = Working) && JS.lt rand 0x1p-2 then
    fillBy order 0x1.999999999999ap-3
  else if bool_decide (status order = PartiallyFilled)
          && JS.lt rand 0x1.3333333333333p-2 then
    fillBy order 0x1p-2
  else if JS.lt rand 0x1.999999999999ap-5 then withStatus order Cancelled
  else order.

(** [simulateUpdates] on the previous list: [Math.random] is the
    sequence [random], of which [k] numbers were drawn before; one more
    is drawn for every order that is not settled.  Returns the next
    index and the new list. *)
Fixpoint simulateUpdates (random : nat -> float) (k : nat) (prev : list Order)
  : nat * list Order :=
  match prev with
  | [] => (k, [])
  | order :: rest =>
      if settled order then
        let '(k', rest') := simulateUpdates random k rest in (k', order :: rest')
      else
        let '(k', rest') := simulateUpdates random (S k) rest in
        (k', update (random k) order :: rest')
  end.

(** [n] ticks of the interval timer. *)
Fixpoint ticks (random : nat -> float) (n : nat) (k : nat) (orders : list Order)
  : list Order :=
  match n with
  | O => orders
  | S n' =>
      let '(k', orders') := simulateUpdates random k orders in
      ticks random n' k' orders'
  end.

(** The status and side filters ([None] is "All"). *)
Definition filtered (statusFilter : option OrderStatus) (sideFilter : option Side)
    (orders : list Order) : list Order :=
  List.filter
    (fun o =>
       if match statusFilter with
          | Some s => negb (bool_decide (status o = s))
          | None => false
          end then false
       else if match sideFilter with
               | Some s => negb (bool_decide (side o = s))
               | None => false
               end then false
       else true) orders.

(** The comparator of the table: the difference of the times, the
    later one first. *)
Definition compareRows (a b : Order) : float := (timestamp b - timestamp a)%float.

(** The rows of the table: [filtered.sort(...)]. *)
Definition rows (statusFilter : option OrderStatus) (sideFilter : option Side)
    (orders : list Order) : list Order :=
  JS.Array_sort compareRows (filtered statusFilter sideFilter orders).

(** The number of orders by status (see [Approvals.counts]). *)
Definition counts (orders : list Order) : gmap string nat :=
  fold_left
    (fun acc o =>
       <[OrderStatus_string (status o) :=
           (default 0%nat (acc !! OrderStatus_string (status o)) + 1)%nat]> acc)
    orders ∅.

(** The status of an order can only move forward: 0 Pending, 1 Working,
    2 Partially Filled, 3 settled. *)
Definition progress (s : OrderStatus) : nat :=
  match s with
  | Pending => 0
  | Working => 1
  | PartiallyFilled => 2
  | Filled | Cancelled | Rejected => 3
  end.

(** The status an order may have after one tick, given the one before. *)
Definition next (s s' : OrderStatus) : Prop :=
  match s with
  | Pending => s' = Pending \/ s' = Working
  | Working => s' = Working \/ s' = PartiallyFilled \/ s' = Filled
  | PartiallyFilled => s' = PartiallyFilled \/ s' = Filled
  | _ => s' = s
  end.

(** Two orders that agree on every field but [status] and [filledQty]. *)
Definition sameButProgress (o o' : Order) : Prop :=
  id o' = id o /\ timestamp o' = timestamp o /\ symbol o' = symbol o
  /\ name o' = name o /\ securityType o' = securityType o /\ side o' = side o
  /\ orderType o' = orderType o /\ tif o' = tif o /\ qty o' = qty o
  /\ price o' = price o /\ limitPrice o' = limitPrice o
  /\ account o' = account o /\ fees o' = fees o.

End OrderBook.

(* ===================================================================== *)
(** * Sample orders                                                       *)
(* ===================================================================== *)

Module Examples.
Import PreTradeChecks.

Definition AAPL : Security := {|
  symbol := "AAPL"; security_name := "Apple Inc."; security_type := "Equity";
  price := 100%float;
|}.

Definition MUNI7Y : Security := {|
  symbol := "MUNI7Y"; security_name := "Municipal Bond 7Y"; security_type := "Bond";
  price := 100%float;
|}.

(** A market buy of AAPL from the first accounts of the tables. *)
Definition buy (sec : option Security) (amount : float) : PreTradeChecksProps := {|
  security := sec; side := Buy; orderAmount := amount; limitPrice := "";
  orderType := "Market"; investmentAccount := "INV-001 Main";
  cashAccount := "CASH-001 USD";
|}.

Definition SWPPX : Security := {|
  symbol := "SWPPX"; security_name := "Schwab S&P 500"; security_type := "Fund";
  price := 100%float;
|}.

(** A limit buy of AAPL for 5000 at the given limit price. *)
Definition limit_buy (limit : string) : PreTradeChecksProps := {|
  security := Some AAPL; side := Buy; orderAmount := 5000%float; limitPrice := limit;
  orderType := "Limit"; investmentAccount := ""; cashAccount := "";
|}.


(** A security whose symbol is the name of an accessor of functions. *)
Definition CALLER : Security := {|
  symbol := "caller"; security_name := "Caller Corp."; security_type := "Equity";
  price := 100%float;
|}.

(** A market buy of AAPL for 5000 paid from the given cash account. *)
Definition buy_from (cash : string) : PreTradeChecksProps := {|
  security := Some AAPL; side := Buy; orderAmount := 5000%float; limitPrice := "";
  orderType := "Market"; investmentAccount := ""; cashAccount := cash;
|}.


(** A limit buy of CALLER into an account named "constructor". *)
Definition caller_order : PreTradeChecksProps := {|
  security := Some CALLER; side := Buy; orderAmount := 5000%float;
  limitPrice := "abc"; orderType := "Limit"; investmentAccount := "constructor";
  cashAccount := "";
|}.

(** A limit buy whose limit price is not a number. *)
Definition limit_abc : PreTradeChecksProps := {|
  security := Some AAPL; side := Buy; orderAmount := 5000%float; limitPrice := "abc";
  orderType := "Limit"; investmentAccount := ""; cashAccount := "";
|}.

End Examples.

Module DialogExamples.
Import CreateOrderDialog.

(** A form with AAPL selected and both accounts chosen. *)
Definition form (by_ : OrderBy) (type_ : OrderType) (input limit : string) : State := {|
  searchQuery := "AAPL"; typeFilter := None;
  selectedSecurity :=
    Some {| symbol := "AAPL"; name := "Apple Inc."; type := Equity;
            price := 100%float; ytm := None; maturity := None; nav := None;
            coupon := None |};
  side := PreTradeChecks.Buy; orderType := type_; tif := Day; orderBy := by_;
  inputValue := input; limitPrice := limit;
  investmentAccount := "INV-001 Main"; cashAccount := "CASH-001 USD";
  showDropdown := false;
|}.

End DialogExamples.

Module ApprovalExamples.
Import Approvals.

(** A pending limit order for 10 units at a market price of 100. *)
Definition order (sym : string) (limit : option float) : Base.t := {|
  Base.id := "APR-000"; Base.timestamp := 0%float; Base.symbol := sym;
  Base.name := "Apple Inc."; Base.securityType := Equity; Base.side := Buy;
  Base.orderType := "Limit"; Base.tif := "Day"; Base.qty := 10%float;
  Base.filledQty := 0%float; Base.price := 100%float; Base.limitPrice := limit;
  Base.fees := 1%float; Base.account := "INV-001 Main"; Base.submittedBy := "J. Smith";
  Base.approvalStatus := PendingApproval; Base.approvalComment := None;
|}.

End ApprovalExamples.

Module OrderBookExamples.
Import OrderBook.

(** An order for 100 units in the given state. *)
Definition order (s : OrderStatus) (filled : float) : Order := {|
  id := "ORD-000"; timestamp := 0%float; symbol := "AAPL"; name := "Apple Inc.";
  securityType := Equity; side := Buy; orderType := "Market"; tif := "Day";
  qty := 100%float; filledQty := filled; price := 100%float; limitPrice := None;
  status := s; account := "INV-001 Main"; fees := 10%float;
|}.

End OrderBookExamples.

(* ===================================================================== *)
(** * Facts about the host language                                      *)
(* ===================================================================== *)

Module JSFacts.

Local Open Scope string_scope.

Lemma SFcompare_refl s : s <> S754_nan -> SFcompare s s = Some Eq.
Proof.
  destruct s as [[|]|[|]| |[|] m e]; intros H; try reflexivity; try congruence.
  all: cbn; rewrite Z.compare_refl, Pos.compare_cont_refl; reflexivity.
Qed.

Lemma Prim2SF_is_nan x : is_nan x = true -> Prim2SF x = S754_nan.
Proof.
  unfold is_nan. rewrite FloatAxioms.eqb_spec. unfold SFeqb. intros H.
  destruct (Prim2SF x) eqn:E; try reflexivity;
    rewrite SFcompare_refl in H by discriminate; discriminate.
Qed.

Lemma is_nan_Prim2SF x : Prim2SF x = S754_nan -> is_nan x = true.
Proof. intros H. unfold is_nan. rewrite FloatAxioms.eqb_spec, H. reflexivity. Qed.

Lemma is_nan_sub_l x y : is_nan x = true -> is_nan (x - y) = true.
Proof.
  intros H. apply is_nan_Prim2SF. rewrite FloatAxioms.sub_spec, (Prim2SF_is_nan _ H). reflexivity.
Qed.

Lemma is_nan_div_l x y : is_nan x = true -> is_nan (x / y) = true.
Proof.
  intros H. apply is_nan_Prim2SF. rewrite FloatAxioms.div_spec, (Prim2SF_is_nan _ H). reflexivity.
Qed.

Lemma is_nan_mul_l x y : is_nan x = true -> is_nan (x * y) = true.
Proof.
  intros H. apply is_nan_Prim2SF. rewrite FloatAxioms.mul_spec, (Prim2SF_is_nan _ H). reflexivity.
Qed.

Lemma is_nan_abs x : is_nan x = true -> is_nan (abs x) = true.
Proof.
  intros H. apply is_nan_Prim2SF. rewrite FloatAxioms.abs_spec, (Prim2SF_is_nan _ H). reflexivity.
Qed.

Lemma gt_nan_l x c : is_nan x = true -> JS.gt x c = false.
Proof.
  intros H. unfold JS.gt. rewrite FloatAxioms.ltb_spec, (Prim2SF_is_nan _ H).
  unfold SFltb. destruct (Prim2SF c); reflexivity.
Qed.

Lemma SFcompare_Lt_Gt a b : SFcompare a b = Some Lt -> SFcompare b a = Some Gt.
Proof.
  destruct a as [[|]|[|]| |[|] m1 e1], b as [[|]|[|]| |[|] m2 e2]; cbn;
    try congruence.
  all: rewrite (Z.compare_antisym e1 e2);
    replace (Pos.compare_cont Eq m2 m1) with (CompOpp (Pos.compare_cont Eq m1 m2))
      by (rewrite Pos.compare_cont_antisym; reflexivity);
    destruct (e1 ?= e2)%Z; cbn; try congruence;
    destruct (Pos.compare_cont Eq m1 m2); cbn; congruence.
Qed.


Lemma truthy_string_spec s : JS.truthy_string s = true <-> s <> "".
Proof.
  unfold JS.truthy_string. destruct (String.eqb_spec s ""); cbn; split; congruence.
Qed.

(** ** The host functions on sample inputs *)

Lemma parseFloat_empty : is_nan (JS.parseFloat "") = true.
Proof. reflexivity. Qed.

Example parseFloat_samples :
  JS.parseFloat "104" = 104%float
  /\ JS.parseFloat "102.5" = 102.5%float
  /\ JS.parseFloat "  1e5xyz" = 100000%float
  /\ JS.parseFloat "-.5" = (-0.5)%float
  /\ JS.parseFloat "0.03" = 0x1.eb851eb851eb8p-6%float
  /\ JS.parseFloat "1e400" = infinity
  /\ is_nan (JS.parseFloat "abc") = true
  /\ is_nan (JS.parseFloat ".") = true.
Proof. repeat split; reflexivity. Qed.

Example toFixed_samples :
  JS.toFixed 21 1 = "21.0"
  /\ JS.toFixed 0.25 1 = "0.3"
  /\ JS.toFixed 0x1.eb851eb851eb8p-6 1 = "0.0"
  /\ JS.toFixed (-1.5) 0 = "-2"
  /\ JS.toFixed 1e21 1 = "1e+21"
  /\ JS.toFixed nan 1 = "NaN".
Proof. repeat split; vm_compute; reflexivity. Qed.

Example toLocaleString2_samples :
  JS.toLocaleString2 80000 = "80,000.00"
  /\ JS.toLocaleString2 1234.5 = "1,234.50"
  /\ JS.toLocaleString2 0.125 = "0.125"
  /\ JS.toLocaleString2 0.0625 = "0.063"
  /\ JS.toLocaleString2 (-1000000) = "-1,000,000.00"
  /\ JS.toLocaleString2 nan = "NaN".
Proof. repeat split; vm_compute; reflexivity. Qed.

Example Number_toString_samples :
  JS.Number_toString 0x1.3333333333334p-2 = "0.30000000000000004"
  /\ JS.Number_toString 1e21 = "1e+21"
  /\ JS.Number_toString 123456789 = "123456789"
  /\ JS.Number_toString 0x1p-1074 = "5e-324"
  /\ JS.Number_toString (-0.5) = "-0.5".
Proof. repeat split; vm_compute; reflexivity. Qed.

Lemma gt_nan_zero : JS.gt nan 0 = false.
Proof. reflexivity. Qed.

(** ** Property reads *)

Lemma Get_own {A} (inj : A -> JS.Value) (own : gmap string A) key a :
  own !! key = Some a -> JS.Get inj own key = Some (inj a).
Proof. unfold JS.Get. by intros ->. Qed.

Lemma Get_not_inherited {A} (inj : A -> JS.Value) (own : gmap string A) key :
  JS.inherited key = None -> JS.Get inj own key = inj <$> own !! key.
Proof. unfold JS.Get. intros ->. by destruct (own !! key). Qed.

Lemma Get_inherited {A} (inj : A -> JS.Value) (own : gmap string A) key o :
  own !! key = None -> JS.inherited key = Some o ->
  JS.Get inj own key = Some (JS.VObject o).
Proof. unfold JS.Get. by intros -> ->. Qed.


(** The keys a plain object inherits. *)
Lemma inherited_keys key o :
  JS.inherited key = Some o ->
  key ∈ ["__proto__"; "constructor"; "hasOwnProperty"; "isPrototypeOf";
         "propertyIsEnumerable"; "toLocaleString"; "toString"; "valueOf";
         "__defineGetter__"; "__defineSetter__"; "__lookupGetter__";
         "__lookupSetter__"].
Proof.
  unfold JS.inherited, JS.Object_prototype_own, JS.function_named,
    JS.Object_prototype_functions. cbn [JS.assoc].
  repeat match goal with
    | |- context [String.eqb ?a key] =>
        destruct (String.eqb_spec a key) as [<-|?];
          [intros _; repeat first [apply list_elem_of_here | apply list_elem_of_further]|]
    | |- context [String.eqb key ?a] =>
        destruct (String.eqb_spec key a) as [->|?];
          [intros _; repeat first [apply list_elem_of_here | apply list_elem_of_further]|]
    end.
  done.
Qed.

(** An inherited object is no number: as a number it is NaN. *)
Lemma inherited_nan key o :
  JS.inherited key = Some o -> is_nan (JS.ToNumber (JS.VObject o)) = true.
Proof.
  intros H. pose proof (inherited_keys key o H) as Hk.
  repeat (apply elem_of_cons in Hk as [->|Hk];
          [vm_compute in H; injection H as <-; vm_compute; reflexivity|]).
  by apply elem_of_nil in Hk.
Qed.

Lemma inherited_empty : JS.inherited "" = None.
Proof. reflexivity. Qed.

(** A read through an inherited object throws exactly for the two
    accessors of functions. *)
Lemma Object_get_throws o key :
  JS.Object_get o key = JS.ThrowTypeError
  <-> o <> JS.ObjectPrototype /\ (key = "caller" \/ key = "arguments").
Proof.
  split.
  - unfold JS.Object_get. destruct o.
    + by destruct (String.eqb key "__proto__").
    + destruct (JS.function_own JS.FunctionPrototype key); [done|].
      destruct (String.eqb_spec key "caller") as [->|?]; [by auto|].
      destruct (String.eqb_spec key "arguments") as [->|?]; [by auto|].
      cbn [orb]. destruct (JS.Function_prototype_own key); [done|].
      by destruct (String.eqb key "__proto__").
    + destruct (JS.function_own JS.ObjectConstructor key); [done|].
      destruct (String.eqb_spec key "caller") as [->|?]; [by auto|].
      destruct (String.eqb_spec key "arguments") as [->|?]; [by auto|].
      cbn [orb]. destruct (JS.Function_prototype_own key); [done|].
      by destruct (String.eqb key "__proto__").
    + destruct (JS.function_own (JS.BuiltinFunction name length) key); [done|].
      destruct (String.eqb_spec key "caller") as [->|?]; [by auto|].
      destruct (String.eqb_spec key "arguments") as [->|?]; [by auto|].
      cbn [orb]. destruct (JS.Function_prototype_own key); [done|].
      by destruct (String.eqb key "__proto__").
  - intros [Ho [-> | ->]]; by destruct o.
Qed.

Lemma Get_in_throws {A} (inj : A -> JS.Value) (own : gmap string (gmap string A))
    k1 k2 :
  JS.Get_in inj own k1 k2 = JS.ThrowTypeError
  <-> own !! k1 = None
      /\ (exists f, JS.inherited k1 = Some f /\ f <> JS.ObjectPrototype)
      /\ (k2 = "caller" \/ k2 = "arguments").
Proof.
  unfold JS.Get_in, JS.Get_optional. destruct (own !! k1) as [t|].
  { split; [done|]. by intros (? & _). }
  destruct (JS.inherited k1) as [o|].
  - rewrite Object_get_throws. split.
    + intros [Ho Hk]. split; [done|]. split; [by exists o|done].
    + intros (_ & (f & [= <-] & Hf) & Hk). done.
  - split; [done|]. by intros (_ & (f & ? & _) & _).
Qed.

(** ** The host functions on sample inputs, continued *)

Example StringToNumber_samples :
  JS.StringToNumber "  12.5e1 " = 125%float
  /\ JS.StringToNumber "0x1F" = 31%float
  /\ JS.StringToNumber "" = 0%float
  /\ JS.StringToNumber "-Infinity" = neg_infinity
  /\ is_nan (JS.StringToNumber "1e") = true
  /\ is_nan (JS.StringToNumber "+0x10") = true
  /\ is_nan (JS.StringToNumber "Object5000") = true
  /\ is_nan (JS.StringToNumber "function Object() { [native code] }5000") = true.
Proof. repeat split; reflexivity. Qed.

Example reads_samples :
  JS.Get JS.VNumber (PreTradeChecks.MOCK_CASH PreTradeChecks.MOCK) "CASH-001 USD"
  = Some (JS.VNumber 75000)
  /\ JS.Get JS.VNumber (PreTradeChecks.MOCK_CASH PreTradeChecks.MOCK) "CASH-009"
     = None
  /\ JS.Get JS.VNumber (PreTradeChecks.MOCK_CASH PreTradeChecks.MOCK) "constructor"
     = Some (JS.VObject JS.ObjectConstructor)
  /\ JS.Get_in JS.VNumber (PreTradeChecks.MOCK_HOLDINGS PreTradeChecks.MOCK)
       "INV-001 Main" "AAPL" = JS.Normal (Some (JS.VNumber 80000))
  /\ JS.Get_in JS.VNumber (PreTradeChecks.MOCK_HOLDINGS PreTradeChecks.MOCK)
       "constructor" "name" = JS.Normal (Some (JS.VString "Object"))
  /\ JS.Get_in JS.VNumber (PreTradeChecks.MOCK_HOLDINGS PreTradeChecks.MOCK)
       "__proto__" "__proto__" = JS.Normal None
  /\ JS.Get_in JS.VNumber (PreTradeChecks.MOCK_HOLDINGS PreTradeChecks.MOCK)
       "constructor" "caller" = JS.ThrowTypeError.
Proof. repeat split; reflexivity. Qed.

Lemma gt_nan_r a b : is_nan b = true -> JS.gt a b = false.
Proof.
  intros H. unfold JS.gt. rewrite FloatAxioms.ltb_spec, (Prim2SF_is_nan _ H).
  reflexivity.
Qed.

Lemma nullish_or_number (x : option float) d :
  JS.nullish_or (JS.VNumber <$> x) d = JS.VNumber (default d x).
Proof. by destruct x. Qed.

End JSFacts.

(* ===================================================================== *)
(** * The check engine                                                    *)
(* ===================================================================== *)

Module PreTradeChecksSpec.
Import PreTradeChecks JSFacts.

Local Open Scope string_scope.

(** ** The outcome reduction *)

Lemma some_severity_spec s (l : list CheckResult) :
  some_severity s l = true <-> exists c, c ∈ l /\ severity c = s.
Proof.
  unfold some_severity. rewrite existsb_exists. split.
  - intros (c & Hin & Hs). exists c. split.
    + by apply list_elem_of_In.
    + by apply bool_decide_eq_true in Hs.
  - intros (c & Hin & Hs). exists c. split.
    + by apply list_elem_of_In.
    + by apply bool_decide_eq_true.
Qed.

Lemma outcomeOf_cons c l :
  outcomeOf (c :: l) = severity_max (severity c) (outcomeOf l).
Proof.
  unfold outcomeOf, some_severity. cbn [existsb].
  destruct (severity c);
    destruct (existsb (fun c0 => bool_decide (severity c0 = hard)) l);
    destruct (existsb (fun c0 => bool_decide (severity c0 = soft)) l);
    destruct (existsb (fun c0 => bool_decide (severity c0 = warning)) l);
    reflexivity.
Qed.

Lemma outcomeOf_max l : outcomeOf l = max_severity (map severity l).
Proof.
  induction l as [|c l IH]; [reflexivity|].
  rewrite outcomeOf_cons, IH. reflexivity.
Qed.

Lemma outcomeOf_cascade l :
  ((exists c, c ∈ l /\ severity c = hard) -> outcomeOf l = hard)
  /\ (~ (exists c, c ∈ l /\ severity c = hard) ->
      (exists c, c ∈ l /\ severity c = soft) -> outcomeOf l = soft)
  /\ (~ (exists c, c ∈ l /\ severity c = hard) ->
      ~ (exists c, c ∈ l /\ severity c = soft) ->
      (exists c, c ∈ l /\ severity c = warning) -> outcomeOf l = warning)
  /\ (~ (exists c, c ∈ l /\ severity c = hard) ->
      ~ (exists c, c ∈ l /\ severity c = soft) ->
      ~ (exists c, c ∈ l /\ severity c = warning) -> outcomeOf l = pass).
Proof.
  rewrite <- !some_severity_spec. unfold outcomeOf.
  destruct (some_severity hard l), (some_severity soft l), (some_severity warning l);
    repeat split; intros; congruence.
Qed.

(** C1: the outcome the hook returns is the greatest severity of the
    checks it returns, under hard > soft > warning > pass: hard as soon
    as one check is hard, otherwise soft as soon as one is soft,
    otherwise warning as soon as one is a warning, otherwise pass; in
    particular pass for the empty list. *)
Theorem outcome_is_max_severity rd props :
  let checks := fst (usePreTradeOutcome rd props) in
  let outcome := snd (usePreTradeOutcome rd props) in
  outcome = max_severity (map severity checks)
  /\ (forall c, c ∈ checks -> (severity_rank (severity c) <= severity_rank outcome)%nat)
  /\ ((exists c, c ∈ checks /\ severity c = hard) -> outcome = hard)
  /\ (~ (exists c, c ∈ checks /\ severity c = hard) ->
      (exists c, c ∈ checks /\ severity c = soft) -> outcome = soft)
  /\ (~ (exists c, c ∈ checks /\ severity c = hard) ->
      ~ (exists c, c ∈ checks /\ severity c = soft) ->
      (exists c, c ∈ checks /\ severity c = warning) -> outcome = warning)
  /\ (~ (exists c, c ∈ checks /\ severity c = hard) ->
      ~ (exists c, c ∈ checks /\ severity c = soft) ->
      ~ (exists c, c ∈ checks /\ severity c = warning) -> outcome = pass)
  /\ (checks = [] -> outcome = pass).
Proof.
  cbn [usePreTradeOutcome fst snd].
  destruct (outcomeOf_cascade (runChecks rd props)) as (Hh & Hs & Hw & Hp).
  split; [apply outcomeOf_max|].
  split.
  { intros c Hc.
    destruct (severity c) eqn:E; cbn.
    - rewrite Hh by eauto. cbn. lia.
    - unfold outcomeOf.
      destruct (some_severity hard (runChecks rd props)); [cbn; lia|].
      assert (some_severity soft (runChecks rd props) = true) as ->
        by (apply some_severity_spec; eauto).
      cbn; lia.
    - unfold outcomeOf.
      destruct (some_severity hard (runChecks rd props)); [cbn; lia|].
      destruct (some_severity soft (runChecks rd props)); [cbn; lia|].
      assert (some_severity warning (runChecks rd props) = true) as ->
        by (apply some_severity_spec; eauto).
      cbn; lia.
    - lia. }
  repeat split; try assumption.
  intros ->. reflexivity.
Qed.

(** ** The guard *)

(** C2: when no security is selected or the order amount is at most 0,
    the engine returns the empty list, whatever the other fields and the
    reference data are. *)
Theorem guard_returns_empty rd props :
  security props = None \/ JS.le (orderAmount props) 0 = true ->
  runChecks rd props = [] /\ fst (usePreTradeOutcome rd props) = [].
Proof.
  intros H. cbn [usePreTradeOutcome fst].
  assert (runChecks rd props = []) as ->; [|done].
  unfold runChecks. destruct H as [-> | H]; [reflexivity|].
  rewrite H. by destruct (security props).
Qed.

Lemma guard_returns_empty_witness :
  (security (Examples.buy None 50000) = None
   \/ JS.le (orderAmount (Examples.buy None 50000)) 0 = true)
  /\ (security (Examples.buy (Some Examples.AAPL) 0) = None
      \/ JS.le (orderAmount (Examples.buy (Some Examples.AAPL) 0)) 0 = true)
  /\ runChecks MOCK (Examples.buy None 50000) = []
  /\ runChecks MOCK (Examples.buy (Some Examples.AAPL) 0) = [].
Proof.
  split; [left; reflexivity|]. split; [right; reflexivity|]. split.
  - apply (guard_returns_empty MOCK (Examples.buy None 50000)). left. reflexivity.
  - apply (guard_returns_empty MOCK (Examples.buy (Some Examples.AAPL) 0)).
    right. reflexivity.
Defined.

(** ** The statement-level body

    Run on the empty array, the statements of [runChecks] complete
    normally with the list [runChecks] denotes, unless the read of the
    holdings throws. *)
Lemma seq_appends (s1 s2 : Stmt) l1 l2 results :
  s1 results = Normal (results ++ l1)%list ->
  (forall r, s2 r = Normal (r ++ l2)%list) ->
  seq s1 s2 results = Normal (results ++ (l1 ++ l2))%list.
Proof.
  intros H1 H2. unfold seq. rewrite H1, H2. by rewrite <- app_assoc.
Qed.

Lemma seq_throws_r (s1 s2 : Stmt) l1 results :
  s1 results = Normal (results ++ l1)%list ->
  (forall r, s2 r = ThrowTypeError) ->
  seq s1 s2 results = ThrowTypeError.
Proof. intros H1 H2. unfold seq. by rewrite H1, H2. Qed.

Lemma seq_throws_l (s1 s2 : Stmt) results :
  s1 results = ThrowTypeError -> seq s1 s2 results = ThrowTypeError.
Proof. intros H1. unfold seq. by rewrite H1. Qed.

Lemma skip_appends results : skip results = Normal (results ++ [])%list.
Proof. unfold skip. by rewrite app_nil_r. Qed.

Section StatementsDenote.
Variable rd : ReferenceData.
Variable props : PreTradeChecksProps.
Variable sec : Security.
Hypothesis Hsec : security props = Some sec.

Lemma restricted_stmt_appends results :
  restricted_stmt rd props results = Normal (results ++ restrictedCheck rd sec)%list.
Proof using Hsec.
  unfold restricted_stmt, restrictedCheck, member. rewrite Hsec.
  destruct (includes _ _); [reflexivity|apply skip_appends].
Qed.

Lemma residency_stmt_appends results :
  residency_stmt rd props results = Normal (results ++ residencyCheck rd sec)%list.
Proof using Hsec.
  unfold residency_stmt, residencyCheck, member. rewrite Hsec.
  destruct (JS.Get JS.VString (RESIDENCY_RESTRICTED rd) (symbol sec)) as [reason|];
    [|apply skip_appends].
  destruct (JS.ToBoolean reason); [reflexivity|apply skip_appends].
Qed.

Lemma cash_stmt_appends results :
  cash_stmt rd props results
  = Normal (results ++ cashCheck rd (side props) (orderAmount props) (cashAccount props))%list.
Proof.
  unfold cash_stmt, cashCheck.
  destruct (bool_decide (side props = Buy) && JS.truthy_string (cashAccount props));
    [|apply skip_appends].
  by destruct (JS.gt _ _).
Qed.

(** The concentration rule throws when its read of the holdings does. *)
Lemma concentration_stmt_appends results :
  (investmentAccount props = ""
   \/ JS.Get_in JS.VNumber (MOCK_HOLDINGS rd) (investmentAccount props) (symbol sec)
      <> ThrowTypeError) ->
  concentration_stmt rd props results
  = Normal (results ++ concentrationCheck rd sec (side props) (orderAmount props)
                         (investmentAccount props))%list.
Proof using Hsec.
  intros Hread.
  unfold concentration_stmt, concentrationCheck, concentration, concentrationOf,
    currentHolding, portfolioValue, newExposure, member, bind.
  rewrite Hsec.
  destruct (JS.truthy_string (investmentAccount props)) eqn:Hi; [|apply skip_appends].
  destruct Hread as [Hread|Hread].
  { apply truthy_string_spec in Hi. done. }
  destruct (JS.Get_in JS.VNumber (MOCK_HOLDINGS rd) (investmentAccount props)
              (symbol sec)) as [read|]; [|done].
  destruct (side props);
    rewrite ?bool_decide_eq_true_2, ?bool_decide_eq_false_2 by done;
    by destruct (JS.gt _ 20).
Qed.

Lemma concentration_stmt_throws results :
  investmentAccount props <> "" ->
  JS.Get_in JS.VNumber (MOCK_HOLDINGS rd) (investmentAccount props) (symbol sec)
  = ThrowTypeError ->
  concentration_stmt rd props results = ThrowTypeError.
Proof using Hsec.
  intros Hi Hread. unfold concentration_stmt, member, bind. rewrite Hsec, Hread.
  apply truthy_string_spec in Hi. by rewrite Hi.
Qed.

Lemma orderSize_stmt_appends results :
  orderSize_stmt props results = Normal (results ++ orderSizeCheck (orderAmount props))%list.
Proof. unfold orderSize_stmt, orderSizeCheck. by destruct (JS.gt _ _). Qed.

Lemma priceDeviation_stmt_appends results :
  priceDeviation_stmt props results
  = Normal (results ++ priceDeviationCheck sec (orderType props) (limitPrice props))%list.
Proof using Hsec.
  unfold priceDeviation_stmt, priceDeviationCheck, deviation, member. rewrite Hsec.
  destruct (String.eqb (orderType props) "Limit" && JS.truthy_string (limitPrice props));
    [|apply skip_appends].
  by destruct (JS.gt _ 3).
Qed.
End StatementsDenote.

(** A call throws when, past the guard, the read of the holdings
    throws, and returns the list of [runChecks] otherwise. *)
Lemma runChecks_call_throws rd props sec :
  security props = Some sec -> JS.le (orderAmount props) 0 = false ->
  investmentAccount props <> "" ->
  JS.Get_in JS.VNumber (MOCK_HOLDINGS rd) (investmentAccount props) (symbol sec)
  = ThrowTypeError ->
  runChecks_call rd props = ThrowTypeError.
Proof.
  intros Hsec Hg Hi Hread. unfold runChecks_call, runChecks_stmts.
  rewrite bool_decide_eq_true_2 by eauto. rewrite Hg. cbn [negb orb].
  eapply seq_throws_r; [by apply restricted_stmt_appends|]. intros r.
  eapply seq_throws_r; [by apply residency_stmt_appends|]. intros r0.
  eapply seq_throws_r; [by apply cash_stmt_appends|]. intros r1.
  apply seq_throws_l. by eapply concentration_stmt_throws.
Qed.

Lemma runChecks_call_normal rd props :
  (forall sec, security props = Some sec -> JS.le (orderAmount props) 0 = false ->
     investmentAccount props = ""
     \/ JS.Get_in JS.VNumber (MOCK_HOLDINGS rd) (investmentAccount props) (symbol sec)
        <> ThrowTypeError) ->
  runChecks_call rd props = Normal (runChecks rd props).
Proof.
  intros Hread. unfold runChecks_call, runChecks_stmts, runChecks.
  destruct (security props) as [sec|] eqn:Hsec; [|reflexivity].
  rewrite bool_decide_eq_true_2 by eauto. cbn [negb orb].
  destruct (JS.le (orderAmount props) 0) eqn:Hg; [reflexivity|].
  change (Normal ?l) with (Normal ([] ++ l)%list).
  apply seq_appends; [by apply restricted_stmt_appends|]. intros r.
  apply seq_appends; [by apply residency_stmt_appends|]. intros r0.
  apply seq_appends; [by apply cash_stmt_appends|]. intros r1.
  apply seq_appends; [apply concentration_stmt_appends; auto|]. intros r2.
  apply seq_appends; [by apply orderSize_stmt_appends|]. intros r3.
  by apply priceDeviation_stmt_appends.
Qed.

(** The two cases, with the inputs of the first. *)
Lemma runChecks_call_cases rd props :
  (runChecks_call rd props = ThrowTypeError
   <-> exists sec f,
         security props = Some sec /\ JS.le (orderAmount props) 0 = false
         /\ MOCK_HOLDINGS rd !! investmentAccount props = None
         /\ JS.inherited (investmentAccount props) = Some f
         /\ f <> JS.ObjectPrototype
         /\ (symbol sec = "caller" \/ symbol sec = "arguments"))
  /\ (runChecks_call rd props <> ThrowTypeError ->
      runChecks_call rd props = Normal (runChecks rd props)).
Proof.
  destruct (security props) as [sec|] eqn:Hsec.
  2:{ rewrite runChecks_call_normal by (intros; congruence). split; [|done].
      split; [done|]. intros (? & ? & ? & _). congruence. }
  destruct (JS.le (orderAmount props) 0) eqn:Hg.
  { rewrite runChecks_call_normal by (intros; congruence). split; [|done].
    split; [done|]. intros (? & ? & E & ? & _). congruence. }
  destruct (JS.Get_in JS.VNumber (MOCK_HOLDINGS rd) (investmentAccount props)
              (symbol sec)) as [read|] eqn:Hread.
  - rewrite runChecks_call_normal.
    2:{ intros sec' E _. right. assert (sec' = sec) as -> by congruence. by rewrite Hread. }
    split; [|done]. split; [done|].
    intros (sec' & f & Es & _ & Hown & Hf & Hne & Hk).
    assert (sec' = sec) as -> by congruence.
    assert (JS.Get_in JS.VNumber (MOCK_HOLDINGS rd) (investmentAccount props)
              (symbol sec) = ThrowTypeError) as E
      by (apply Get_in_throws; eauto).
    congruence.
  - apply Get_in_throws in Hread as Hthrow. destruct Hthrow as (Hown & (f & Hf & Hne) & Hk).
    assert (investmentAccount props <> "") as Hi.
    { intros E. rewrite E in Hf. done. }
    rewrite (runChecks_call_throws rd props sec Hsec Hg Hi Hread).
    split; [|done]. split; [|done]. intros _. exists sec, f. done.
Qed.

(** ** The rules inside [runChecks] *)

Lemma runChecks_guarded rd props sec :
  security props = Some sec -> JS.le (orderAmount props) 0 = false ->
  runChecks rd props =
    (restrictedCheck rd sec
     ++ residencyCheck rd sec
     ++ cashCheck rd (side props) (orderAmount props) (cashAccount props)
     ++ concentrationCheck rd sec (side props) (orderAmount props) (investmentAccount props)
     ++ orderSizeCheck (orderAmount props)
     ++ priceDeviationCheck sec (orderType props) (limitPrice props))%list.
Proof. intros Hs Hg. unfold runChecks. rewrite Hs, Hg. reflexivity. Qed.

Lemma restrictedCheck_named rd sec :
  Forall (fun c => name c = "Restricted Security") (restrictedCheck rd sec).
Proof. unfold restrictedCheck. case_match; repeat constructor. Qed.

Lemma residencyCheck_named rd sec :
  Forall (fun c => name c = "Client Residency") (residencyCheck rd sec).
Proof. unfold residencyCheck. repeat case_match; repeat constructor. Qed.

Lemma cashCheck_named rd sd amount acct :
  Forall (fun c => name c = "Cash Sufficiency") (cashCheck rd sd amount acct).
Proof. unfold cashCheck. repeat case_match; repeat constructor. Qed.

Lemma concentrationCheck_named rd sec sd amount acct :
  Forall (fun c => name c = "Concentration Limit")
    (concentrationCheck rd sec sd amount acct).
Proof. unfold concentrationCheck. repeat case_match; repeat constructor. Qed.

Lemma orderSizeCheck_named amount :
  Forall (fun c => name c = "Order Size") (orderSizeCheck amount).
Proof. unfold orderSizeCheck. case_match; repeat constructor. Qed.

Lemma priceDeviationCheck_named sec ot lp :
  Forall (fun c => name c = "Price Deviation") (priceDeviationCheck sec ot lp).
Proof. unfold priceDeviationCheck. repeat case_match; repeat constructor. Qed.

Lemma resultsNamed_same n l :
  Forall (fun c => name c = n) l -> resultsNamed n l = l.
Proof.
  induction 1 as [|c l Hc _ IH]; [reflexivity|].
  unfold resultsNamed in *. cbn. rewrite Hc, String.eqb_refl. by rewrite IH.
Qed.

Lemma resultsNamed_other n n' l :
  Forall (fun c => name c = n') l -> n' <> n -> resultsNamed n l = [].
Proof.
  intros H Hn. induction H as [|c l Hc _ IH]; [reflexivity|].
  unfold resultsNamed in *. cbn. rewrite Hc.
  destruct (String.eqb_spec n' n); [done|exact IH].
Qed.

Lemma elem_of_resultsNamed n l c :
  c ∈ resultsNamed n l <-> c ∈ l /\ name c = n.
Proof.
  unfold resultsNamed. rewrite !list_elem_of_In, filter_In.
  by rewrite String.eqb_eq.
Qed.

Lemma resultsNamed_nil_iff n l :
  resultsNamed n l <> [] <-> exists c, c ∈ l /\ name c = n.
Proof.
  split.
  - destruct (resultsNamed n l) as [|c r] eqn:E; [done|]. intros _.
    exists c. apply elem_of_resultsNamed. rewrite E. apply list_elem_of_here.
  - intros (c & Hc). apply elem_of_resultsNamed in Hc.
    intros E. rewrite E in Hc. by apply not_elem_of_nil in Hc.
Qed.

Lemma resultsNamed_runChecks n rd props sec :
  security props = Some sec -> JS.le (orderAmount props) 0 = false ->
  resultsNamed n (runChecks rd props) =
    (resultsNamed n (restrictedCheck rd sec)
     ++ resultsNamed n (residencyCheck rd sec)
     ++ resultsNamed n (cashCheck rd (side props) (orderAmount props) (cashAccount props))
     ++ resultsNamed n (concentrationCheck rd sec (side props) (orderAmount props)
                          (investmentAccount props))
     ++ resultsNamed n (orderSizeCheck (orderAmount props))
     ++ resultsNamed n (priceDeviationCheck sec (orderType props) (limitPrice props)))%list.
Proof.
  intros Hs Hg. rewrite (runChecks_guarded _ _ _ Hs Hg).
  unfold resultsNamed. by rewrite !List.filter_app.
Qed.

Lemma restricted_results rd props sec :
  security props = Some sec -> JS.le (orderAmount props) 0 = false ->
  resultsNamed "Restricted Security" (runChecks rd props) = restrictedCheck rd sec.
Proof.
  intros Hs Hg. rewrite (resultsNamed_runChecks _ _ _ _ Hs Hg).
  rewrite (resultsNamed_same _ _ (restrictedCheck_named _ _)).
  rewrite (resultsNamed_other _ _ _ (residencyCheck_named _ _)) by done.
  rewrite (resultsNamed_other _ _ _ (cashCheck_named _ _ _ _)) by done.
  rewrite (resultsNamed_other _ _ _ (concentrationCheck_named _ _ _ _ _)) by done.
  rewrite (resultsNamed_other _ _ _ (orderSizeCheck_named _)) by done.
  rewrite (resultsNamed_other _ _ _ (priceDeviationCheck_named _ _ _)) by done.
  by rewrite app_nil_r.
Qed.

Lemma cash_results rd props sec :
  security props = Some sec -> JS.le (orderAmount props) 0 = false ->
  resultsNamed "Cash Sufficiency" (runChecks rd props)
  = cashCheck rd (side props) (orderAmount props) (cashAccount props).
Proof.
  intros Hs Hg. rewrite (resultsNamed_runChecks _ _ _ _ Hs Hg).
  rewrite (resultsNamed_same _ _ (cashCheck_named _ _ _ _)).
  rewrite (resultsNamed_other _ _ _ (restrictedCheck_named _ _)) by done.
  rewrite (resultsNamed_other _ _ _ (residencyCheck_named _ _)) by done.
  rewrite (resultsNamed_other _ _ _ (concentrationCheck_named _ _ _ _ _)) by done.
  rewrite (resultsNamed_other _ _ _ (orderSizeCheck_named _)) by done.
  rewrite (resultsNamed_other _ _ _ (priceDeviationCheck_named _ _ _)) by done.
  by rewrite app_nil_r.
Qed.


Lemma orderSize_results rd props sec :
  security props = Some sec -> JS.le (orderAmount props) 0 = false ->
  resultsNamed "Order Size" (runChecks rd props) = orderSizeCheck (orderAmount props).
Proof.
  intros Hs Hg. rewrite (resultsNamed_runChecks _ _ _ _ Hs Hg).
  rewrite (resultsNamed_same _ _ (orderSizeCheck_named _)).
  rewrite (resultsNamed_other _ _ _ (restrictedCheck_named _ _)) by done.
  rewrite (resultsNamed_other _ _ _ (residencyCheck_named _ _)) by done.
  rewrite (resultsNamed_other _ _ _ (cashCheck_named _ _ _ _)) by done.
  rewrite (resultsNamed_other _ _ _ (concentrationCheck_named _ _ _ _ _)) by done.
  rewrite (resultsNamed_other _ _ _ (priceDeviationCheck_named _ _ _)) by done.
  by rewrite app_nil_r.
Qed.

Lemma priceDeviation_results rd props sec :
  security props = Some sec -> JS.le (orderAmount props) 0 = false ->
  resultsNamed "Price Deviation" (runChecks rd props)
  = priceDeviationCheck sec (orderType props) (limitPrice props).
Proof.
  intros Hs Hg. rewrite (resultsNamed_runChecks _ _ _ _ Hs Hg).
  rewrite (resultsNamed_same _ _ (priceDeviationCheck_named _ _ _)).
  rewrite (resultsNamed_other _ _ _ (restrictedCheck_named _ _)) by done.
  rewrite (resultsNamed_other _ _ _ (residencyCheck_named _ _)) by done.
  rewrite (resultsNamed_other _ _ _ (cashCheck_named _ _ _ _)) by done.
  rewrite (resultsNamed_other _ _ _ (concentrationCheck_named _ _ _ _ _)) by done.
  rewrite (resultsNamed_other _ _ _ (orderSizeCheck_named _)) by done.
  done.
Qed.

Lemma includes_spec l s : includes l s = true <-> s ∈ l.
Proof.
  unfold includes. rewrite existsb_exists, list_elem_of_In. split.
  - intros (x & Hx & E). apply String.eqb_eq in E. by subst.
  - intros H. exists s. split; [done|apply String.eqb_refl].
Qed.


(** ** Rule 1: restricted securities *)

(** C4: once the guard is passed, a symbol on the restricted list puts
    the hard "Restricted Security" result with its message in the
    output, whatever the side, amount, limit price, order type and
    accounts are (the rule's results depend on the symbol alone); a
    symbol that is not on the list leaves no result of that name, not
    even a pass. *)
Theorem restricted_security_rule rd props sec :
  security props = Some sec -> JS.le (orderAmount props) 0 = false ->
  (symbol sec ∈ RESTRICTED_SECURITIES rd ->
   {| name := "Restricted Security"; severity := hard;
      message := symbol sec
                 ++ " is on the restricted securities list and cannot be traded." |}
     ∈ runChecks rd props)
  /\ (symbol sec ∉ RESTRICTED_SECURITIES rd ->
      forall c, c ∈ runChecks rd props -> name c <> "Restricted Security")
  /\ (forall props',
        security props' = Some sec -> JS.le (orderAmount props') 0 = false ->
        resultsNamed "Restricted Security" (runChecks rd props')
        = resultsNamed "Restricted Security" (runChecks rd props)).
Proof.
  intros Hs Hg. pose proof (restricted_results rd props sec Hs Hg) as Hr.
  split; [|split].
  - intros Hin. apply includes_spec in Hin.
    eapply (proj1 (elem_of_resultsNamed "Restricted Security" _ _)).
    rewrite Hr. unfold restrictedCheck. rewrite Hin. apply list_elem_of_here.
  - intros Hnin c Hc Hn.
    assert (c ∈ resultsNamed "Restricted Security" (runChecks rd props)) as Hc'
      by (by apply elem_of_resultsNamed).
    rewrite Hr in Hc'. unfold restrictedCheck in Hc'.
    destruct (includes (RESTRICTED_SECURITIES rd) (symbol sec)) eqn:E.
    + by apply includes_spec in E.
    + by apply not_elem_of_nil in Hc'.
  - intros props' Hs' Hg'. by rewrite Hr, (restricted_results rd props' sec Hs' Hg').
Qed.

Lemma restricted_security_rule_witness :
  security (Examples.buy (Some Examples.MUNI7Y) 5000) = Some Examples.MUNI7Y
  /\ JS.le (orderAmount (Examples.buy (Some Examples.MUNI7Y) 5000)) 0 = false
  /\ {| name := "Restricted Security"; severity := hard;
        message := "MUNI7Y is on the restricted securities list and cannot be traded." |}
       ∈ runChecks MOCK (Examples.buy (Some Examples.MUNI7Y) 5000).
Proof.
  split; [reflexivity|split; [reflexivity|]].
  apply (restricted_security_rule MOCK (Examples.buy (Some Examples.MUNI7Y) 5000)
           Examples.MUNI7Y eq_refl eq_refl).
  apply list_elem_of_here.
Defined.

(** ** Rule 3: cash sufficiency *)

(** C5, for a call that passes the guard and returns: a "Cash
    Sufficiency" result is in the output exactly when the side is Buy
    and a cash account is chosen.  For an account that is a key of the balances, or whose
    name is not one that the table inherits from Object.prototype, the
    balance is that of the account (0 when it is unknown), and an
    amount above the balance gives the hard result and any other amount
    the pass result.  With 75000 on "CASH-001 USD", buying for 80000
    gives a hard result whose message contains "80,000.00" and
    "75,000.00", and buying for 50000 a pass result whose message
    contains "75,000.00".  For an account that is no key but an
    inherited name, the read finds the inherited object, and the result
    is a pass whatever the amount. *)
Theorem cash_sufficiency_rule rd props sec checks :
  security props = Some sec -> JS.le (orderAmount props) 0 = false ->
  runChecks_call rd props = Normal checks ->
  let available := default 0%float (MOCK_CASH rd !! cashAccount props) in
  let found := resultsNamed "Cash Sufficiency" checks in
  ((exists c, c ∈ checks /\ name c = "Cash Sufficiency")
   <-> side props = Buy /\ cashAccount props <> "")
  /\ (is_Some (MOCK_CASH rd !! cashAccount props)
       \/ JS.inherited (cashAccount props) = None ->
      side props = Buy -> cashAccount props <> "" ->
      found =
        [ if JS.gt (orderAmount props) available then
            {| name := "Cash Sufficiency"; severity := hard;
               message := "Insufficient funds. Required: $"
                          ++ JS.toLocaleString2 (orderAmount props)
                          ++ " — Available: $" ++ JS.toLocaleString2 available |}
          else
            {| name := "Cash Sufficiency"; severity := pass;
               message := "Sufficient funds available ($"
                          ++ JS.toLocaleString2 available ++ ")" |} ])
  /\ (MOCK_CASH rd !! "CASH-001 USD" = Some 75000%float ->
      side props = Buy -> cashAccount props = "CASH-001 USD" ->
      (orderAmount props = 80000%float ->
       exists text : string,
         found = [ {| name := "Cash Sufficiency"; severity := hard;
                      message := text |} ]
         /\ JS.String_includes text "80,000.00" = true
         /\ JS.String_includes text "75,000.00" = true)
      /\ (orderAmount props = 50000%float ->
          exists text : string,
            found = [ {| name := "Cash Sufficiency"; severity := pass;
                         message := text |} ]
            /\ JS.String_includes text "75,000.00" = true))
  /\ (forall o,
        MOCK_CASH rd !! cashAccount props = None ->
        JS.inherited (cashAccount props) = Some o ->
        side props = Buy ->
        found = [ {| name := "Cash Sufficiency"; severity := pass;
                     message := "Sufficient funds available ($"
                                ++ JS.Object_toString o ++ ")" |} ]).
Proof.
  intros Hs Hg Hcall.
  assert (checks = runChecks rd props) as ->.
  { destruct (runChecks_call_cases rd props) as [_ Hnormal].
    rewrite Hnormal in Hcall by congruence. by injection Hcall as <-. }
  intros available found.
  assert (found = cashCheck rd (side props) (orderAmount props) (cashAccount props))
    as Hf by apply (cash_results rd props sec Hs Hg).
  assert (is_Some (MOCK_CASH rd !! cashAccount props)
          \/ JS.inherited (cashAccount props) = None ->
          side props = Buy -> cashAccount props <> "" ->
          found =
            [ if JS.gt (orderAmount props) available then
                {| name := "Cash Sufficiency"; severity := hard;
                   message := "Insufficient funds. Required: $"
                              ++ JS.toLocaleString2 (orderAmount props)
                              ++ " — Available: $" ++ JS.toLocaleString2 available |}
              else
                {| name := "Cash Sufficiency"; severity := pass;
                   message := "Sufficient funds available ($"
                              ++ JS.toLocaleString2 available ++ ")" |} ]) as Hfire.
  { intros Hname Hb Hc.
    assert (JS.nullish_or (JS.Get JS.VNumber (MOCK_CASH rd) (cashAccount props)) 0
            = JS.VNumber available) as Hread.
    { subst available. destruct Hname as [[b Hown]|Hname].
      - by rewrite (Get_own _ _ _ _ Hown), Hown.
      - rewrite (Get_not_inherited _ _ _ Hname). apply nullish_or_number. }
    rewrite Hf. unfold cashCheck. rewrite Hb.
    apply truthy_string_spec in Hc. rewrite Hc.
    rewrite bool_decide_eq_true_2 by done. cbn [andb]. rewrite Hread.
    cbn [JS.ToNumber JS.ToPrimitive JS.toLocaleString2_value].
    by destruct (JS.gt (orderAmount props) available). }
  split; [|split; [exact Hfire|split]].
  - rewrite <- resultsNamed_nil_iff. fold found. split.
    + intros Hne. rewrite Hf in Hne. unfold cashCheck in Hne.
      destruct (side props); [|done]. cbn in Hne.
      destruct (JS.truthy_string (cashAccount props)) eqn:E; [|done].
      by apply truthy_string_spec in E.
    + intros [Hb Hc]. rewrite Hf. unfold cashCheck. rewrite Hb.
      apply truthy_string_spec in Hc. rewrite Hc.
      rewrite bool_decide_eq_true_2 by done. cbn [andb]. cbv zeta.
      by destruct (JS.gt (orderAmount props) (JS.ToNumber _)).
  - intros Hbal Hb Hc.
    assert (cashAccount props <> "") as Hc' by (by rewrite Hc).
    assert (is_Some (MOCK_CASH rd !! cashAccount props)
            \/ JS.inherited (cashAccount props) = None) as Hname
      by (right; by rewrite Hc).
    specialize (Hfire Hname Hb Hc'). subst available.
    rewrite Hc, Hbal in Hfire. cbn in Hfire.
    split; intros Ha; rewrite Ha in Hfire; eexists; (split; [exact Hfire|]).
    + vm_compute. done.
    + vm_compute. done.
  - intros o Hown Ho Hb. rewrite Hf. unfold cashCheck. rewrite Hb.
    assert (JS.truthy_string (cashAccount props) = true) as ->.
    { apply truthy_string_spec. intros E. rewrite E in Ho. done. }
    rewrite bool_decide_eq_true_2 by done. cbn [andb].
    rewrite (Get_inherited _ _ _ _ Hown Ho). cbn [JS.nullish_or default].
    rewrite (gt_nan_r _ _ (inherited_nan _ _ Ho)). done.
Qed.

Lemma cash_sufficiency_rule_witness :
  security (Examples.buy (Some Examples.AAPL) 80000) = Some Examples.AAPL
  /\ JS.le (orderAmount (Examples.buy (Some Examples.AAPL) 80000)) 0 = false
  /\ runChecks_call MOCK (Examples.buy (Some Examples.AAPL) 80000)
     = Normal (runChecks MOCK (Examples.buy (Some Examples.AAPL) 80000))
  /\ exists text : string,
       resultsNamed "Cash Sufficiency"
         (runChecks MOCK (Examples.buy (Some Examples.AAPL) 80000))
       = [ {| name := "Cash Sufficiency"; severity := hard; message := text |} ]
       /\ JS.String_includes text "80,000.00" = true
       /\ JS.String_includes text "75,000.00" = true.
Proof.
  split; [reflexivity|split; [reflexivity|split; [reflexivity|]]].
  apply (cash_sufficiency_rule MOCK (Examples.buy (Some Examples.AAPL) 80000)
           Examples.AAPL (runChecks MOCK (Examples.buy (Some Examples.AAPL) 80000))
           eq_refl eq_refl eq_refl); reflexivity.
Defined.

(** C5 as stated fails for a cash account named like a property that
    every object inherits: "constructor" is no key of the balances, so
    the balance would default to 0 and a buy for 5000 would be hard;
    the read finds the inherited function instead, no number, and the
    result is a pass. *)
Lemma cash_sufficiency_inherited_account :
  security (Examples.buy_from "constructor") = Some Examples.AAPL
  /\ JS.le (orderAmount (Examples.buy_from "constructor")) 0 = false
  /\ side (Examples.buy_from "constructor") = Buy
  /\ cashAccount (Examples.buy_from "constructor") = "constructor"
  /\ MOCK_CASH MOCK !! "constructor" = None
  /\ JS.gt (orderAmount (Examples.buy_from "constructor")) 0 = true
  /\ exists checks,
       runChecks_call MOCK (Examples.buy_from "constructor") = Normal checks
       /\ severity <$> resultsNamed "Cash Sufficiency" checks = [pass].
Proof.
  repeat split; try reflexivity.
  exists (runChecks MOCK (Examples.buy_from "constructor")).
  split; vm_compute; reflexivity.
Qed.


(** ** Rule 4: concentration limit *)




(** ** Rule 5: order size *)



(** ** Rule 6: price deviation *)

Lemma deviation_nan sec lp :
  is_nan (JS.parseFloat lp) = true -> is_nan (deviation sec lp) = true.
Proof.
  intros H. unfold deviation.
  by apply JSFacts.is_nan_mul_l, JSFacts.is_nan_abs, JSFacts.is_nan_div_l,
    JSFacts.is_nan_sub_l.
Qed.

(** C3, as the code has it: a limit order whose non-empty limit price
    does not parse as a number never gets the "Price Deviation"
    warning; once the guard is passed it gets exactly one "Price
    Deviation" result, the pass one (and no result at all when the
    guard is not passed).  The rule itself never throws, and the limit
    price has no part in whether the call does: the call returns that
    list unless it throws, which it does exactly when, past the guard,
    the investment account is no key of the holdings but the name of a
    function that the table inherits, and the symbol is "caller" or
    "arguments". *)
Theorem unparsable_limit_price_passes rd props :
  orderType props = "Limit" -> limitPrice props <> "" ->
  is_nan (JS.parseFloat (limitPrice props)) = true ->
  (forall c, c ∈ runChecks rd props -> name c = "Price Deviation" ->
             severity c = pass)
  /\ (is_Some (security props) -> JS.le (orderAmount props) 0 = false ->
      resultsNamed "Price Deviation" (runChecks rd props)
      = [ {| name := "Price Deviation"; severity := pass;
             message := "Limit price within 3% of market" |} ])
  /\ (security props = None \/ JS.le (orderAmount props) 0 = true ->
      runChecks rd props = [])
  /\ (is_Some (security props) -> forall results,
      priceDeviation_stmt props results
      = Normal (results ++ [ {| name := "Price Deviation"; severity := pass;
                                message := "Limit price within 3% of market" |} ])%list)
  /\ (runChecks_call rd props <> ThrowTypeError ->
      runChecks_call rd props = Normal (runChecks rd props))
  /\ (runChecks_call rd props = ThrowTypeError
      <-> exists sec f,
            security props = Some sec /\ JS.le (orderAmount props) 0 = false
            /\ MOCK_HOLDINGS rd !! investmentAccount props = None
            /\ JS.inherited (investmentAccount props) = Some f
            /\ f <> JS.ObjectPrototype
            /\ (symbol sec = "caller" \/ symbol sec = "arguments")).
Proof.
  intros Ht Hl Hn.
  assert (security props = None \/ JS.le (orderAmount props) 0 = true ->
          runChecks rd props = []) as Hguard.
  { unfold runChecks. intros [-> | ->]; [reflexivity|]. by destruct (security props). }
  assert (forall sec, priceDeviationCheck sec (orderType props) (limitPrice props)
          = [ {| name := "Price Deviation"; severity := pass;
                 message := "Limit price within 3% of market" |} ]) as Hrule.
  { intros sec. unfold priceDeviationCheck. rewrite Ht.
    apply truthy_string_spec in Hl.
    rewrite Hl. cbn [String.eqb Ascii.eqb Bool.eqb andb].
    by rewrite (gt_nan_l _ 3 (deviation_nan sec _ Hn)). }
  assert (is_Some (security props) -> JS.le (orderAmount props) 0 = false ->
          resultsNamed "Price Deviation" (runChecks rd props)
          = [ {| name := "Price Deviation"; severity := pass;
                 message := "Limit price within 3% of market" |} ]) as Hf.
  { intros [sec Hs] Hg. by rewrite (priceDeviation_results rd props sec Hs Hg). }
  destruct (runChecks_call_cases rd props) as [Hthrow Hnormal].
  split; [|split; [exact Hf|split; [exact Hguard|split; [|split; [exact Hnormal|exact Hthrow]]]]].
  - intros c Hc Hname.
    destruct (security props) as [sec|] eqn:Hs;
      [destruct (JS.le (orderAmount props) 0) eqn:Hg|].
    + rewrite Hguard in Hc by (by right). by apply not_elem_of_nil in Hc.
    + assert (c ∈ resultsNamed "Price Deviation" (runChecks rd props)) as Hc'
        by (by apply elem_of_resultsNamed).
      rewrite Hf in Hc' by eauto. apply list_elem_of_singleton in Hc'. by subst.
    + rewrite Hguard in Hc by (by left). by apply not_elem_of_nil in Hc.
  - intros [sec Hs] results.
    by rewrite (priceDeviation_stmt_appends props sec Hs), Hrule.
Qed.

Lemma unparsable_limit_price_passes_witness :
  orderType Examples.limit_abc = "Limit"
  /\ limitPrice Examples.limit_abc <> ""
  /\ is_nan (JS.parseFloat (limitPrice Examples.limit_abc)) = true
  /\ resultsNamed "Price Deviation" (runChecks MOCK Examples.limit_abc)
     = [ {| name := "Price Deviation"; severity := pass;
            message := "Limit price within 3% of market" |} ].
Proof.
  assert (limitPrice Examples.limit_abc <> "") as Hl by done.
  repeat (split; [first [reflexivity | exact Hl]|]).
  apply (unparsable_limit_price_passes MOCK Examples.limit_abc eq_refl Hl eq_refl);
    [by eexists | reflexivity].
Defined.

(** C3 as stated fails: with the limit price "abc" the output does
    contain a "Price Deviation" result. *)
Lemma unparsable_limit_price_yields_a_result :
  orderType Examples.limit_abc = "Limit"
  /\ limitPrice Examples.limit_abc <> ""
  /\ is_nan (JS.parseFloat (limitPrice Examples.limit_abc)) = true
  /\ exists c, c ∈ runChecks MOCK Examples.limit_abc /\ name c = "Price Deviation".
Proof.
  split; [reflexivity|split; [done|split; [reflexivity|]]].
  exists {| name := "Price Deviation"; severity := pass;
            message := "Limit price within 3% of market" |}.
  split; [|reflexivity].
  vm_compute. apply list_elem_of_further, list_elem_of_here.
Qed.

End PreTradeChecksSpec.

(* ===================================================================== *)
(** * Submit gating of the order dialog                                   *)
(* ===================================================================== *)

Module CreateOrderDialogSpec.
Import CreateOrderDialog JSFacts.

Local Open Scope string_scope.

Lemma positive_input_nonempty s :
  JS.gt (JS.parseFloat s) 0 = true -> JS.truthy_string s = true.
Proof.
  intros H. apply truthy_string_spec. intros ->. vm_compute in H. discriminate.
Qed.

(** C8: the submit button is enabled exactly when a security is
    selected, the input parses to a number above 0, both accounts are
    chosen and the outcome of the checks is not hard; so it is disabled
    as soon as the outcome is hard or one of these fields is missing. *)
Theorem submit_gating rd st :
  (submitDisabled rd st = false <->
     selectedSecurity st <> None
     /\ JS.gt (JS.parseFloat (inputValue st)) 0 = true
     /\ investmentAccount st <> "" /\ cashAccount st <> ""
     /\ outcome rd st <> PreTradeChecks.hard)
  /\ (outcome rd st = PreTradeChecks.hard -> submitDisabled rd st = true)
  /\ (selectedSecurity st = None -> submitDisabled rd st = true)
  /\ (inputValue st = "" -> submitDisabled rd st = true)
  /\ (JS.gt (JS.parseFloat (inputValue st)) 0 = false -> submitDisabled rd st = true)
  /\ (investmentAccount st = "" -> submitDisabled rd st = true)
  /\ (cashAccount st = "" -> submitDisabled rd st = true).
Proof.
  assert (submitDisabled rd st = false <->
     selectedSecurity st <> None
     /\ JS.gt (JS.parseFloat (inputValue st)) 0 = true
     /\ investmentAccount st <> "" /\ cashAccount st <> ""
     /\ outcome rd st <> PreTradeChecks.hard) as Hiff.
  { unfold submitDisabled, canSubmit, formComplete.
    rewrite negb_false_iff, !andb_true_iff, negb_true_iff,
      bool_decide_eq_true, bool_decide_eq_false, !truthy_string_spec.
    rewrite <- not_eq_None_Some. split.
    - tauto.
    - intros (H1 & H2 & H3 & H4 & H5).
      pose proof (positive_input_nonempty _ H2) as H6.
      apply truthy_string_spec in H6. tauto. }
  split; [exact Hiff|].
  repeat split; intros H; apply not_false_iff_true; intros Hd;
    apply Hiff in Hd as (H1 & H2 & H3 & H4 & H5); try congruence.
  rewrite H in H2. vm_compute in H2. discriminate.
Qed.

End CreateOrderDialogSpec.

(* ===================================================================== *)
(** * Approval triage                                                     *)
(* ===================================================================== *)

Module ApprovalsSpec.
Import Approvals.

Local Open Scope string_scope.

Lemma hasWarning_spec t ws :
  hasWarning t ws = true <-> exists w, w ∈ ws /\ type w = t.
Proof.
  unfold hasWarning. rewrite existsb_exists. split.
  - intros (w & Hin & Hw). exists w. split.
    + by apply list_elem_of_In.
    + by apply bool_decide_eq_true in Hw.
  - intros (w & Hin & Hw). exists w. split.
    + by apply list_elem_of_In.
    + by apply bool_decide_eq_true.
Qed.

Lemma hasWarning_app t l1 l2 :
  hasWarning t (l1 ++ l2)%list = hasWarning t l1 || hasWarning t l2.
Proof. apply existsb_app. Qed.

Lemma hasWarning_if t (b : bool) w :
  hasWarning t (if b then [w] else []) = b && bool_decide (type w = t).
Proof. destruct b; cbn; [apply orb_false_r|reflexivity]. Qed.

(** C9, with a zero limit price counted as absent: a "large_order"
    warning is derived exactly when qty * price is above 100000, a
    "price_deviation" warning exactly when the limit price is set, is
    neither 0 nor NaN, and |limitPrice - price| / price is above 0.03,
    an "unusual_security" warning exactly when the symbol is CORP5Y or
    US10Y; the urgency is high exactly when at least 2 warnings were
    derived and normal otherwise. *)
Theorem warnings_and_urgency (base : Base.t) :
  let ws := generateWarnings base in
  ((exists w, w ∈ ws /\ type w = large_order)
   <-> JS.gt (Base.qty base * Base.price base) 100000 = true)
  /\ ((exists w, w ∈ ws /\ type w = price_deviation)
      <-> exists limit, Base.limitPrice base = Some limit
            /\ JS.truthy_number limit = true
            /\ JS.gt (abs (limit - Base.price base) / Base.price base)
                 0x1.eb851eb851eb8p-6 = true)
  /\ ((exists w, w ∈ ws /\ type w = unusual_security)
      <-> Base.symbol base ∈ ["CORP5Y"; "US10Y"])
  /\ warnings (finalize base) = ws
  /\ (urgency (finalize base) = high <-> (2 <= List.length ws)%nat)
  /\ (urgency (finalize base) = normal <-> (List.length ws < 2)%nat).
Proof.
  intros ws.
  assert (PreTradeChecks.includes unusual (Base.symbol base) = true
          <-> Base.symbol base ∈ ["CORP5Y"; "US10Y"]) as Hu.
  { unfold PreTradeChecks.includes. rewrite existsb_exists. split.
    - intros (x & Hx & E). apply String.eqb_eq in E. subst x.
      by apply list_elem_of_In.
    - intros H. exists (Base.symbol base). split;
        [by apply list_elem_of_In | apply String.eqb_refl]. }
  assert (forall t, hasWarning t ws =
            JS.gt (Base.qty base * Base.price base) 100000
              && bool_decide (large_order = t)
            || (match Base.limitPrice base with
                | Some limit => deviates limit (Base.price base)
                | None => false
                end && bool_decide (price_deviation = t)
                || PreTradeChecks.includes unusual (Base.symbol base)
                   && bool_decide (unusual_security = t))) as Hw.
  { intros t. subst ws. unfold generateWarnings.
    rewrite !hasWarning_app, !hasWarning_if. cbn [type].
    destruct (Base.limitPrice base) as [limit|]; [|reflexivity].
    by rewrite hasWarning_if. }
  rewrite <- !hasWarning_spec, !Hw.
  rewrite !bool_decide_eq_true_2 by done.
  rewrite !bool_decide_eq_false_2 by done.
  rewrite !andb_true_r, !andb_false_r, !orb_false_r, ?orb_false_l.
  split; [done|]. split; [|split; [exact Hu|]].
  - destruct (Base.limitPrice base) as [limit|].
    + unfold deviates, relativeDeviation. rewrite andb_true_iff. split.
      * intros [H1 H2]. by exists limit.
      * intros (l & [= <-] & H1 & H2). done.
    + split; [done|]. by intros (l & ? & _).
  - split; [reflexivity|]. cbn [finalize urgency]. fold ws. unfold urgencyOf.
    destruct (Nat.leb_spec 2 (List.length ws)); split; split; (done || lia).
Qed.

Lemma three_warnings_are_urgent :
  urgency (finalize (ApprovalExamples.order "US10Y" (Some 90%float))) = high.
Proof. reflexivity. Qed.

(** C9 as stated fails for a limit price of 0: it is set and deviates
    by 100% from the price, yet no "price_deviation" warning is
    derived. *)
Lemma zero_limit_price_not_flagged :
  Base.limitPrice (ApprovalExamples.order "AAPL" (Some 0%float)) = Some 0%float
  /\ JS.gt (abs (0 - 100) / 100)%float 0x1.eb851eb851eb8p-6 = true
  /\ ~ (exists w, w ∈ generateWarnings (ApprovalExamples.order "AAPL" (Some 0%float))
                  /\ type w = price_deviation).
Proof.
  split; [reflexivity|split; [reflexivity|]].
  intros (w & Hw & _). vm_compute in Hw. by apply not_elem_of_nil in Hw.
Qed.

(** C10: approving or rejecting returns a list of the same length in
    which position [i] holds the order that was at position [i]:
    untouched when its id differs from the given one, and otherwise
    changed in its approval status ("Approved", "Rejected") and its
    approval comment only (the given comment, or "Approved." for an
    approval with an empty comment).  An id that matches no order
    returns the list unchanged. *)
Theorem decision_changes_only_the_decision orderId comment (prev : list ApprovalOrder) :
  let approved := handleApprove orderId comment prev in
  let rejected := handleReject orderId comment prev in
  List.length approved = List.length prev
  /\ List.length rejected = List.length prev
  /\ (forall i o, prev !! i = Some o ->
        (id o = orderId ->
           (exists o', approved !! i = Some o' /\ sameButDecision o o'
                       /\ approvalStatus o' = Approved
                       /\ approvalComment o'
                          = Some (if String.eqb comment "" then "Approved." else comment))
           /\ (exists o', rejected !! i = Some o' /\ sameButDecision o o'
                          /\ approvalStatus o' = Rejected
                          /\ approvalComment o' = Some comment))
        /\ (id o <> orderId -> approved !! i = Some o /\ rejected !! i = Some o))
  /\ ((forall o, o ∈ prev -> id o <> orderId) -> approved = prev /\ rejected = prev).
Proof.
  intros approved rejected. subst approved rejected. unfold handleApprove, handleReject.
  rewrite !length_fmap. split; [done|]. split; [done|]. split.
  - intros i o Hi. rewrite !list_lookup_fmap, Hi. cbn [fmap option_fmap option_map].
    split.
    + intros Hid. apply String.eqb_eq in Hid. rewrite Hid. split.
      * eexists. split; [reflexivity|]. split; [by repeat split|]. split; [done|].
        cbn. unfold JS.truthy_string. by destruct (String.eqb comment "").
      * eexists. split; [reflexivity|]. split; [by repeat split|]. done.
    + intros Hid. apply String.eqb_neq in Hid. by rewrite Hid.
  - intros Hno. split.
    + induction prev as [|o l IH]; [done|]. cbn.
      rewrite IH by (intros o' Ho'; apply Hno; by apply list_elem_of_further).
      assert (id o <> orderId) as Hid by (apply Hno, list_elem_of_here).
      apply String.eqb_neq in Hid. by rewrite Hid.
    + induction prev as [|o l IH]; [done|]. cbn.
      rewrite IH by (intros o' Ho'; apply Hno; by apply list_elem_of_further).
      assert (id o <> orderId) as Hid by (apply Hno, list_elem_of_here).
      apply String.eqb_neq in Hid. by rewrite Hid.
Qed.

End ApprovalsSpec.

(* ===================================================================== *)
(** * More on the check engine                                            *)
(* ===================================================================== *)

Module EngineSpec.
Import PreTradeChecks JSFacts PreTradeChecksSpec.

Local Open Scope string_scope.

Lemma residency_results rd props sec :
  security props = Some sec -> JS.le (orderAmount props) 0 = false ->
  resultsNamed "Client Residency" (runChecks rd props) = residencyCheck rd sec.
Proof.
  intros Hs Hg. rewrite (resultsNamed_runChecks _ _ _ _ Hs Hg).
  rewrite (resultsNamed_same _ _ (residencyCheck_named _ _)).
  rewrite (resultsNamed_other _ _ _ (restrictedCheck_named _ _)) by done.
  rewrite (resultsNamed_other _ _ _ (cashCheck_named _ _ _ _)) by done.
  rewrite (resultsNamed_other _ _ _ (concentrationCheck_named _ _ _ _ _)) by done.
  rewrite (resultsNamed_other _ _ _ (orderSizeCheck_named _)) by done.
  rewrite (resultsNamed_other _ _ _ (priceDeviationCheck_named _ _ _)) by done.
  by rewrite app_nil_r.
Qed.

(** Rule 2, for a call that passes the guard and returns: a symbol that
    the residency table maps to a non-empty reason gets exactly one
    "Client Residency" result, hard, whose message is the reason as it
    stands, and a symbol whose reason is the empty string gets none.  A symbol that
    is no key of the table gets none either, unless it is the name of a
    property that the table inherits from Object.prototype
    ("constructor", "toString", ...): the read then finds that object,
    which is truthy, and the rule pushes a hard result whose message is
    the object itself. *)
Theorem client_residency_rule rd props sec checks :
  security props = Some sec -> JS.le (orderAmount props) 0 = false ->
  runChecks_call rd props = Normal checks ->
  let found := resultsNamed "Client Residency" checks in
  (forall reason,
      RESIDENCY_RESTRICTED rd !! symbol sec = Some reason -> reason <> "" ->
      found = [ {| name := "Client Residency"; severity := hard; message := reason |} ])
  /\ (RESIDENCY_RESTRICTED rd !! symbol sec = Some "" -> found = [])
  /\ (RESIDENCY_RESTRICTED rd !! symbol sec = None ->
      JS.inherited (symbol sec) = None -> found = [])
  /\ (forall o,
        RESIDENCY_RESTRICTED rd !! symbol sec = None ->
        JS.inherited (symbol sec) = Some o ->
        found = [ {| name := "Client Residency"; severity := hard;
                     message := JS.VObject o |} ])
  /\ ((exists c, c ∈ checks /\ name c = "Client Residency")
      <-> (exists reason, RESIDENCY_RESTRICTED rd !! symbol sec = Some reason
                          /\ reason <> "")
          \/ (RESIDENCY_RESTRICTED rd !! symbol sec = None
              /\ is_Some (JS.inherited (symbol sec)))).
Proof.
  intros Hs Hg Hcall.
  assert (checks = runChecks rd props) as ->.
  { destruct (runChecks_call_cases rd props) as [_ Hnormal].
    rewrite Hnormal in Hcall by congruence. by injection Hcall as <-. }
  intros found.
  assert (found = residencyCheck rd sec) as Hf by apply (residency_results _ _ _ Hs Hg).
  assert (forall reason,
      RESIDENCY_RESTRICTED rd !! symbol sec = Some reason -> reason <> "" ->
      found = [ {| name := "Client Residency"; severity := hard; message := reason |} ])
    as Hfire.
  { intros reason Hr Hne. rewrite Hf. unfold residencyCheck, JS.Get. rewrite Hr.
    apply truthy_string_spec in Hne. cbn [JS.ToBoolean]. by rewrite Hne. }
  assert (forall o,
        RESIDENCY_RESTRICTED rd !! symbol sec = None ->
        JS.inherited (symbol sec) = Some o ->
        found = [ {| name := "Client Residency"; severity := hard;
                     message := JS.VObject o |} ]) as Hinh.
  { intros o Hr Ho. rewrite Hf. unfold residencyCheck, JS.Get. by rewrite Hr, Ho. }
  split; [exact Hfire|]. split; [|split; [|split; [exact Hinh|]]].
  - intros Hr. rewrite Hf. unfold residencyCheck, JS.Get. by rewrite Hr.
  - intros Hr Ho. rewrite Hf. unfold residencyCheck, JS.Get. by rewrite Hr, Ho.
  - rewrite <- resultsNamed_nil_iff. fold found. split.
    + intros Hne. rewrite Hf in Hne. unfold residencyCheck, JS.Get in Hne.
      destruct (RESIDENCY_RESTRICTED rd !! symbol sec) as [reason|].
      * left. cbn [JS.ToBoolean] in Hne.
        destruct (JS.truthy_string reason) eqn:E; [|done].
        exists reason. split; [done|]. by apply truthy_string_spec.
      * right. split; [done|]. by destruct (JS.inherited (symbol sec)).
    + intros [(reason & Hr & Hne) | (Hr & [o Ho])].
      * by rewrite (Hfire reason Hr Hne).
      * by rewrite (Hinh o Hr Ho).
Qed.

Lemma client_residency_rule_witness :
  security (Examples.buy (Some Examples.SWPPX) 5000) = Some Examples.SWPPX
  /\ JS.le (orderAmount (Examples.buy (Some Examples.SWPPX) 5000)) 0 = false
  /\ runChecks_call MOCK (Examples.buy (Some Examples.SWPPX) 5000)
     = Normal (runChecks MOCK (Examples.buy (Some Examples.SWPPX) 5000))
  /\ resultsNamed "Client Residency"
       (runChecks MOCK (Examples.buy (Some Examples.SWPPX) 5000))
     = [ {| name := "Client Residency"; severity := hard;
            message := "Security not available for non-US resident clients" |} ].
Proof.
  split; [reflexivity|split; [reflexivity|split; [reflexivity|]]].
  apply (client_residency_rule MOCK (Examples.buy (Some Examples.SWPPX) 5000)
           Examples.SWPPX (runChecks MOCK (Examples.buy (Some Examples.SWPPX) 5000))
           eq_refl eq_refl eq_refl); done.
Defined.




(** ** The shape of the output *)








(** ** When an order is blocked, needs approval or is flagged *)

Lemma some_severity_app s l1 l2 :
  some_severity s (l1 ++ l2)%list = some_severity s l1 || some_severity s l2.
Proof. apply existsb_app. Qed.

Lemma severities_restricted rd sec :
  some_severity hard (restrictedCheck rd sec)
  = includes (RESTRICTED_SECURITIES rd) (symbol sec)
  /\ some_severity soft (restrictedCheck rd sec) = false
  /\ some_severity warning (restrictedCheck rd sec) = false.
Proof. unfold restrictedCheck. by destruct (includes _ _). Qed.

Lemma severities_residency rd sec :
  some_severity hard (residencyCheck rd sec)
  = match JS.Get JS.VString (RESIDENCY_RESTRICTED rd) (symbol sec) with
    | Some reason => JS.ToBoolean reason
    | None => false
    end
  /\ some_severity soft (residencyCheck rd sec) = false
  /\ some_severity warning (residencyCheck rd sec) = false.
Proof.
  unfold residencyCheck.
  destruct (JS.Get JS.VString (RESIDENCY_RESTRICTED rd) (symbol sec)) as [reason|];
    [|done].
  by destruct (JS.ToBoolean reason).
Qed.

Lemma severities_cash rd sd amount acct :
  some_severity hard (cashCheck rd sd amount acct)
  = bool_decide (sd = Buy) && JS.truthy_string acct
    && JS.gt amount
         (JS.ToNumber (JS.nullish_or (JS.Get JS.VNumber (MOCK_CASH rd) acct) 0))
  /\ some_severity soft (cashCheck rd sd amount acct) = false
  /\ some_severity warning (cashCheck rd sd amount acct) = false.
Proof.
  unfold cashCheck.
  destruct (bool_decide (sd = Buy) && JS.truthy_string acct); [|done].
  by destruct (JS.gt _ _).
Qed.

Lemma severities_concentration rd sec sd amount acct :
  some_severity hard (concentrationCheck rd sec sd amount acct)
  = JS.truthy_string acct
    && match concentration rd sec sd amount acct with
       | Normal c => JS.gt c 20
       | ThrowTypeError => false
       end
  /\ some_severity soft (concentrationCheck rd sec sd amount acct) = false
  /\ some_severity warning (concentrationCheck rd sec sd amount acct) = false.
Proof.
  unfold concentrationCheck.
  destruct (JS.truthy_string acct); [|done].
  destruct (concentration rd sec sd amount acct) as [c|]; [|done].
  by destruct (JS.gt _ _).
Qed.

Lemma severities_orderSize amount :
  some_severity hard (orderSizeCheck amount) = false
  /\ some_severity soft (orderSizeCheck amount) = JS.gt amount 100000
  /\ some_severity warning (orderSizeCheck amount) = false.
Proof. unfold orderSizeCheck. by destruct (JS.gt _ _). Qed.

Lemma severities_priceDeviation sec ot lp :
  some_severity hard (priceDeviationCheck sec ot lp) = false
  /\ some_severity soft (priceDeviationCheck sec ot lp) = false
  /\ some_severity warning (priceDeviationCheck sec ot lp)
     = String.eqb ot "Limit" && JS.truthy_string lp && JS.gt (deviation sec lp) 3.
Proof.
  unfold priceDeviationCheck.
  destruct (String.eqb ot "Limit" && JS.truthy_string lp); [|done].
  by destruct (JS.gt _ _).
Qed.

(** The outcome of the list of a call that passes the guard, from the
    conditions of the rules. *)
Lemma outcome_guarded rd props sec :
  security props = Some sec -> JS.le (orderAmount props) 0 = false ->
  outcomeOf (runChecks rd props) =
    if includes (RESTRICTED_SECURITIES rd) (symbol sec)
       || match JS.Get JS.VString (RESIDENCY_RESTRICTED rd) (symbol sec) with
          | Some reason => JS.ToBoolean reason
          | None => false
          end
       || bool_decide (side props = Buy) && JS.truthy_string (cashAccount props)
          && JS.gt (orderAmount props)
               (JS.ToNumber
                  (JS.nullish_or (JS.Get JS.VNumber (MOCK_CASH rd) (cashAccount props)) 0))
       || JS.truthy_string (investmentAccount props)
          && match concentration rd sec (side props) (orderAmount props)
                     (investmentAccount props) with
             | Normal c => JS.gt c 20
             | ThrowTypeError => false
             end
    then hard
    else if JS.gt (orderAmount props) 100000 then soft
    else if String.eqb (orderType props) "Limit" && JS.truthy_string (limitPrice props)
            && JS.gt (deviation sec (limitPrice props)) 3
    then warning
    else pass.
Proof.
  intros Hs Hg. rewrite (runChecks_guarded _ _ _ Hs Hg). unfold outcomeOf.
  rewrite !some_severity_app.
  destruct (severities_restricted rd sec) as (-> & -> & ->).
  destruct (severities_residency rd sec) as (-> & -> & ->).
  destruct (severities_cash rd (side props) (orderAmount props) (cashAccount props))
    as (-> & -> & ->).
  destruct (severities_concentration rd sec (side props) (orderAmount props)
              (investmentAccount props)) as (-> & -> & ->).
  destruct (severities_orderSize (orderAmount props)) as (-> & -> & ->).
  destruct (severities_priceDeviation sec (orderType props) (limitPrice props))
    as (-> & -> & ->).
  cbn [orb]. rewrite !orb_false_r, !orb_assoc. reflexivity.
Qed.

Lemma outcome_unguarded rd props :
  security props = None \/ JS.le (orderAmount props) 0 = true ->
  outcomeOf (runChecks rd props) = pass.
Proof.
  intros H. unfold runChecks. destruct H as [-> | ->]; [reflexivity|].
  by destruct (security props).
Qed.

(** The residency read is truthy for a non-empty reason and for an
    inherited name. *)
Lemma residency_read_truthy rd sym :
  match JS.Get JS.VString (RESIDENCY_RESTRICTED rd) sym with
  | Some reason => JS.ToBoolean reason
  | None => false
  end = true
  <-> (exists reason, RESIDENCY_RESTRICTED rd !! sym = Some reason /\ reason <> "")
      \/ (RESIDENCY_RESTRICTED rd !! sym = None /\ is_Some (JS.inherited sym)).
Proof.
  unfold JS.Get. destruct (RESIDENCY_RESTRICTED rd !! sym) as [reason|].
  - cbn [JS.ToBoolean]. rewrite truthy_string_spec. split.
    + intros Hne. left. by exists reason.
    + intros [(r & [= <-] & Hne) | (? & _)]; done.
  - destruct (JS.inherited sym) as [o|]; cbn.
    + split; [|done]. intros _. right. split; [done|]. by exists o.
    + split; [done|]. intros [(r & ? & _) | (_ & [o ?])]; done.
Qed.

(** The amount is above what the cash read gives: above the balance of
    a key of the table, or above 0 for a name that is neither a key
    nor inherited; never for an inherited name. *)
Lemma cash_read_exceeded rd amount acct :
  JS.gt amount (JS.ToNumber (JS.nullish_or (JS.Get JS.VNumber (MOCK_CASH rd) acct) 0))
  = true
  <-> (exists balance, MOCK_CASH rd !! acct = Some balance
                       /\ JS.gt amount balance = true)
      \/ (MOCK_CASH rd !! acct = None /\ JS.inherited acct = None
          /\ JS.gt amount 0 = true).
Proof.
  unfold JS.Get. destruct (MOCK_CASH rd !! acct) as [balance|].
  - cbn. split.
    + intros H. left. by exists balance.
    + intros [(b & [= <-] & H) | (? & _)]; done.
  - destruct (JS.inherited acct) as [o|] eqn:Ho; cbn [fmap option_fmap option_map JS.nullish_or default].
    + rewrite (gt_nan_r _ _ (inherited_nan _ _ Ho)). split; [done|].
      intros [(b & ? & _) | (_ & ? & _)]; done.
    + cbn. split.
      * intros H. right. done.
      * intros [(b & ? & _) | (_ & _ & H)]; done.
Qed.

(** A call returns with the outcome "hard" exactly when the guard is
    passed, the read of the holdings does not throw, and one of the
    four blocking rules fires: the symbol is restricted; or it has a
    non-empty residency reason or is a name the residency table
    inherits; or a buy from a chosen cash account exceeds its balance
    (0 for a name that is neither a key nor inherited; an inherited
    name never blocks); or the concentration on a chosen investment
    account is above 20. *)
Theorem blocked_iff rd props :
  (exists checks, runChecks_call rd props = Normal checks /\ outcomeOf checks = hard)
  <->
  exists sec,
    security props = Some sec /\ JS.le (orderAmount props) 0 = false
    /\ (investmentAccount props = ""
        \/ exists h, currentHolding rd sec (investmentAccount props) = Normal h)
    /\ (symbol sec ∈ RESTRICTED_SECURITIES rd
        \/ ((exists reason, RESIDENCY_RESTRICTED rd !! symbol sec = Some reason
                            /\ reason <> "")
            \/ (RESIDENCY_RESTRICTED rd !! symbol sec = None
                /\ is_Some (JS.inherited (symbol sec))))
        \/ (side props = Buy /\ cashAccount props <> ""
            /\ ((exists balance, MOCK_CASH rd !! cashAccount props = Some balance
                                 /\ JS.gt (orderAmount props) balance = true)
                \/ (MOCK_CASH rd !! cashAccount props = None
                    /\ JS.inherited (cashAccount props) = None
                    /\ JS.gt (orderAmount props) 0 = true)))
        \/ (investmentAccount props <> ""
            /\ exists c, concentration rd sec (side props) (orderAmount props)
                           (investmentAccount props) = Normal c
                         /\ JS.gt c 20 = true)).
Proof.
  destruct (runChecks_call_cases rd props) as [Hthrow Hnormal].
  destruct (security props) as [sec|] eqn:Hs;
    [destruct (JS.le (orderAmount props) 0) eqn:Hg|].
  - split.
    + intros (checks & Hc & Ho). rewrite Hnormal in Hc by congruence.
      injection Hc as <-. rewrite outcome_unguarded in Ho by (by right). done.
    + by intros (sec' & _ & ? & _).
  - assert ((investmentAccount props = ""
             \/ exists h, currentHolding rd sec (investmentAccount props) = Normal h)
            <-> runChecks_call rd props <> ThrowTypeError) as Hret.
    { unfold currentHolding. split.
      - intros Hr Ht. apply Hthrow in Ht as (sec' & f & Es & _ & Hown & Hf & Hne & Hk).
        assert (sec' = sec) as -> by congruence.
        assert (JS.Get_in JS.VNumber (MOCK_HOLDINGS rd) (investmentAccount props)
                  (symbol sec) = ThrowTypeError) as E
          by (apply Get_in_throws; eauto).
        destruct Hr as [Hr|[h Hr]].
        + rewrite Hr in Hf. done.
        + by rewrite E in Hr.
      - intros Hn.
        destruct (JS.Get_in JS.VNumber (MOCK_HOLDINGS rd) (investmentAccount props)
                    (symbol sec)) as [read|] eqn:Hread; [right; by eexists|].
        exfalso. apply Hn, Hthrow.
        apply Get_in_throws in Hread as (Hown & (f & Hf & Hne) & Hk).
        exists sec, f. done. }
    assert (forall b1 b2 b3 b4 : bool, forall x : Severity,
              x <> hard -> (if b1 || b2 || b3 || b4 then hard else x) = hard
                           <-> b1 = true \/ b2 = true \/ b3 = true \/ b4 = true) as Hb.
    { intros [] [] [] [] x Hx; cbn; intuition congruence. }
    assert (outcomeOf (runChecks rd props) = hard <->
            symbol sec ∈ RESTRICTED_SECURITIES rd
            \/ ((exists reason, RESIDENCY_RESTRICTED rd !! symbol sec = Some reason
                                /\ reason <> "")
                \/ (RESIDENCY_RESTRICTED rd !! symbol sec = None
                    /\ is_Some (JS.inherited (symbol sec))))
            \/ (side props = Buy /\ cashAccount props <> ""
                /\ ((exists balance, MOCK_CASH rd !! cashAccount props = Some balance
                                     /\ JS.gt (orderAmount props) balance = true)
                    \/ (MOCK_CASH rd !! cashAccount props = None
                        /\ JS.inherited (cashAccount props) = None
                        /\ JS.gt (orderAmount props) 0 = true)))
            \/ (investmentAccount props <> ""
                /\ exists c, concentration rd sec (side props) (orderAmount props)
                               (investmentAccount props) = Normal c
                             /\ JS.gt c 20 = true)) as Hhard.
    { rewrite (outcome_guarded rd props sec Hs Hg).
      rewrite Hb by (repeat case_match; done).
      rewrite includes_spec, residency_read_truthy.
      rewrite !andb_true_iff, bool_decide_eq_true, !truthy_string_spec.
      rewrite cash_read_exceeded.
      destruct (concentration rd sec (side props) (orderAmount props)
                  (investmentAccount props)) as [c|].
      - split.
        + intros [H|[H|[[[H1 H2] H3]|[H1 H2]]]].
          * by left.
          * by right; left.
          * by right; right; left.
          * right; right; right. split; [done|]. by exists c.
        + intros [H|[H|[(H1 & H2 & H3)|(H1 & c' & Ec & H2)]]].
          * by left.
          * by right; left.
          * by right; right; left.
          * right; right; right. injection Ec as <-. done.
      - split.
        + intros [H|[H|[[[H1 H2] H3]|[H1 H2]]]].
          * by left.
          * by right; left.
          * by right; right; left.
          * done.
        + intros [H|[H|[(H1 & H2 & H3)|(H1 & c' & Ec & H2)]]].
          * by left.
          * by right; left.
          * by right; right; left.
          * done. }
    split.
    + intros (checks & Hc & Ho).
      assert (runChecks_call rd props <> ThrowTypeError) as Hn by congruence.
      rewrite (Hnormal Hn) in Hc. injection Hc as <-.
      exists sec. split; [done|]. split; [done|]. split; [by apply Hret|].
      by apply Hhard.
    + intros (sec' & Es & _ & Hr & H). assert (sec' = sec) as -> by congruence.
      exists (runChecks rd props). split; [by apply Hnormal, Hret|]. by apply Hhard.
  - split.
    + intros (checks & Hc & Ho). rewrite Hnormal in Hc by congruence.
      injection Hc as <-. rewrite outcome_unguarded in Ho by (by left). done.
    + by intros (sec' & ? & _).
Qed.

(** The hook at a render that computes the checks (the first, or one at
    which a dependency of the memo changed) and at which the call of
    [runChecks] returns: the order needs approval (outcome "soft")
    exactly when the guard is passed, it is not blocked and its amount
    is above 100000; it is merely flagged (outcome "warning") exactly
    when the guard is passed, it is not blocked, its amount is not
    above 100000 and it is a limit order whose non-empty limit price
    deviates by more than 3% from the market price. *)
Theorem approval_and_warning_iff rd memo props checks :
  (forall m, memo = Some m ->
             areHookInputsEqual (depsOf props) (memo_deps m) = false) ->
  runChecks_call rd props = Normal checks ->
  let result := snd (usePreTradeOutcome_render rd memo props) in
  let outcome := snd result in
  fst result = checks
  /\ (outcome = soft <->
       outcome <> hard /\ is_Some (security props)
       /\ JS.le (orderAmount props) 0 = false
       /\ JS.gt (orderAmount props) 100000 = true)
  /\ (outcome = warning <->
        outcome <> hard /\ JS.le (orderAmount props) 0 = false
        /\ JS.gt (orderAmount props) 100000 = false
        /\ orderType props = "Limit" /\ limitPrice props <> ""
        /\ exists sec, security props = Some sec
             /\ JS.gt (abs ((JS.parseFloat (limitPrice props) - price sec) / price sec)
                       * 100)%float 3 = true).
Proof.
  intros Hmemo Hcall.
  assert (checks = runChecks rd props) as ->.
  { destruct (runChecks_call_cases rd props) as [_ Hnormal].
    rewrite Hnormal in Hcall by congruence. by injection Hcall as <-. }
  assert (snd (usePreTradeOutcome_render rd memo props)
          = (runChecks rd props, outcomeOf (runChecks rd props))) as ->.
  { unfold usePreTradeOutcome_render. destruct memo as [m|]; [|done].
    by rewrite (Hmemo m eq_refl). }
  cbn [fst snd]. split; [done|].
  destruct (security props) as [sec|] eqn:Hs;
    [destruct (JS.le (orderAmount props) 0) eqn:Hg|].
  - rewrite outcome_unguarded by (by right). split; split; try done.
    + by intros (_ & _ & ? & _).
    + by intros (_ & ? & _).
  - rewrite (outcome_guarded rd props sec Hs Hg).
    destruct (_ || _ || _ || _).
    { split; split; try done; by intros (? & _). }
    destruct (JS.gt (orderAmount props) 100000) eqn:Hl.
    { split; split; try done. by intros (_ & _ & ? & _). }
    unfold deviation.
    destruct (String.eqb_spec (orderType props) "Limit") as [Ht|Ht]; cbn [andb].
    2:{ split; split; try done.
        - by intros (_ & _ & _ & ?).
        - by intros (_ & _ & _ & ? & _). }
    destruct (JS.truthy_string (limitPrice props)) eqn:Hl'; cbn [andb].
    2:{ split; split; try done.
        - by intros (_ & _ & _ & ?).
        - intros (_ & _ & _ & _ & Hne & _). apply truthy_string_spec in Hne.
          congruence. }
    apply truthy_string_spec in Hl'.
    destruct (JS.gt _ 3) eqn:Hd.
    + split; split; try done.
      * by intros (_ & _ & _ & ?).
      * intros _. repeat split; try done. by exists sec.
    + split; split; try done.
      * by intros (_ & _ & _ & ?).
      * intros (_ & _ & _ & _ & _ & sec' & [= <-] & Hd'). congruence.
  - rewrite outcome_unguarded by (by left). split; split; try done.
    + intros (_ & [? ?] & _). done.
    + by intros (_ & _ & _ & _ & _ & sec' & ? & _).
Qed.

Lemma approval_and_warning_iff_witness :
  (forall m, @None Memo = Some m ->
             areHookInputsEqual (depsOf (Examples.limit_buy "104")) (memo_deps m) = false)
  /\ runChecks_call MOCK (Examples.limit_buy "104")
     = Normal (runChecks MOCK (Examples.limit_buy "104"))
  /\ (snd (snd (usePreTradeOutcome_render MOCK None (Examples.limit_buy "104")))
      = warning
      <-> snd (snd (usePreTradeOutcome_render MOCK None (Examples.limit_buy "104")))
          <> hard
          /\ JS.le (orderAmount (Examples.limit_buy "104")) 0 = false
          /\ JS.gt (orderAmount (Examples.limit_buy "104")) 100000 = false
          /\ orderType (Examples.limit_buy "104") = "Limit"
          /\ limitPrice (Examples.limit_buy "104") <> ""
          /\ exists sec, security (Examples.limit_buy "104") = Some sec
               /\ JS.gt (abs ((JS.parseFloat (limitPrice (Examples.limit_buy "104"))
                               - price sec) / price sec) * 100)%float 3 = true).
Proof.
  split; [intros m [=]|]. split; [reflexivity|].
  apply (approval_and_warning_iff MOCK None (Examples.limit_buy "104")
           (runChecks MOCK (Examples.limit_buy "104"))
           ltac:(intros m [=]) eq_refl).
Defined.

(** ** When a call throws *)


(** The call on an order of "caller" into an account named
    "constructor" throws. *)
Example caller_order_throws : runChecks_call MOCK Examples.caller_order = ThrowTypeError.
Proof. reflexivity. Qed.


(** ** The summary of the panel *)

Lemma severity_max_pass a b : severity_max a b = pass <-> a = pass /\ b = pass.
Proof. destruct a, b; unfold severity_max; cbn; split; (done || by intros [? ?]). Qed.

Lemma outcomeOf_pass_iff (checks : list CheckResult) :
  outcomeOf checks = pass <-> nonPassChecks checks = [].
Proof.
  unfold nonPassChecks. induction checks as [|c l IH]; [done|].
  rewrite outcomeOf_cons, severity_max_pass, IH. cbn [List.filter].
  destruct (decide (severity c = pass)) as [E|E].
  - rewrite bool_decide_eq_true_2 by done. cbn. tauto.
  - rewrite bool_decide_eq_false_2 by done. cbn. split; [tauto|done].
Qed.

Lemma split_by_pass_length (checks : list CheckResult) :
  (List.length (nonPassChecks checks) + List.length (passChecks checks)
   = List.length checks)%nat.
Proof.
  unfold nonPassChecks, passChecks. induction checks as [|c l IH]; [done|].
  cbn [List.filter]. destruct (bool_decide (severity c = pass)); cbn; lia.
Qed.

(** The panel renders nothing exactly when there is no check.  Given
    the checks and the outcome the hook returns, its summary says "All
    Passed" exactly when no check is other than a pass, and otherwise
    counts the checks that are not a pass: at least one, "1 issue
    found" for one and "n issues found" for more.  Failed and passed
    checks together are all the checks. *)
Theorem panel_summary_counts_issues (checks : list CheckResult) :
  let outcome := outcomeOf checks in
  let n := List.length (nonPassChecks checks) in
  (panelSummary checks outcome = None <-> checks = [])
  /\ (outcome = pass <-> n = 0%nat)
  /\ (checks <> [] -> n = 0%nat ->
      panelSummary checks outcome = Some "Pre-Trade Check: All Passed")
  /\ (n = 1%nat -> panelSummary checks outcome = Some "Pre-Trade Check: 1 issue found")
  /\ ((1 < n)%nat ->
      panelSummary checks outcome
      = Some ("Pre-Trade Check: " ++ JS.digits_of_Z (Z.of_nat n) ++ " issues found"))
  /\ (n + List.length (passChecks checks) = List.length checks)%nat.
Proof.
  intros outcome n.
  assert (outcome = pass <-> n = 0%nat) as Hp.
  { subst outcome n. rewrite outcomeOf_pass_iff. by destruct (nonPassChecks checks). }
  pose proof (split_by_pass_length checks) as Hlen. fold n in Hlen.
  split; [|split; [exact Hp|]].
  { unfold panelSummary. destruct checks; cbn; split; done. }
  assert (checks <> [] -> Nat.eqb (List.length checks) 0 = false) as Hne
    by (destruct checks; done).
  assert (n <> 0%nat -> checks <> []) as Hnil
    by (intros Hn E; apply Hn; unfold n; by rewrite E).
  repeat split.
  - intros Hc Hn. unfold panelSummary. rewrite (Hne Hc).
    apply Hp in Hn. by rewrite Hn.
  - intros Hn. unfold panelSummary.
    rewrite Hne by (apply Hnil; lia).
    assert (outcome <> pass) as Ho by (rewrite Hp; lia).
    rewrite bool_decide_eq_false_2 by done.
    unfold length_string. fold n. by rewrite Hn.
  - intros Hn. unfold panelSummary.
    rewrite Hne by (apply Hnil; lia).
    assert (outcome <> pass) as Ho by (rewrite Hp; lia).
    rewrite bool_decide_eq_false_2 by done.
    unfold length_string. fold n.
    apply Nat.ltb_lt in Hn. by rewrite Hn.
  - exact Hlen.
Qed.

End EngineSpec.

(* ===================================================================== *)
(** * More on the order dialog                                            *)
(* ===================================================================== *)

Module DialogSpec.
Import CreateOrderDialog JSFacts.

Local Open Scope string_scope.

(** ** Numbers above zero *)

Lemma ltb_true_leb_false a b :
  PrimFloat.ltb a b = true -> PrimFloat.leb b a = false.
Proof.
  rewrite FloatAxioms.ltb_spec, FloatAxioms.leb_spec. unfold SFltb, SFleb.
  generalize (Prim2SF a) (Prim2SF b). intros fa fb.
  destruct (SFcompare fa fb) as [[| |]|] eqn:E; try discriminate.
  intros _. by rewrite (SFcompare_Lt_Gt _ _ E).
Qed.

Lemma ltb_true_eqb_false a b :
  PrimFloat.ltb a b = true -> PrimFloat.eqb b a = false.
Proof.
  rewrite FloatAxioms.ltb_spec, FloatAxioms.eqb_spec. unfold SFltb, SFeqb.
  generalize (Prim2SF a) (Prim2SF b). intros fa fb.
  destruct (SFcompare fa fb) as [[| |]|] eqn:E; try discriminate.
  intros _. by rewrite (SFcompare_Lt_Gt _ _ E).
Qed.

Lemma gt_zero_le_false x : JS.gt x 0 = true -> JS.le x 0 = false.
Proof. apply ltb_true_leb_false. Qed.

Lemma gt_zero_truthy x : JS.gt x 0 = true -> JS.truthy_number x = true.
Proof.
  intros H. unfold JS.truthy_number.
  assert (is_nan x = false) as ->.
  { destruct (is_nan x) eqn:E; [|done]. by rewrite (gt_nan_l _ _ E) in H. }
  assert (is_zero x = false) as ->; [|done].
  by apply ltb_true_eqb_false.
Qed.

(** ** The submit button *)

(** The button is disabled exactly when it reads "Complete Order
    Details" or "Blocked by Pre-Trade Check"; it reads "Send for
    Approval" exactly when the form is complete and the outcome is
    soft; and when it reads a side and a symbol, a security is
    selected and the symbol is its symbol. *)
Theorem button_matches_gate rd st :
  (submitDisabled rd st = true <->
     buttonContent rd st = CompleteOrderDetails
     \/ buttonContent rd st = BlockedByPreTradeCheck)
  /\ (buttonContent rd st = CompleteOrderDetails <-> formComplete st = false)
  /\ (buttonContent rd st = BlockedByPreTradeCheck <->
        formComplete st = true /\ outcome rd st = PreTradeChecks.hard)
  /\ (buttonContent rd st = SendForApproval <->
        formComplete st = true /\ outcome rd st = PreTradeChecks.soft)
  /\ (forall text, buttonContent rd st = SideAndSymbol text ->
        submitDisabled rd st = false
        /\ exists s, selectedSecurity st = Some s
                     /\ text = Side_string (side st) ++ " " ++ symbol s).
Proof.
  unfold submitDisabled, canSubmit, buttonContent.
  destruct (formComplete st) eqn:Hf; cbn [negb andb].
  2:{ repeat split; try done; try (by intros [? ?]); try (by left). }
  destruct (outcome rd st) eqn:Ho;
    rewrite ?bool_decide_eq_true_2, ?bool_decide_eq_false_2 by done; cbn [negb].
  all: repeat split; try done; try (by intros [? ?]); try (by intros [? | ?]);
    try (by right).
  all: match goal with H : SideAndSymbol _ = SideAndSymbol _ |- _ =>
         injection H as <- end;
    unfold formComplete in Hf; rewrite !andb_true_iff, bool_decide_eq_true in Hf;
    destruct Hf as (((([s Hs] & _) & _) & _) & _); exists s; by rewrite Hs.
Qed.

(** ** The form and the guard of the engine *)

(** A complete form that orders by amount always passes the guard of
    the engine: the order amount is the number typed, it is above 0,
    the checks hold exactly one "Order Size" result and the compliance
    column is shown. *)
Theorem complete_amount_form_is_checked rd st :
  orderBy st = Amount -> formComplete st = true ->
  orderAmount st = JS.parseFloat (inputValue st)
  /\ JS.le (orderAmount st) 0 = false
  /\ (exists c, PreTradeChecks.resultsNamed "Order Size" (checks rd st) = [c])
  /\ complianceShown rd st = true.
Proof.
  intros Hby Hf. pose proof Hf as Hf'.
  unfold formComplete in Hf'. rewrite !andb_true_iff, bool_decide_eq_true in Hf'.
  destruct Hf' as (((([s Hs] & _) & Hpos) & _) & _).
  assert (orderAmount st = JS.parseFloat (inputValue st)) as Ha.
  { unfold orderAmount, JS.or_number. by rewrite Hby, (gt_zero_truthy _ Hpos). }
  assert (JS.le (orderAmount st) 0 = false) as Hg
    by (rewrite Ha; by apply gt_zero_le_false).
  assert (PreTradeChecks.security (checkProps st) = Some (security_prop s)) as Hsec
    by (cbn; by rewrite Hs).
  assert (exists c, PreTradeChecks.resultsNamed "Order Size" (checks rd st) = [c]) as Hc.
  { unfold checks. cbn [PreTradeChecks.usePreTradeOutcome fst].
    rewrite (PreTradeChecksSpec.orderSize_results rd (checkProps st) _ Hsec Hg).
    unfold PreTradeChecks.orderSizeCheck. case_match; by eexists. }
  split; [exact Ha|]. split; [exact Hg|]. split; [exact Hc|].
  unfold complianceShown. rewrite Hf. cbn [andb]. apply Nat.ltb_lt.
  destruct Hc as [c Hc]. destruct (checks rd st); [done|cbn; lia].
Qed.

Lemma complete_amount_form_is_checked_witness :
  orderBy (DialogExamples.form Amount Market "5000" "") = Amount
  /\ formComplete (DialogExamples.form Amount Market "5000" "") = true
  /\ complianceShown PreTradeChecks.MOCK (DialogExamples.form Amount Market "5000" "")
     = true.
Proof.
  split; [reflexivity|split; [reflexivity|]].
  apply (complete_amount_form_is_checked PreTradeChecks.MOCK
           (DialogExamples.form Amount Market "5000" "") eq_refl eq_refl).
Defined.

(** A complete form whose order amount is not above 0 (units times a
    limit price of 0, say) is not checked at all: the engine returns no
    check, the outcome is pass, the compliance column is not shown and
    the submit button is enabled. *)
Theorem nonpositive_amount_is_not_checked rd st :
  formComplete st = true -> JS.le (orderAmount st) 0 = true ->
  checks rd st = []
  /\ outcome rd st = PreTradeChecks.pass
  /\ complianceShown rd st = false
  /\ submitDisabled rd st = false.
Proof.
  intros Hf Hg.
  assert (PreTradeChecks.runChecks rd (checkProps st) = []) as Hr.
  { unfold PreTradeChecks.runChecks. cbn [PreTradeChecks.orderAmount checkProps].
    rewrite Hg. by destruct (PreTradeChecks.security _). }
  unfold checks, outcome, complianceShown, submitDisabled, canSubmit, outcome, checks.
  cbn [PreTradeChecks.usePreTradeOutcome fst snd]. rewrite Hr, Hf. done.
Qed.

Lemma nonpositive_amount_is_not_checked_witness :
  formComplete (DialogExamples.form Units Limit "10" "0") = true
  /\ JS.le (orderAmount (DialogExamples.form Units Limit "10" "0")) 0 = true
  /\ submitDisabled PreTradeChecks.MOCK (DialogExamples.form Units Limit "10" "0") = false.
Proof.
  split; [reflexivity|split; [reflexivity|]].
  apply (nonpositive_amount_is_not_checked PreTradeChecks.MOCK
           (DialogExamples.form Units Limit "10" "0") eq_refl eq_refl).
Defined.

(** ** The compliance column *)

(** Under the outcome of the hook, the outcome is pass exactly when no
    check is other than a pass, and the heading of the column then
    reads "All Checks Passed"; it reads "1 Issue" for one such check
    and "n Issues" for more; the checks the column lists as issues and
    as passed are together all the checks. *)
Theorem column_heading_counts_issues (checks : list PreTradeChecks.CheckResult) :
  let outcome := PreTradeChecks.outcomeOf checks in
  let n := List.length (nonPass checks) in
  (outcome = PreTradeChecks.pass <-> n = 0%nat)
  /\ (n = 0%nat -> columnHeading checks outcome = "All Checks Passed")
  /\ (n = 1%nat -> columnHeading checks outcome = "1 Issue")
  /\ ((1 < n)%nat ->
      columnHeading checks outcome = JS.digits_of_Z (Z.of_nat n) ++ " Issues")
  /\ (n + List.length (pass checks) = List.length checks)%nat.
Proof.
  intros outcome n.
  assert (outcome = PreTradeChecks.pass <-> n = 0%nat) as Hp.
  { subst outcome n. rewrite EngineSpec.outcomeOf_pass_iff.
    change (nonPass checks) with (PreTradeChecks.nonPassChecks checks).
    by destruct (PreTradeChecks.nonPassChecks checks). }
  split; [exact Hp|]. repeat split.
  - intros Hn. apply Hp in Hn. unfold columnHeading. by rewrite Hn.
  - intros Hn. unfold columnHeading.
    assert (outcome <> PreTradeChecks.pass) as Ho by (rewrite Hp; lia).
    rewrite bool_decide_eq_false_2 by done.
    unfold PreTradeChecks.length_string. fold n. by rewrite Hn.
  - intros Hn. unfold columnHeading.
    assert (outcome <> PreTradeChecks.pass) as Ho by (rewrite Hp; lia).
    rewrite bool_decide_eq_false_2 by done.
    unfold PreTradeChecks.length_string. fold n.
    apply Nat.ltb_lt in Hn. by rewrite Hn.
  - apply (EngineSpec.split_by_pass_length checks).
Qed.

End DialogSpec.

(* ===================================================================== *)
(** * More on the approvals page                                          *)
(* ===================================================================== *)

Module ApprovalsPageSpec.
Import Approvals.

Local Open Scope string_scope.

(** ** Counting with [reduce] *)

Lemma count_fold {A} (key : A -> string) (l : list A) (acc : gmap string nat) k :
  default 0%nat
    (fold_left (fun acc o => <[key o := (default 0%nat (acc !! key o) + 1)%nat]> acc) l acc
       !! k)
  = (default 0%nat (acc !! k)
     + List.length (List.filter (fun o => String.eqb (key o) k) l))%nat.
Proof.
  revert acc. induction l as [|o l IH]; intros acc; cbn [fold_left List.filter].
  - cbn. lia.
  - rewrite IH. destruct (String.eqb_spec (key o) k) as [->|Hne].
    + rewrite lookup_insert_eq. cbn. lia.
    + by rewrite lookup_insert_ne.
Qed.

Lemma status_key_eqb s s' :
  String.eqb (ApprovalStatus_string s) (ApprovalStatus_string s') = bool_decide (s = s').
Proof. by destruct s, s'. Qed.

Lemma counts_lookup orders s :
  default 0%nat (counts orders !! ApprovalStatus_string s)
  = List.length (filtered (Only s) orders).
Proof.
  unfold counts. rewrite (count_fold (fun o => ApprovalStatus_string (approvalStatus o))).
  rewrite lookup_empty. cbn [default]. rewrite Nat.add_0_l. unfold filtered. f_equal.
  apply filter_ext. intros o. apply status_key_eqb.
Qed.

Lemma filtered_All orders : filtered All orders = orders.
Proof. unfold filtered. induction orders as [|o l IH]; cbn; [done|by rewrite IH]. Qed.

Lemma status_partition (orders : list ApprovalOrder) :
  (List.length (filtered (Only PendingApproval) orders)
   + List.length (filtered (Only Approved) orders)
   + List.length (filtered (Only Rejected) orders) = List.length orders)%nat.
Proof.
  unfold filtered. induction orders as [|o l IH]; [done|]. cbn [List.filter].
  destruct (approvalStatus o); repeat case_bool_decide; try done; cbn [List.length]; lia.
Qed.

(** ** The sorted rows *)

Lemma sort_insert_perm {A} (cmp : A -> A -> float) x (l : list A) :
  JS.sort_insert cmp x l ≡ₚ x :: l.
Proof.
  induction l as [|y l IH]; cbn [JS.sort_insert]; [done|].
  destruct (JS.lt (cmp x y) 0); [done|]. by rewrite IH, Permutation_swap.
Qed.

Lemma Array_sort_perm_acc {A} (cmp : A -> A -> float) (l acc : list A) :
  fold_left (fun acc x => JS.sort_insert cmp x acc) l acc ≡ₚ (acc ++ l)%list.
Proof.
  revert acc. induction l as [|x l IH]; intros acc; cbn [fold_left].
  - by rewrite app_nil_r.
  - rewrite IH, sort_insert_perm. cbn. apply Permutation_middle.
Qed.

Lemma Array_sort_perm {A} (cmp : A -> A -> float) (l : list A) :
  JS.Array_sort cmp l ≡ₚ l.
Proof. unfold JS.Array_sort. by rewrite Array_sort_perm_acc. Qed.

Section Ranked.
Context {A : Type} (cmp : A -> A -> float) (rank : A -> nat).
Hypothesis cmp_before :
  forall x y, (rank x < rank y)%nat -> JS.lt (cmp x y) 0 = true.
Hypothesis cmp_after :
  forall x y, (rank y < rank x)%nat -> JS.lt (cmp x y) 0 = false.

Lemma sort_insert_ranked x l :
  StronglySorted (fun a b => (rank a <= rank b)%nat) l ->
  StronglySorted (fun a b => (rank a <= rank b)%nat) (JS.sort_insert cmp x l).
Proof using cmp_before cmp_after.
  induction 1 as [|y l Hl IH Hy]; cbn [JS.sort_insert].
  - repeat constructor.
  - destruct (JS.lt (cmp x y) 0) eqn:E.
    + assert (rank x <= rank y)%nat as Hxy.
      { destruct (decide (rank y < rank x)%nat) as [Hlt|]; [|lia].
        by rewrite (cmp_after _ _ Hlt) in E. }
      constructor; [by constructor|].
      constructor; [done|]. eapply Forall_impl; [exact Hy|]. cbn. intros. lia.
    + assert (rank y <= rank x)%nat as Hyx.
      { destruct (decide (rank x < rank y)%nat) as [Hlt|]; [|lia].
        by rewrite (cmp_before _ _ Hlt) in E. }
      constructor; [exact IH|].
      rewrite (sort_insert_perm cmp x l). by constructor.
Qed.

Lemma Array_sort_ranked_acc l acc :
  StronglySorted (fun a b => (rank a <= rank b)%nat) acc ->
  StronglySorted (fun a b => (rank a <= rank b)%nat)
    (fold_left (fun acc x => JS.sort_insert cmp x acc) l acc).
Proof using cmp_before cmp_after.
  revert acc. induction l as [|x l IH]; intros acc Hacc; cbn [fold_left]; [done|].
  by apply IH, sort_insert_ranked.
Qed.
End Ranked.

Lemma compareRows_before a b :
  (rowRank a < rowRank b)%nat -> JS.lt (compareRows a b) 0 = true.
Proof.
  unfold rowRank, compareRows.
  destruct (bool_decide (approvalStatus a = PendingApproval)),
    (bool_decide (approvalStatus b = PendingApproval)),
    (bool_decide (urgency a = high)), (bool_decide (urgency b = high));
    cbn; intros H; try lia; reflexivity.
Qed.

Lemma compareRows_after a b :
  (rowRank b < rowRank a)%nat -> JS.lt (compareRows a b) 0 = false.
Proof.
  unfold rowRank, compareRows.
  destruct (bool_decide (approvalStatus a = PendingApproval)),
    (bool_decide (approvalStatus b = PendingApproval)),
    (bool_decide (urgency a = high)), (bool_decide (urgency b = high));
    cbn; intros H; try lia; reflexivity.
Qed.

(** The rows of the table are the orders the filter keeps, in another
    order: every pending order comes before every decided one, and
    among the pending ones, as among the decided ones, every urgent
    order comes before every other. *)
Theorem rows_sorted_by_rank (f : FilterStatus) (orders : list ApprovalOrder) :
  rows f orders ≡ₚ filtered f orders
  /\ StronglySorted (fun a b => (rowRank a <= rowRank b)%nat) (rows f orders)
  /\ (forall i j a b,
        (i < j)%nat -> rows f orders !! i = Some a -> rows f orders !! j = Some b ->
        (approvalStatus b = PendingApproval -> approvalStatus a = PendingApproval)
        /\ ((approvalStatus a = PendingApproval <-> approvalStatus b = PendingApproval) ->
            urgency b = high -> urgency a = high)).
Proof.
  assert (StronglySorted (fun a b => (rowRank a <= rowRank b)%nat) (rows f orders))
    as Hs.
  { unfold rows, JS.Array_sort.
    apply (Array_sort_ranked_acc compareRows rowRank compareRows_before compareRows_after).
    constructor. }
  split; [apply Array_sort_perm|]. split; [exact Hs|].
  intros i j a b Hij Ha Hb.
  assert (rowRank a <= rowRank b)%nat as Hr.
  { revert Hs i j Hij Ha Hb. generalize (rows f orders). intros l Hs.
    induction Hs as [|x l Hl IH Hx]; intros i j Hij Ha Hb; [done|].
    destruct i as [|i], j as [|j]; try lia; cbn in Ha, Hb.
    - injection Ha as ->. rewrite Forall_forall in Hx. apply Hx.
      by eapply list_elem_of_lookup_2.
    - apply (IH i j); [lia|done|done]. }
  revert Hr. unfold rowRank.
  repeat case_bool_decide; cbn; intros Hr; first [lia | split; intros; tauto].
Qed.

(** The number on a filter chip is the number of rows the table shows
    under that filter: all the orders for "All", and for a status the
    count that [reduce] found, 0 when no order has the status.  The
    three status counts add up to the number of orders. *)
Theorem chip_counts_rows (orders : list ApprovalOrder) :
  (forall f,
      chipLabel f orders
      = match f with
        | All => "All"
        | Only s => ApprovalStatus_string s
        end ++ " (" ++ JS.digits_of_Z (Z.of_nat (List.length (rows f orders))) ++ ")")
  /\ (forall s, counts orders !! ApprovalStatus_string s = None ->
                rows (Only s) orders = [])
  /\ (default 0%nat (counts orders !! "Pending Approval")
      + default 0%nat (counts orders !! "Approved")
      + default 0%nat (counts orders !! "Rejected") = List.length orders)%nat
  /\ default 0%nat (counts orders !! "Pending Approval") = pendingCount orders
  /\ (highUrgencyCount orders <= pendingCount orders <= List.length orders)%nat.
Proof.
  assert (forall f, List.length (rows f orders) = List.length (filtered f orders)) as Hlen.
  { intros f. apply Permutation_length, Array_sort_perm. }
  split; [|split; [|split; [|split]]].
  - intros [|s]; unfold chipLabel; rewrite Hlen.
    + by rewrite filtered_All.
    + by rewrite counts_lookup.
  - intros s Hs. apply length_zero_iff_nil. rewrite Hlen, <- counts_lookup. by rewrite Hs.
  - change "Pending Approval" with (ApprovalStatus_string PendingApproval).
    change "Approved" with (ApprovalStatus_string Approved).
    change "Rejected" with (ApprovalStatus_string Rejected).
    rewrite !counts_lookup. apply status_partition.
  - change "Pending Approval" with (ApprovalStatus_string PendingApproval).
    by rewrite counts_lookup.
  - clear Hlen. unfold highUrgencyCount, pendingCount. split.
    + induction orders as [|o l IH]; [done|]. cbn [List.filter].
      destruct (bool_decide (approvalStatus o = PendingApproval)),
        (bool_decide (urgency o = high)); cbn [andb List.length]; lia.
    + induction orders as [|o l IH]; [done|]. cbn [List.filter].
      destruct (bool_decide (approvalStatus o = PendingApproval));
        cbn [List.length]; lia.
Qed.

(** ** Decisions compose *)

Lemma withDecision_id o s c : id (withDecision o s c) = id o.
Proof. reflexivity. Qed.

Lemma withDecision_twice o s c s' c' :
  withDecision (withDecision o s c) s' c' = withDecision o s' c'.
Proof. reflexivity. Qed.

(** A decision on an id replaces any earlier decision on it: approving
    or rejecting twice is the same as doing it once, a rejection after
    an approval is the rejection alone and an approval after a
    rejection the approval alone; decisions on two different ids can be
    taken in either order. *)
Theorem decisions_compose oid c c' (prev : list ApprovalOrder) :
  handleApprove oid c (handleApprove oid c' prev) = handleApprove oid c prev
  /\ handleReject oid c (handleReject oid c' prev) = handleReject oid c prev
  /\ handleReject oid c (handleApprove oid c' prev) = handleReject oid c prev
  /\ handleApprove oid c (handleReject oid c' prev) = handleApprove oid c prev
  /\ (forall oid', oid' <> oid ->
        handleApprove oid c (handleReject oid' c' prev)
        = handleReject oid' c' (handleApprove oid c prev)
        /\ handleApprove oid c (handleApprove oid' c' prev)
           = handleApprove oid' c' (handleApprove oid c prev)
        /\ handleReject oid c (handleReject oid' c' prev)
           = handleReject oid' c' (handleReject oid c prev)).
Proof.
  unfold handleApprove, handleReject.
  repeat split; try intros oid' Hne; rewrite <- ?list_fmap_compose;
    apply list_fmap_ext; intros i o _; cbn;
    try (destruct (String.eqb_spec (id o) oid) as [E|E];
         rewrite ?withDecision_id, ?E, ?String.eqb_refl; [done|];
         by rewrite (proj2 (String.eqb_neq _ _) E)).
  all: destruct (String.eqb_spec (id o) oid) as [E|E],
         (String.eqb_spec (id o) oid') as [E'|E'];
    rewrite ?withDecision_id; subst;
    rewrite ?String.eqb_refl, ?(proj2 (String.eqb_neq _ _) E),
      ?(proj2 (String.eqb_neq _ _) E'); try done.
Qed.

(** After a decision on an id no order with that id is pending: the
    pending list is the earlier pending list without the orders of
    that id, in the same order, so the badge count never grows and the
    orders with another id keep their status. *)
Theorem decided_orders_leave_the_pending_list oid c (prev : list ApprovalOrder) :
  filtered (Only PendingApproval) (handleApprove oid c prev)
  = List.filter (fun o => negb (String.eqb (id o) oid))
      (filtered (Only PendingApproval) prev)
  /\ filtered (Only PendingApproval) (handleReject oid c prev)
     = List.filter (fun o => negb (String.eqb (id o) oid))
         (filtered (Only PendingApproval) prev)
  /\ (pendingCount (handleApprove oid c prev) <= pendingCount prev)%nat
  /\ (pendingCount (handleReject oid c prev) <= pendingCount prev)%nat
  /\ (forall o, o ∈ handleApprove oid c prev -> id o = oid ->
                approvalStatus o = Approved)
  /\ (forall o, o ∈ handleReject oid c prev -> id o = oid ->
                approvalStatus o = Rejected).
Proof.
  assert (forall (dec : ApprovalOrder -> ApprovalOrder),
            (forall o, approvalStatus (dec o) <> PendingApproval) ->
            filtered (Only PendingApproval)
              ((fun o => if String.eqb (id o) oid then dec o else o) <$> prev)
            = List.filter (fun o => negb (String.eqb (id o) oid))
                (filtered (Only PendingApproval) prev)) as Hgen.
  { intros dec Hdec. unfold filtered. induction prev as [|o l IH]; [done|].
    cbn [fmap list_fmap List.filter]. change (list_fmap _ _ ?f l) with (f <$> l).
    rewrite IH. destruct (String.eqb (id o) oid) eqn:E.
    - rewrite (bool_decide_eq_false_2 _ (Hdec o)).
      destruct (bool_decide (approvalStatus o = PendingApproval)); [|done].
      cbn [List.filter]. by rewrite E.
    - destruct (bool_decide (approvalStatus o = PendingApproval)); [|done].
      cbn [List.filter]. by rewrite E. }
  assert (forall (l : list ApprovalOrder) (p : ApprovalOrder -> bool),
            (List.length (List.filter p l) <= List.length l)%nat) as Hle.
  { intros l p. induction l as [|x l IH]; cbn [List.filter]; [done|].
    destruct (p x); cbn [List.length]; lia. }
  split; [apply (Hgen (fun o => withDecision o Approved _)); done|].
  split; [apply (Hgen (fun o => withDecision o Rejected _)); done|].
  split; [|split; [|split]].
  - unfold pendingCount, handleApprove.
    pose proof (Hgen (fun o => withDecision o Approved
                                 (if JS.truthy_string c then c else "Approved."))
                  ltac:(done)) as H.
    unfold filtered in H. rewrite H. apply Hle.
  - unfold pendingCount, handleReject.
    pose proof (Hgen (fun o => withDecision o Rejected c) ltac:(done)) as H.
    unfold filtered in H. rewrite H. apply Hle.
  - intros o Ho Hid. unfold handleApprove in Ho.
    apply list_elem_of_fmap in Ho as (o0 & -> & _). revert Hid.
    destruct (String.eqb (id o0) oid) eqn:E; [done|].
    apply String.eqb_neq in E. done.
  - intros o Ho Hid. unfold handleReject in Ho.
    apply list_elem_of_fmap in Ho as (o0 & -> & _). revert Hid.
    destruct (String.eqb (id o0) oid) eqn:E; [done|].
    apply String.eqb_neq in E. done.
Qed.

End ApprovalsPageSpec.

(* ===================================================================== *)
(** * The trade detail sheet                                              *)
(* ===================================================================== *)

Module TradeDetailSheetSpec.
Import TradeDetailSheet.

Local Open Scope string_scope.

(** What one event may call. *)
Lemma step_calls order ev st st' calls :
  step order ev st = (st', calls) ->
  calls = []
  \/ exists o, order = Some o /\ isActionable o = true
       /\ comment st' = "" /\ action st' = None
       /\ (calls = [onApprove (Approvals.id o) (comment st); onOpenChange false]
              /\ ev = ClickApprove
           \/ calls = [onReject (Approvals.id o) (comment st); onOpenChange false]
              /\ ev = ClickReject /\ blank (comment st) = false).
Proof.
  unfold step. destruct order as [o|]; [|intros [= <- <-]; by left].
  destruct (isActionable o) eqn:Ha; [|intros [= <- <-]; by left].
  destruct ev as [text| |].
  - intros [= <- <-]. by left.
  - unfold handleAction. intros [= <- <-]. right. exists o. eauto 10.
  - destruct (rejectDisabled st); [intros [= <- <-]; by left|].
    destruct (blank (comment st)) eqn:Hb; [intros [= <- <-]; by left|].
    unfold handleAction. intros [= <- <-]. right. exists o. eauto 10.
Qed.

(** Whatever the user does, in whatever state the sheet is: a rejection
    is never sent with a blank comment (empty or white space only),
    while an approval may be; every decision sent is for an order the
    sheet showed as pending at that time, under its id; and every
    decision is followed at once by the request to close the sheet. *)
Theorem rejection_needs_a_comment evs st :
  let calls := snd (run evs st) in
  (forall oid c, onReject oid c ∈ calls -> blank c = false)
  /\ (forall oid c, onReject oid c ∈ calls \/ onApprove oid c ∈ calls ->
        exists o ev, (Some o, ev) ∈ evs /\ Approvals.id o = oid
                     /\ Approvals.approvalStatus o = Approvals.PendingApproval)
  /\ (forall i oid c,
        calls !! i = Some (onReject oid c) \/ calls !! i = Some (onApprove oid c) ->
        calls !! S i = Some (onOpenChange false)).
Proof.
  revert st. induction evs as [|[order ev] evs IH]; intros st calls; subst calls.
  { cbn. repeat split; intros; try done.
    - by apply elem_of_nil in H.
    - destruct H as [H|H]; by apply elem_of_nil in H.
    - by destruct H. }
  cbn [run]. destruct (step order ev st) as [st1 calls1] eqn:Hstep.
  specialize (IH st1). destruct (run evs st1) as [st2 calls2]. cbn [snd] in *.
  destruct IH as (IH1 & IH2 & IH3).
  apply step_calls in Hstep as [-> | (o & -> & Ha & _ & _ & Hc)].
  { cbn [app]. repeat split; try done.
    intros oid c H. destruct (IH2 oid c H) as (o & ev' & Hin & ? & ?).
    exists o, ev'. split; [by apply list_elem_of_further|done]. }
  apply bool_decide_eq_true in Ha.
  destruct Hc as [[-> ->] | (-> & -> & Hb)]; cbn [app].
  - repeat split.
    + intros oid c H. apply elem_of_cons in H as [H|H]; [done|].
      apply elem_of_cons in H as [H|H]; [done|]. by apply (IH1 oid).
    + intros oid c [H|H].
      * apply elem_of_cons in H as [H|H]; [done|].
        apply elem_of_cons in H as [H|H]; [done|].
        destruct (IH2 oid c (or_introl H)) as (o' & ev' & Hin & ? & ?).
        exists o', ev'. split; [by apply list_elem_of_further|done].
      * apply elem_of_cons in H as [H|H].
        { injection H as -> ->. exists o, ClickApprove.
          split; [apply list_elem_of_here|done]. }
        apply elem_of_cons in H as [H|H]; [done|].
        destruct (IH2 oid c (or_intror H)) as (o' & ev' & Hin & ? & ?).
        exists o', ev'. split; [by apply list_elem_of_further|done].
    + intros [|[|i]] oid c H; cbn in *; [done|by destruct H|by apply (IH3 i oid c)].
  - repeat split.
    + intros oid c H. apply elem_of_cons in H as [H|H].
      { by injection H as -> ->. }
      apply elem_of_cons in H as [H|H]; [done|]. by apply (IH1 oid).
    + intros oid c [H|H].
      * apply elem_of_cons in H as [H|H].
        { injection H as -> ->. exists o, ClickReject.
          split; [apply list_elem_of_here|done]. }
        apply elem_of_cons in H as [H|H]; [done|].
        destruct (IH2 oid c (or_introl H)) as (o' & ev' & Hin & ? & ?).
        exists o', ev'. split; [by apply list_elem_of_further|done].
      * apply elem_of_cons in H as [H|H]; [done|].
        apply elem_of_cons in H as [H|H]; [done|].
        destruct (IH2 oid c (or_intror H)) as (o' & ev' & Hin & ? & ?).
        exists o', ev'. split; [by apply list_elem_of_further|done].
    + intros [|[|i]] oid c H; cbn in *; [done|by destruct H|by apply (IH3 i oid c)].
Qed.

(** A first click on Reject with a blank comment sends nothing and asks
    for a comment; while the comment stays blank the button is disabled
    and further clicks do nothing; once a comment is typed, the click
    sends the rejection with that comment, clears the comment and the
    request, and closes the sheet. *)
Theorem reject_flow (o : Approvals.ApprovalOrder) (st : State) (text : string) :
  Approvals.approvalStatus o = Approvals.PendingApproval ->
  blank (comment st) = true -> blank text = false ->
  let st1 := fst (step (Some o) ClickReject st) in
  let st2 := fst (step (Some o) (TypeComment text) st1) in
  snd (step (Some o) ClickReject st) = []
  /\ comment st1 = comment st /\ action st1 = Some reject
  /\ rejectDisabled st1 = true
  /\ step (Some o) ClickReject st1 = (st1, [])
  /\ rejectDisabled st2 = false
  /\ step (Some o) ClickReject st2
     = ({| comment := ""; action := None |},
        [onReject (Approvals.id o) text; onOpenChange false]).
Proof.
  intros Hp Hb Ht st1 st2.
  assert (isActionable o = true) as Ha by (by apply bool_decide_eq_true).
  assert (st1 = {| comment := comment st; action := Some reject |}) as E1.
  { subst st1. unfold step. rewrite Ha. unfold rejectDisabled. rewrite Hb.
    destruct st as [c [[]|]]; cbn; by rewrite ?Hb. }
  assert (st2 = {| comment := text; action := Some reject |}) as E2.
  { subst st2. unfold step. rewrite Ha, E1. done. }
  assert (snd (step (Some o) ClickReject st) = []) as E0.
  { unfold step. rewrite Ha. unfold rejectDisabled. rewrite Hb.
    destruct (bool_decide (action st = Some reject)); cbn; by rewrite ?Hb. }
  rewrite E2, E1. unfold step, rejectDisabled. rewrite Ha. cbn [comment action].
  rewrite Hb, Ht. rewrite (bool_decide_eq_true_2 (Some reject = Some reject)) by done.
  cbn [andb]. split; [by destruct (bool_decide (action st = Some reject))|].
  repeat split; done.
Qed.

Lemma reject_flow_witness :
  Approvals.approvalStatus
    (Approvals.finalize (ApprovalExamples.order "AAPL" None)) = Approvals.PendingApproval
  /\ blank (comment initial) = true /\ blank "too large" = false
  /\ snd (step (Some (Approvals.finalize (ApprovalExamples.order "AAPL" None)))
            ClickReject initial) = [].
Proof.
  split; [reflexivity|split; [reflexivity|split; [reflexivity|]]].
  apply (reject_flow (Approvals.finalize (ApprovalExamples.order "AAPL" None))
           initial "too large" eq_refl eq_refl eq_refl).
Defined.

End TradeDetailSheetSpec.

(* ===================================================================== *)
(** * The simulated order book                                            *)
(* ===================================================================== *)

Module OrderBookSpec.
Import OrderBook.

Local Open Scope string_scope.

(** A number below a positive constant is below every positive constant
    with a larger exponent. *)
Lemma lt_below (r a b : float) m1 e1 m2 e2 :
  Prim2SF a = S754_finite false m1 e1 -> Prim2SF b = S754_finite false m2 e2 ->
  (e1 < e2)%Z -> JS.lt r a = true -> JS.lt r b = true.
Proof.
  unfold JS.lt. rewrite !FloatAxioms.ltb_spec. intros -> -> He. unfold SFltb.
  destruct (Prim2SF r) as [[|]|[|]| |[|] m e]; cbn; try done.
  destruct (Z.compare_spec e e1) as [->|Hlt|Hgt]; try done.
  - intros _. by rewrite (proj2 (Z.compare_lt_iff e1 e2) He).
  - intros _. by rewrite (proj2 (Z.compare_lt_iff e e2) ltac:(lia)).
Qed.

Lemma lt_005_03 r :
  JS.lt r 0x1.999999999999ap-5 = true -> JS.lt r 0x1.3333333333333p-2 = true.
Proof. eapply lt_below; [vm_compute; reflexivity|vm_compute; reflexivity|done]. Qed.

Lemma lt_005_025 r : JS.lt r 0x1.999999999999ap-5 = true -> JS.lt r 0x1p-2 = true.
Proof. eapply lt_below; [vm_compute; reflexivity|vm_compute; reflexivity|done]. Qed.

(** One order under one draw: the four outcomes. *)
Lemma update_cases rand o :
  settled o = false ->
  update rand o = o
  \/ status o = Pending /\ update rand o = withStatus o Working
  \/ status o = Working /\ update rand o = fillBy o 0x1.999999999999ap-3
  \/ status o = PartiallyFilled /\ update rand o = fillBy o 0x1p-2.
Proof.
  intros Hs. unfold update.
  destruct (status o) eqn:Est; try (by unfold settled in Hs; rewrite Est in Hs);
    rewrite ?bool_decide_eq_true_2, ?(bool_decide_eq_false_2 (_ = _)) by done;
    cbn [andb].
  - destruct (JS.lt rand 0x1.3333333333333p-2) eqn:E1; [by right; left|].
    destruct (JS.lt rand 0x1.999999999999ap-5) eqn:E2; [|by left].
    apply lt_005_03 in E2. congruence.
  - destruct (JS.lt rand 0x1p-2) eqn:E1; [by right; right; left|].
    destruct (JS.lt rand 0x1.999999999999ap-5) eqn:E2; [|by left].
    apply lt_005_025 in E2. congruence.
  - destruct (JS.lt rand 0x1.3333333333333p-2) eqn:E1; [by right; right; right|].
    destruct (JS.lt rand 0x1.999999999999ap-5) eqn:E2; [|by left].
    apply lt_005_03 in E2. congruence.
Qed.

Lemma sameButProgress_refl o : sameButProgress o o.
Proof. by repeat split. Qed.

Lemma fillBy_spec o f :
  sameButProgress o (fillBy o f)
  /\ (status (fillBy o f) = Filled \/ status (fillBy o f) = PartiallyFilled)
  /\ (status (fillBy o f) = Filled <-> JS.ge (filledQty (fillBy o f)) (qty o) = true).
Proof.
  unfold fillBy. cbv zeta.
  generalize (JS.Math_min (qty o) (filledQty o + JS.Math_floor (qty o * f))).
  intros g. unfold withFill; cbn [status filledQty].
  split; [by repeat split|].
  destruct (JS.ge g (qty o)); repeat split; try done; eauto.
Qed.

Lemma next_progress s s' : next s s' -> (progress s <= progress s')%nat.
Proof.
  destruct s; cbn; intros H; try (by subst);
    first [destruct H as [->|[->| ->]] | destruct H as [->| ->]]; cbn; lia.
Qed.

Lemma update_spec rand o :
  settled o = false ->
  sameButProgress o (update rand o)
  /\ next (status o) (status (update rand o))
  /\ (status (update rand o) = Pending -> update rand o = o)
  /\ (status o = Pending -> filledQty (update rand o) = filledQty o)
  /\ (status (update rand o) = Filled ->
      JS.ge (filledQty (update rand o)) (qty o) = true).
Proof.
  intros Hs.
  destruct (update_cases rand o Hs) as [->|[[Est ->]|[[Est ->]|[Est ->]]]].
  - split; [apply sameButProgress_refl|]. repeat split; try done.
    + unfold settled in Hs. destruct (status o); cbn; eauto.
    + intros Hf. unfold settled in Hs. by rewrite Hf in Hs.
  - cbn. rewrite Est. repeat split; try done. cbn. eauto.
  - destruct (fillBy_spec o 0x1.999999999999ap-3) as (H1 & H2 & H3).
    rewrite Est. repeat split; try apply H1; try done.
    + cbn. destruct H2; eauto.
    + intros Hw. destruct H2; congruence.
    + apply H3.
  - destruct (fillBy_spec o 0x1p-2) as (H1 & H2 & H3).
    rewrite Est. repeat split; try apply H1; try done.
    + cbn. destruct H2; eauto.
    + intros Hw. destruct H2; congruence.
    + apply H3.
Qed.

(** One tick relates every order to the order at the same place. *)
Lemma simulateUpdates_Forall2 (R : Order -> Order -> Prop) :
  (forall o, settled o = true -> R o o) ->
  (forall rand o, settled o = false -> R o (update rand o)) ->
  forall random k prev, Forall2 R prev (snd (simulateUpdates random k prev)).
Proof.
  intros Hsame Hupd random k prev. revert k.
  induction prev as [|o prev IH]; intros k; cbn [simulateUpdates]; [constructor|].
  destruct (settled o) eqn:Hs.
  - specialize (IH k). destruct (simulateUpdates random k prev) as [k' rest'].
    constructor; [by apply Hsame|exact IH].
  - specialize (IH (S k)). destruct (simulateUpdates random (S k) prev) as [k' rest'].
    constructor; [by apply Hupd|exact IH].
Qed.

Lemma ticks_length random n k orders :
  List.length (ticks random n k orders) = List.length orders.
Proof.
  revert k orders. induction n as [|n IH]; intros k orders; cbn [ticks]; [done|].
  pose proof (simulateUpdates_Forall2 (fun _ _ => True) (fun _ _ => I) (fun _ _ _ => I)
                random k orders) as Ht.
  destruct (simulateUpdates random k orders) as [k' orders']. cbn [snd] in Ht.
  rewrite IH. symmetry. by eapply Forall2_length.
Qed.

(** One tick of the simulation, whatever numbers are drawn: the list
    keeps its length and its order; every order keeps every field but
    its status and its filled quantity; a Filled, Cancelled or Rejected
    order is returned as it is; a Pending order stays Pending or becomes
    Working, with its fill unchanged; a Working order stays Working or
    becomes Partially Filled or Filled; a Partially Filled order stays
    so or becomes Filled.  So no order is ever moved to Cancelled or
    Rejected: the branch that cancels can never be taken, since a draw
    below 0.05 is below 0.3 and 0.25 and is caught by a branch before. *)
Theorem tick_moves_orders_forward random k (prev : list Order) :
  Forall2
    (fun o o' =>
       sameButProgress o o'
       /\ (settled o = true -> o' = o)
       /\ next (status o) (status o')
       /\ (status o' = Pending -> o' = o)
       /\ (status o = Pending -> filledQty o' = filledQty o))
    prev (snd (simulateUpdates random k prev)).
Proof.
  apply simulateUpdates_Forall2.
  - intros o Hs. split; [apply sameButProgress_refl|]. repeat split; try done.
    unfold settled in Hs. destruct (status o); cbn; done.
  - intros rand o Hs.
    destruct (update_spec rand o Hs) as (H1 & H2 & H3 & H4 & _).
    split; [exact H1|]. split; [intros; congruence|]. done.
Qed.

Lemma next_unsettled s s' :
  next s s' -> s' = Cancelled \/ s' = Rejected -> s = s'.
Proof.
  destruct s; cbn; intros H [-> | ->]; try done;
    by (destruct H as [H|[H|H]] || destruct H as [H|H]).
Qed.

(** Over any number of ticks and whatever numbers are drawn: the list
    keeps its length and order, the other fields of every order (id,
    symbol, quantity, price, ...) stay what they were, an order that is
    Filled, Cancelled or Rejected never changes again, the status of an
    order never moves back, and an order that ends Cancelled or Rejected
    was so from the start. *)
Theorem settled_orders_stay random n k (orders : list Order) :
  Forall2
    (fun o o' =>
       sameButProgress o o'
       /\ (settled o = true -> o' = o)
       /\ (progress (status o) <= progress (status o'))%nat
       /\ (status o' = Cancelled \/ status o' = Rejected -> status o = status o'))
    orders (ticks random n k orders).
Proof.
  revert k orders. induction n as [|n IH]; intros k orders; cbn [ticks].
  { induction orders as [|o l IHl]; constructor; [|exact IHl].
    split; [apply sameButProgress_refl|]. repeat split; done. }
  assert (Forall2 (fun o o' => sameButProgress o o' /\ (settled o = true -> o' = o)
                               /\ next (status o) (status o'))
            orders (snd (simulateUpdates random k orders))) as Ht.
  { apply simulateUpdates_Forall2.
    - intros o Hs. split; [apply sameButProgress_refl|]. split; [done|].
      unfold settled in Hs. destruct (status o); cbn; done.
    - intros rand o Hs. destruct (update_spec rand o Hs) as (H1 & H2 & _).
      split; [exact H1|]. split; [intros; congruence|done]. }
  destruct (simulateUpdates random k orders) as [k' orders']. cbn [snd] in Ht.
  specialize (IH k' orders'). revert Ht IH.
  generalize (ticks random n k' orders'). intros final Ht.
  revert final. induction Ht as [|o o' l l' Ho Hl IHl]; intros final Hf.
  { inversion Hf. constructor. }
  inversion Hf as [|? o'' ? l'' Ho' Hl']; subst. constructor; [|by apply IHl].
  destruct Ho as (S1 & E1 & N1), Ho' as (S2 & E2 & P2 & R2).
  split; [|split; [|split]].
  - unfold sameButProgress in *. intuition congruence.
  - intros Hs. pose proof (E1 Hs) as ->. by apply E2.
  - apply next_progress in N1. lia.
  - intros Hr. rewrite <- (R2 Hr). apply next_unsettled; [done|]. by rewrite (R2 Hr).
Qed.

Lemma tick_keeps_filled_full random k (prev : list Order) :
  Forall (fun o => status o = Filled -> JS.ge (filledQty o) (qty o) = true) prev ->
  Forall (fun o => status o = Filled -> JS.ge (filledQty o) (qty o) = true)
    (snd (simulateUpdates random k prev)).
Proof.
  intros H. revert k. induction H as [|o prev Ho Hprev IH]; intros k;
    cbn [simulateUpdates]; [constructor|].
  destruct (settled o) eqn:Hs.
  - specialize (IH k). destruct (simulateUpdates random k prev) as [k' rest'].
    by constructor.
  - specialize (IH (S k)). destruct (simulateUpdates random (S k) prev) as [k' rest'].
    constructor; [|exact IH].
    destruct (update_spec (random k) o Hs) as (H1 & _ & _ & _ & H6).
    intros Hf. destruct H1 as (_ & _ & _ & _ & _ & _ & _ & _ & Hq & _).
    rewrite Hq. by apply H6.
Qed.

(** If every Filled order has a filled quantity at least its quantity
    (as the generated orders do), this stays so after any number of
    ticks, whatever numbers are drawn: the simulation marks an order
    Filled only when its fill has reached its quantity. *)
Theorem filled_orders_are_full random n k (orders : list Order) :
  Forall (fun o => status o = Filled -> JS.ge (filledQty o) (qty o) = true) orders ->
  Forall (fun o => status o = Filled -> JS.ge (filledQty o) (qty o) = true)
    (ticks random n k orders).
Proof.
  revert k orders. induction n as [|n IH]; intros k orders H; cbn [ticks]; [done|].
  pose proof (tick_keeps_filled_full random k orders H) as Ht.
  destruct (simulateUpdates random k orders) as [k' orders']. by apply IH.
Qed.

Lemma filled_orders_are_full_witness :
  Forall (fun o => status o = Filled -> JS.ge (filledQty o) (qty o) = true)
    [OrderBookExamples.order Working 0; OrderBookExamples.order Filled 100]
  /\ Forall (fun o => status o = Filled -> JS.ge (filledQty o) (qty o) = true)
       (ticks (fun _ => 0x1p-3%float) 5 0
          [OrderBookExamples.order Working 0; OrderBookExamples.order Filled 100]).
Proof.
  assert (Forall (fun o => status o = Filled -> JS.ge (filledQty o) (qty o) = true)
            [OrderBookExamples.order Working 0; OrderBookExamples.order Filled 100])
    as H by (repeat constructor; done).
  split; [exact H|].
  apply (filled_orders_are_full (fun _ => 0x1p-3%float) 5 0 _ H).
Defined.

(** The working order of the example is filled in five slices of 20,
    so it is Filled with 100 of 100 after five ticks. *)
Example five_ticks_fill_a_working_order :
  (fun o => (status o, filledQty o))
    <$> ticks (fun _ => 0x1p-3%float) 5 0 [OrderBookExamples.order Working 0]
  = [(Filled, 100%float)].
Proof. reflexivity. Qed.

Lemma order_status_key_eqb s s' :
  String.eqb (OrderStatus_string s) (OrderStatus_string s') = bool_decide (s = s').
Proof. by destruct s, s'. Qed.

Lemma order_counts_lookup orders s :
  default 0%nat (counts orders !! OrderStatus_string s)
  = List.length (filtered (Some s) None orders).
Proof.
  unfold counts.
  rewrite (ApprovalsPageSpec.count_fold (fun o => OrderStatus_string (status o))).
  rewrite lookup_empty. cbn [default]. rewrite Nat.add_0_l. unfold filtered. f_equal.
  apply filter_ext. intros o. rewrite order_status_key_eqb.
  by destruct (bool_decide (status o = s)).
Qed.

Lemma order_status_partition (orders : list Order) :
  (List.length (filtered (Some Pending) None orders)
   + List.length (filtered (Some Working) None orders)
   + List.length (filtered (Some PartiallyFilled) None orders)
   + List.length (filtered (Some Filled) None orders)
   + List.length (filtered (Some Cancelled) None orders)
   + List.length (filtered (Some Rejected) None orders) = List.length orders)%nat.
Proof.
  unfold filtered. induction orders as [|o l IH]; [done|]. cbn [List.filter].
  destruct (status o); repeat case_bool_decide; try done; cbn [negb List.length]; lia.
Qed.

(** The number on a status chip is the number of rows shown when that
    status is selected with side "All" (a status without orders has no
    number and no row under any side filter); the six numbers add up to
    the number of orders, and they still add up to it after any number
    of ticks of the simulation; the rows are the orders the filters
    keep, each once, in the order the sort gives them, so that with
    both filters on "All" every order has its row. *)
Theorem status_counts_match_rows random n k (orders : list Order) :
  let total (l : list Order) :=
    (default 0 (counts l !! "Pending") + default 0 (counts l !! "Working")
     + default 0 (counts l !! "Partially Filled") + default 0 (counts l !! "Filled")
     + default 0 (counts l !! "Cancelled") + default 0 (counts l !! "Rejected"))%nat in
  (forall s, default 0%nat (counts orders !! OrderStatus_string s)
             = List.length (rows (Some s) None orders))
  /\ (forall s, counts orders !! OrderStatus_string s = None ->
                forall sd, rows (Some s) sd orders = [])
  /\ total orders = List.length orders
  /\ total (ticks random n k orders) = List.length orders
  /\ (forall sf sd, rows sf sd orders ≡ₚ filtered sf sd orders)
  /\ rows None None orders ≡ₚ orders.
Proof.
  intros total.
  assert (forall l, total l = List.length l) as Htotal.
  { intros l. subst total. cbv beta.
    change "Pending" with (OrderStatus_string Pending).
    change "Working" with (OrderStatus_string Working).
    change "Partially Filled" with (OrderStatus_string PartiallyFilled).
    change "Filled" with (OrderStatus_string Filled).
    change "Cancelled" with (OrderStatus_string Cancelled).
    change "Rejected" with (OrderStatus_string Rejected).
    rewrite !order_counts_lookup. apply order_status_partition. }
  assert (forall sf sd, rows sf sd orders ≡ₚ filtered sf sd orders) as Hperm.
  { intros sf sd. apply ApprovalsPageSpec.Array_sort_perm. }
  split; [|split; [|split; [|split; [|split]]]].
  - intros s. rewrite order_counts_lookup. symmetry. apply Permutation_length, Hperm.
  - intros s Hs sd. pose proof (order_counts_lookup orders s) as Hc.
    rewrite Hs in Hc. cbn in Hc. symmetry in Hc. apply length_zero_iff_nil in Hc.
    assert (filtered (Some s) sd orders = []) as E.
    { unfold filtered in *. clear Hs Hperm.
      induction orders as [|o l IH]; [done|]. cbn [List.filter] in *.
      destruct (negb (bool_decide (status o = s))); [by apply IH|done]. }
    unfold rows. by rewrite E.
  - apply Htotal.
  - rewrite Htotal. apply ticks_length.
  - exact Hperm.
  - rewrite Hperm. unfold filtered.
    assert (forall l : list Order, List.filter (fun _ : Order => true) l = l) as E.
    { induction l as [|o l IH]; cbn; [done|by rewrite IH]. }
    cbn. by rewrite E.
Qed.

End OrderBookSpec.
